(** * OpenPoke provider integrations: credential stores, Whoop OAuth token
      lifecycle, Hevy API key handling, Twilio SMS bridge, Whoop tool adapters.

    A shallow embedding of

      - [server/services/whoop/client.py]
      - [server/routes/whoop.py]
      - [server/services/hevy/client.py]
      - [server/services/sms/client.py]
      - [server/agents/execution_agent/tools/whoop.py]

    The Python code is stateful (files under [~/.openpoke]), talks to the
    outside (HTTP through [requests], the Twilio SDK, the wall clock) and
    raises exceptions.  It is modelled in a state-and-exception monad over a
    [world] holding the files and a trace of the requests sent; everything
    the outside decides (clock readings, HTTP outcomes, Twilio outcomes,
    the process settings) is read from an oracle [env] that the theorems
    quantify over.

    Modelling assumptions, stated once:
      - operations on the files of the per-user configuration directory
        succeed (no disk or permission fault), so the [except] branches that
        only log such a fault are not reachable; a file whose content
        cannot be decoded or parsed is modelled, and so are the [except]
        branches it leads to;
      - one request is handled at a time (the locks are not modelled);
      - JSON numbers are integers;
      - calls to [logger] and [print] have no effect that is modelled. *)

From Stdlib Require Import ZArith String Ascii List Lia Bool.
From stdpp Require Import base gmap strings list.

Set Warnings "-register-all".

Open Scope string_scope.
Open Scope Z_scope.

(** ** Python values *)

(** The values that [json.load] and [response.json()] produce, which are also
    the values the code stores in its dictionaries. [VNone] is Python's
    [None] (JSON [null]). *)
Inductive value :=
| VNone
| VBool (b : bool)
| VNum (n : Z)
| VStr (s : string)
| VList (l : list value)
| VDict (d : gmap string value).

(** Python truthiness: what [if x] and [not x] test. *)
Definition truthy (v : value) : bool :=
  match v with
  | VNone => false
  | VBool b => b
  | VNum n => negb (n =? 0)
  | VStr s => negb (String.eqb s "")
  | VList l => match l with [] => false | _ :: _ => true end
  | VDict d => match map_to_list d with [] => false | _ :: _ => true end
  end.

(** An [Optional[str]] as a Python value. *)
Definition of_ostr (o : option string) : value :=
  match o with
  | None => VNone
  | Some s => VStr s
  end.

(** Truthiness of an [Optional[str]]: neither [None] nor the empty string. *)
Definition truthy_ostr (o : option string) : bool := truthy (of_ostr o).

(** [v == o] for a value [v] and an [Optional[str]] [o]: a string equals the
    same string, [None] equals [None], and values of other types equal
    neither. *)
Definition eq_ostr (v : value) (o : option string) : bool :=
  match v, o with
  | VStr a, Some b => String.eqb a b
  | VNone, None => true
  | _, _ => false
  end.

(** [x or y] on two [Optional[str]]. *)
Definition or_ostr (x y : option string) : option string :=
  if truthy_ostr x then x else y.

(** ** Decimal digits *)

Definition digit_char (n : Z) : ascii :=
  ascii_of_nat (48 + Z.to_nat (n mod 10)).

(** The [w] least significant decimal digits of [n], most significant first:
    ["%0wd" % n] when [0 <= n < 10^w]. *)
Fixpoint fixed (w : nat) (n : Z) : list ascii :=
  match w with
  | O => []
  | S w' => fixed w' (n / 10) ++ [digit_char n]
  end.

Definition digit_val (c : ascii) : option Z :=
  let k := Z.of_nat (nat_of_ascii c) in
  if (48 <=? k) && (k <=? 57) then Some (k - 48) else None.

(** Reads a run of decimal digits, all of which must be digits. *)
Fixpoint digits_val (acc : Z) (cs : list ascii) : option Z :=
  match cs with
  | [] => Some acc
  | c :: cs' =>
      match digit_val c with
      | Some d => digits_val (acc * 10 + d) cs'
      | None => None
      end
  end.

(** Decimal rendering of an integer ([str(n)]), used in messages. *)
Fixpoint nat_digits (fuel : nat) (n : Z) (acc : list ascii) : list ascii :=
  match fuel with
  | O => acc
  | S fuel' =>
      if n <? 10 then digit_char n :: acc
      else nat_digits fuel' (n / 10) (digit_char n :: acc)
  end.

Definition str_Z (n : Z) : string :=
  if n <? 0
  then String "-" (string_of_list_ascii (nat_digits (Z.to_nat (- n)) (- n) []))
  else string_of_list_ascii (nat_digits (S (Z.to_nat n)) n []).

(** ** The [datetime] library, as far as the code uses it

    Naive datetimes of the proleptic Gregorian calendar, with the algorithms
    of CPython's [datetime] module: [_ymd2ord], [_ord2ymd], tuple comparison,
    addition of a [timedelta] through the day ordinal, [isoformat],
    [fromisoformat] and [strftime("%Y-%m-%d")].  A [timedelta] is its total
    number of microseconds. *)
Module datetime.

Record t := mk {
  year : Z; month : Z; day : Z;
  hour : Z; minute : Z; second : Z; microsecond : Z
}.

Definition MINYEAR : Z := 1.
Definition MAXYEAR : Z := 9999.
Definition MAXORDINAL : Z := 3652059.
Definition DI400Y : Z := 146097.
Definition DI100Y : Z := 36524.
Definition DI4Y : Z := 1461.
Definition US_PER_SECOND : Z := 1000000.
Definition US_PER_DAY : Z := 86400 * US_PER_SECOND.

Definition is_leap (y : Z) : bool :=
  (y mod 4 =? 0) && (negb (y mod 100 =? 0) || (y mod 400 =? 0)).

Definition days_before_year (y : Z) : Z :=
  let y' := y - 1 in y' * 365 + y' / 4 - y' / 100 + y' / 400.

(** [_DAYS_IN_MONTH], indexed from 1. *)
Definition DAYS_IN_MONTH (m : Z) : Z :=
  nth (Z.to_nat m) [-1; 31; 28; 31; 30; 31; 30; 31; 31; 30; 31; 30; 31] (-1).

(** [_DAYS_BEFORE_MONTH], indexed from 1. *)
Definition DAYS_BEFORE_MONTH (m : Z) : Z :=
  nth (Z.to_nat m) [-1; 0; 31; 59; 90; 120; 151; 181; 212; 243; 273; 304; 334] (-1).

Definition days_in_month (y m : Z) : Z :=
  if (m =? 2) && is_leap y then 29 else DAYS_IN_MONTH m.

Definition days_before_month (y m : Z) : Z :=
  DAYS_BEFORE_MONTH m + (if (2 <? m) && is_leap y then 1 else 0).

Definition ymd2ord (y m d : Z) : Z :=
  days_before_year y + days_before_month y m + d.

Definition ord2ymd (n : Z) : Z * Z * Z :=
  let n := n - 1 in
  let n400 := n / DI400Y in
  let n := n mod DI400Y in
  let y := n400 * 400 + 1 in
  let n100 := n / DI100Y in
  let n := n mod DI100Y in
  let n4 := n / DI4Y in
  let n := n mod DI4Y in
  let n1 := n / 365 in
  let n := n mod 365 in
  let y := y + n100 * 100 + n4 * 4 + n1 in
  if (n1 =? 4) || (n100 =? 4) then (y - 1, 12, 31)
  else
    let leapyear := (n1 =? 3) && (negb (n4 =? 24) || (n100 =? 3)) in
    let m := Z.shiftr (n + 50) 5 in
    let preceding :=
      DAYS_BEFORE_MONTH m + (if (2 <? m) && leapyear then 1 else 0) in
    if n <? preceding then
      let m := m - 1 in
      let preceding :=
        preceding
        - (DAYS_IN_MONTH m + (if (m =? 2) && leapyear then 1 else 0)) in
      (y, m, n - preceding + 1)
    else (y, m, n - preceding + 1).

Definition toordinal (dt : t) : Z := ymd2ord (year dt) (month dt) (day dt).

(** Microseconds since midnight. *)
Definition time_us (dt : t) : Z :=
  ((hour dt * 60 + minute dt) * 60 + second dt) * US_PER_SECOND
  + microsecond dt.

(** The fields are those of a datetime that Python can construct. *)
Definition valid (dt : t) : bool :=
  (MINYEAR <=? year dt) && (year dt <=? MAXYEAR)
  && (1 <=? month dt) && (month dt <=? 12)
  && (1 <=? day dt) && (day dt <=? days_in_month (year dt) (month dt))
  && (0 <=? hour dt) && (hour dt <? 24)
  && (0 <=? minute dt) && (minute dt <? 60)
  && (0 <=? second dt) && (second dt <? 60)
  && (0 <=? microsecond dt) && (microsecond dt <? US_PER_SECOND).

(** [timedelta(days=d, minutes=m, seconds=s)] on integers: [None] is
    [OverflowError], raised when the day count leaves [+-999999999]. *)
Definition timedelta (days minutes seconds : Z) : option Z :=
  let us := ((days * 24 * 60 + minutes) * 60 + seconds) * US_PER_SECOND in
  if Z.abs (us / US_PER_DAY) <=? 999999999 then Some us else None.

(** [dt + td]: [None] is [OverflowError("date value out of range")]. *)
Definition add (dt : t) (td : Z) : option t :=
  let total := toordinal dt * US_PER_DAY + time_us dt + td in
  let days := total / US_PER_DAY in
  let rest := total mod US_PER_DAY in
  if (0 <? days) && (days <=? MAXORDINAL) then
    let '(y, m, d) := ord2ymd days in
    let secs := rest / US_PER_SECOND in
    Some (mk y m d (secs / 3600) (secs mod 3600 / 60) (secs mod 60)
            (rest mod US_PER_SECOND))
  else None.

Definition lex (c d : comparison) : comparison :=
  match c with Eq => d | Lt => Lt | Gt => Gt end.

(** Comparison of naive datetimes: the tuples of fields, in order. *)
Definition cmp (a b : t) : comparison :=
  lex (year a ?= year b) (lex (month a ?= month b) (lex (day a ?= day b)
    (lex (hour a ?= hour b) (lex (minute a ?= minute b)
      (lex (second a ?= second b) (microsecond a ?= microsecond b)))))).

(** [a >= b]. *)
Definition ge (a b : t) : bool :=
  match cmp a b with Lt => false | _ => true end.

(** [a < b]. *)
Definition lt (a b : t) : bool := negb (ge a b).

(** [dt.strftime("%Y-%m-%d")], for years of four digits (for years before
    1000 the C library decides the padding). *)
Definition strftime_Ymd (dt : t) : string :=
  string_of_list_ascii
    (fixed 4 (year dt) ++ ["-"%char] ++ fixed 2 (month dt)
     ++ ["-"%char] ++ fixed 2 (day dt)).

(** [dt.isoformat()]: the microseconds are printed only when not zero. *)
Definition isoformat (dt : t) : string :=
  string_of_list_ascii
    (fixed 4 (year dt) ++ ["-"%char] ++ fixed 2 (month dt)
     ++ ["-"%char] ++ fixed 2 (day dt) ++ ["T"%char]
     ++ fixed 2 (hour dt) ++ [":"%char] ++ fixed 2 (minute dt)
     ++ [":"%char] ++ fixed 2 (second dt)
     ++ (if microsecond dt =? 0 then []
         else ["."%char] ++ fixed 6 (microsecond dt))).

(** The date part ["YYYY-MM-DD"] of an ISO string, checked as
    [date.fromisoformat] checks it. *)
Definition parse_date (cs : list ascii) : option (Z * Z * Z) :=
  match cs with
  | [y1; y2; y3; y4; d1; m1; m2; d2; a1; a2] =>
      if Ascii.eqb d1 "-" && Ascii.eqb d2 "-" then
        match digits_val 0 [y1; y2; y3; y4],
              digits_val 0 [m1; m2], digits_val 0 [a1; a2] with
        | Some y, Some m, Some d =>
            if (MINYEAR <=? y) && (1 <=? m) && (m <=? 12)
               && (1 <=? d) && (d <=? days_in_month y m)
            then Some (y, m, d) else None
        | _, _, _ => None
        end
      else None
  | _ => None
  end.

(** The time part ["HH:MM:SS"] or ["HH:MM:SS.ffffff"]. *)
Definition parse_time (cs : list ascii) : option (Z * Z * Z * Z) :=
  match cs with
  | h1 :: h2 :: c1 :: m1 :: m2 :: c2 :: s1 :: s2 :: frac =>
      if Ascii.eqb c1 ":" && Ascii.eqb c2 ":" then
        match digits_val 0 [h1; h2], digits_val 0 [m1; m2],
              digits_val 0 [s1; s2] with
        | Some h, Some m, Some s =>
            if (h <? 24) && (m <? 60) && (s <? 60) then
              match frac with
              | [] => Some (h, m, s, 0)
              | [p; f1; f2; f3; f4; f5; f6] =>
                  if Ascii.eqb p "." then
                    match digits_val 0 [f1; f2; f3; f4; f5; f6] with
                    | Some us => Some (h, m, s, us)
                    | None => None
                    end
                  else None
              | _ => None
              end
            else None
        | _, _, _ => None
        end
      else None
  | _ => None
  end.

(** [datetime.fromisoformat(s)] on the strings that [isoformat] writes
    (date, one separator character, time to the second or to the
    microsecond). [None] is [ValueError]; the other spellings that newer
    Python versions also read are outside this model. *)
Definition fromisoformat (s : string) : option t :=
  let cs := list_ascii_of_string s in
  match parse_date (firstn 10 cs), skipn 10 cs with
  | Some (y, m, d), _sep :: rest =>
      match parse_time rest with
      | Some (hh, mm, ss, us) => Some (mk y m d hh mm ss us)
      | None => None
      end
  | _, _ => None
  end.

End datetime.


(** ** Strings as Python reads and trims them *)

(** [c.isspace()] for the characters below U+0100. *)
Definition is_space (c : ascii) : bool :=
  let k := nat_of_ascii c in
  ((9 <=? k) && (k <=? 13))%nat || ((28 <=? k) && (k <=? 32))%nat
  || (k =? 133)%nat || (k =? 160)%nat.

Fixpoint lstrip (cs : list ascii) : list ascii :=
  match cs with
  | [] => []
  | c :: cs' => if is_space c then lstrip cs' else cs
  end.

(** [s.strip()]. *)
Definition strip (s : string) : string :=
  string_of_list_ascii (rev (lstrip (rev (lstrip (list_ascii_of_string s))))).

Definition CR : ascii := ascii_of_nat 13.
Definition LF : ascii := ascii_of_nat 10.

(** What [f.read()] returns for a file opened in text mode with the default
    [newline=None]: a carriage return, with or without the line feed after
    it, is read as one line feed. *)
Fixpoint universal_newlines (cs : list ascii) : list ascii :=
  match cs with
  | [] => []
  | c :: cs' =>
      if Ascii.eqb c CR then
        match cs' with
        | c' :: cs'' =>
            if Ascii.eqb c' LF then LF :: universal_newlines cs''
            else LF :: universal_newlines cs'
        | [] => [LF]
        end
      else c :: universal_newlines cs'
  end.

Definition read_text (content : string) : string :=
  string_of_list_ascii (universal_newlines (list_ascii_of_string content)).

(** ** Responses, exceptions, replies *)

(** A [requests.Response]: [json_body] is what [response.json()] returns,
    [None] when the body is not JSON and the call raises. *)
Record response := mk_response {
  status_code : Z;
  reason : string;
  text : string;
  json_body : option value
}.

Inductive exn :=
| HTTPException (status : Z) (detail : string)   (* fastapi.HTTPException *)
| HTTPError (msg : string) (resp : response)     (* requests.exceptions.HTTPError *)
| PyError (cls : string) (msg : string).         (* any other Exception *)

(** [str(exc)]. *)
Definition str_exn (e : exn) : string :=
  match e with
  | HTTPException status detail => str_Z status +:+ ": " +:+ detail
  | HTTPError msg _ => msg
  | PyError _ msg => msg
  end.

(** What a route handler returns. [error_response] is the helper of
    [server/utils], kept as a constructor. *)
Inductive reply :=
| JSONResponse (content : gmap string value) (status : Z)
| error_response (message : string) (status : Z).

Definition HTTP_200_OK : Z := 200.
Definition HTTP_400_BAD_REQUEST : Z := 400.
Definition HTTP_401_UNAUTHORIZED : Z := 401.
Definition HTTP_500_INTERNAL_SERVER_ERROR : Z := 500.

(** ** The outside world *)

(** A call of [requests.get/post/put/delete]. *)
Record request := mk_request {
  method : string;
  url : string;
  headers : gmap string value;
  params : gmap string value;
  data : gmap string value;          (* form fields, [data=] *)
  json : option value;               (* [json=] *)
  timeout : option Z
}.

Inductive http_outcome :=
| Responded (r : response)
| Failed (cls msg : string).   (* connection error, timeout, invalid header... *)

Inductive twilio_outcome :=
| Created (sid status : string)      (* [client.messages.create] returned *)
| Rejected (cls msg : string).       (* it raised *)

(** The fields of [Settings] ([server/config.py]) that the clients read. *)
Record Settings := mk_settings {
  whoop_client_id : option string;
  whoop_client_secret : option string;
  whoop_redirect_uri : option string;
  hevy_api_key : option string;
  twilio_account_sid : option string;
  twilio_auth_token : option string;
  twilio_phone_number : option string
}.

(** What the outside decides. The oracles are indexed by the number of
    queries made so far, so that two calls may be answered differently. *)
Record env := mk_env {
  get_settings : Settings;
  utcnow_at : nat -> datetime.t;
  http_at : nat -> request -> http_outcome;
  twilio_installed : bool;
  twilio_create_at : nat -> value -> value -> string -> value -> string -> twilio_outcome;
  token_urlsafe_at : nat -> string;
  py_repr : value -> string          (* [str(v)] of a list or a dict *)
}.

(** The content of a JSON file: [json.load] raises on [Garbage]. *)
Inductive file :=
| Garbage
| Json (v : value).

(** The content of a text file as [f.read()] finds it: [Undecodable] when
    the bytes are not text in the encoding of the locale, and the read
    raises [UnicodeDecodeError]. *)
Inductive text_file :=
| Undecodable
| Text (content : string).

Inductive event :=
| Http (r : request)                                  (* a request was sent *)
| Refresh                                             (* [_refresh_token] was entered *)
| Message (account_sid auth_token : value) (to_number : string)
          (from_number : value) (body : string).      (* [messages.create] was called *)

Record world := mk_world {
  token_file : option file;      (* ~/.openpoke/whoop_token.json *)
  state_file : option text_file; (* ~/.openpoke/whoop_oauth_state.txt *)
  api_key_file : option file;    (* ~/.openpoke/hevy_api_key.json *)
  config_file : option file;     (* ~/.openpoke/sms_config.json *)
  trace : list event;            (* oldest first *)
  ticks : nat                    (* oracle queries made so far *)
}.

Definition set_token_file (f : option file) (w : world) : world :=
  mk_world f (state_file w) (api_key_file w) (config_file w) (trace w) (ticks w).
Definition set_state_file (f : option text_file) (w : world) : world :=
  mk_world (token_file w) f (api_key_file w) (config_file w) (trace w) (ticks w).
Definition set_api_key_file (f : option file) (w : world) : world :=
  mk_world (token_file w) (state_file w) f (config_file w) (trace w) (ticks w).
Definition set_config_file (f : option file) (w : world) : world :=
  mk_world (token_file w) (state_file w) (api_key_file w) f (trace w) (ticks w).
Definition log (e : event) (w : world) : world :=
  mk_world (token_file w) (state_file w) (api_key_file w) (config_file w)
           (trace w ++ [e]) (ticks w).
Definition tick (w : world) : world :=
  mk_world (token_file w) (state_file w) (api_key_file w) (config_file w)
           (trace w) (S (ticks w)).

(** ** The monad: state and exceptions *)

Inductive result (A : Type) :=
| Ok (a : A)
| Raise (e : exn).
Arguments Ok {A} a.
Arguments Raise {A} e.

Definition M (A : Type) : Type := world -> result A * world.

Definition ret {A} (a : A) : M A := fun w => (Ok a, w).

Definition bind {A B} (c : M A) (k : A -> M B) : M B :=
  fun w =>
    match c w with
    | (Ok a, w') => k a w'
    | (Raise e, w') => (Raise e, w')
    end.

Definition raise {A} (e : exn) : M A := fun w => (Raise e, w).

(** [try: c except Exception as e: h e]. *)
Definition try_except {A} (c : M A) (h : exn -> M A) : M A :=
  fun w =>
    match c w with
    | (Ok a, w') => (Ok a, w')
    | (Raise e, w') => h e w'
    end.

Definition get_world : M world := fun w => (Ok w, w).
Definition modify (f : world -> world) : M unit := fun w => (Ok tt, f w).

(** An [option] whose [None] is the exception [e]. *)
Definition or_raise {A} (o : option A) (e : exn) : M A :=
  match o with
  | Some a => ret a
  | None => raise e
  end.

Declare Scope monad_scope.
Delimit Scope monad_scope with monad.
Notation "x <- c ;; k" := (bind c (fun x => k))
  (at level 100, c at next level, right associativity) : monad_scope.
Notation "c ;; k" := (bind c (fun _ => k))
  (at level 100, right associativity) : monad_scope.
Open Scope monad_scope.

(** ** Library calls *)

(** [str(v)], as an f-string renders a value. *)
Definition str_value (E : env) (v : value) : string :=
  match v with
  | VNone => "None"
  | VBool true => "True"
  | VBool false => "False"
  | VNum n => str_Z n
  | VStr s => s
  | VList _ | VDict _ => py_repr E v
  end.

(** [d.get(key, default)]: [AttributeError] when [d] is not a dict. *)
Definition dict_get (d : value) (key : string) (default : value) : M value :=
  match d with
  | VDict m => ret (match m !! key with Some v => v | None => default end)
  | _ => raise (PyError "AttributeError" "object has no attribute 'get'")
  end.

(** [response.raise_for_status()]: raises for the 4xx and 5xx statuses. *)
Definition raise_for_status (u : string) (r : response) : M unit :=
  if (400 <=? status_code r) && (status_code r <? 500) then
    raise (HTTPError (str_Z (status_code r) +:+ " Client Error: " +:+ reason r
                      +:+ " for url: " +:+ u) r)
  else if (500 <=? status_code r) && (status_code r <? 600) then
    raise (HTTPError (str_Z (status_code r) +:+ " Server Error: " +:+ reason r
                      +:+ " for url: " +:+ u) r)
  else ret tt.

(** [response.json()]. *)
Definition response_json (r : response) : M value :=
  or_raise (json_body r) (PyError "JSONDecodeError" "Expecting value").

(** [timedelta(seconds=v)]: an integer (or a bool, which is one) is
    accepted, anything else is a [TypeError]. *)
Definition timedelta_seconds (v : value) : M Z :=
  match v with
  | VNum n =>
      or_raise (datetime.timedelta 0 0 n)
        (PyError "OverflowError" "days out of range")
  | VBool b => ret ((if b then 1 else 0) * datetime.US_PER_SECOND)
  | _ => raise (PyError "TypeError" "unsupported type for timedelta seconds component")
  end.

(** [dt + td]. *)
Definition datetime_add (dt : datetime.t) (td : Z) : M datetime.t :=
  or_raise (datetime.add dt td) (PyError "OverflowError" "date value out of range").

(** [datetime.fromisoformat(v)]. *)
Definition datetime_fromisoformat (v : value) : M datetime.t :=
  match v with
  | VStr s =>
      or_raise (datetime.fromisoformat s)
        (PyError "ValueError" "Invalid isoformat string")
  | _ => raise (PyError "TypeError" "fromisoformat: argument must be str")
  end.

Section Oracles.
Context (E : env).

(** [datetime.utcnow()]. *)
Definition utcnow : M datetime.t :=
  fun w => (Ok (utcnow_at E (ticks w)), tick w).

(** [requests.<method>(url, ...)]: the request is sent, then the outcome
    is a response or an exception of the library. *)
Definition send (r : request) : M response :=
  fun w =>
    let w' := log (Http r) (tick w) in
    match http_at E (ticks w) r with
    | Responded resp => (Ok resp, w')
    | Failed cls msg => (Raise (PyError cls msg), w')
    end.

(** [secrets.token_urlsafe(32)]. *)
Definition token_urlsafe : M string :=
  fun w => (Ok (token_urlsafe_at E (ticks w)), tick w).

End Oracles.

(** ** [server/services/whoop/client.py] *)
Module Whoop.
Section Client.
Context (E : env).

Definition TOKEN_URL : string := "https://api.prod.whoop.com/oauth/oauth2/token".
Definition API_BASE : string := "https://api.prod.whoop.com/developer/v2/".

Definition _save_token (token_data : value) : M unit :=
  modify (set_token_file (Some (Json token_data))).

Definition _load_token : M value :=
  w <- get_world ;;
  match token_file w with
  | None => ret VNone
  | Some Garbage => ret VNone
  | Some (Json v) => ret v
  end.

Definition _clear_token : M unit :=
  w <- get_world ;;
  match token_file w with
  | Some _ => modify (set_token_file None)
  | None => ret tt
  end.

Definition _save_oauth_state (state : string) : M unit :=
  modify (set_state_file (Some (Text state))).

(** The whole body is in a [try]: when the read raises, the handler
    returns [False] and the [unlink] after the read has not run. *)
Definition _validate_and_clear_state (state : string) : M bool :=
  try_except
    (w <- get_world ;;
     match state_file w with
     | None => ret false
     | Some f =>
         content <- or_raise (match f with
                              | Text content => Some content
                              | Undecodable => None
                              end)
                      (PyError "UnicodeDecodeError" "invalid start byte") ;;
         let saved_state := strip (read_text content) in
         modify (set_state_file None) ;;
         ret (String.eqb saved_state state)
     end)
    (fun _ => ret false).

Definition _is_token_expired (token_data : value) : M bool :=
  access_token <- dict_get token_data "access_token" VNone ;;
  if negb (truthy access_token) then ret true
  else
    expires_at <- dict_get token_data "expires_at" VNone ;;
    if negb (truthy expires_at) then ret true
    else
      expiry_time <- datetime_fromisoformat expires_at ;;
      now <- utcnow E ;;
      margin <- datetime_add now (5 * 60 * datetime.US_PER_SECOND) ;;
      ret (datetime.ge margin expiry_time).

(** The form of the token request. *)
Definition refresh_request (refresh_token : value) : request :=
  mk_request "POST" TOKEN_URL ∅ ∅
    (<["grant_type" := VStr "refresh_token"]>
     (<["refresh_token" := refresh_token]>
      (<["client_id" := of_ostr (whoop_client_id (get_settings E))]>
       (<["client_secret" := of_ostr (whoop_client_secret (get_settings E))]> ∅))))
    None None.

Definition _refresh_token : M value :=
  modify (log Refresh) ;;
  token_data <- _load_token ;;
  if negb (truthy token_data) then ret VNone
  else
    refresh_token <- dict_get token_data "refresh_token" VNone ;;
    if negb (truthy refresh_token) then ret VNone
    else if negb (truthy_ostr (whoop_client_id (get_settings E)))
            || negb (truthy_ostr (whoop_client_secret (get_settings E)))
    then ret VNone
    else
      try_except
        (response <- send E (refresh_request refresh_token) ;;
         raise_for_status TOKEN_URL response ;;
         new_token_data <- response_json response ;;
         expires_in <- dict_get new_token_data "expires_in" (VNum 3600) ;;
         now <- utcnow E ;;
         delta <- timedelta_seconds expires_in ;;
         expires_at <- datetime_add now delta ;;
         match new_token_data with
         | VDict d =>
             let d := <["expires_at" := VStr (datetime.isoformat expires_at)]> d in
             let d :=
               match d !! "refresh_token" with
               | None => <["refresh_token" := refresh_token]> d
               | Some _ => d
               end in
             _save_token (VDict d) ;;
             ret (VDict d)
         | _ => raise (PyError "TypeError" "object does not support item assignment")
         end)
        (fun _ => ret VNone).

Definition _get_valid_token : M value :=
  token_data <- _load_token ;;
  if negb (truthy token_data) then ret VNone
  else
    expired <- _is_token_expired token_data ;;
    if expired then
      token_data <- _refresh_token ;;
      if negb (truthy token_data) then ret VNone
      else dict_get token_data "access_token" VNone
    else dict_get token_data "access_token" VNone.

Definition data_request (endpoint : string) (access_token : value)
    (params : gmap string value) : request :=
  mk_request "GET" (API_BASE +:+ endpoint)
    (<["Authorization" := VStr ("Bearer " +:+ str_value E access_token)]>
     (<["Accept" := VStr "application/json"]> ∅))
    params ∅ None None.

Definition _make_whoop_request (endpoint : string)
    (params : gmap string value) : M value :=
  access_token <- _get_valid_token ;;
  if negb (truthy access_token) then
    raise (HTTPException HTTP_401_UNAUTHORIZED
             "Whoop not connected. Please connect your Whoop account first.")
  else
    try_except
      (response <- send E (data_request endpoint access_token params) ;;
       raise_for_status (API_BASE +:+ endpoint) response ;;
       response_json response)
      (fun exc =>
         match exc with
         | HTTPError _ resp =>
             if status_code resp =? 401 then
               _clear_token ;;
               raise (HTTPException HTTP_401_UNAUTHORIZED
                        "Whoop authentication expired. Please reconnect.")
             else
               raise (HTTPException (status_code resp)
                        ("Whoop API error: " +:+ text resp))
         | _ =>
             raise (HTTPException HTTP_500_INTERNAL_SERVER_ERROR
                      ("Failed to fetch Whoop data: " +:+ str_exn exc))
         end).

Definition save_oauth_state (state : string) : M unit :=
  _save_oauth_state state.

Definition exchange_request (code : string) : request :=
  mk_request "POST" TOKEN_URL ∅ ∅
    (<["grant_type" := VStr "authorization_code"]>
     (<["code" := VStr code]>
      (<["client_id" := of_ostr (whoop_client_id (get_settings E))]>
       (<["client_secret" := of_ostr (whoop_client_secret (get_settings E))]>
        (<["redirect_uri" := of_ostr (whoop_redirect_uri (get_settings E))]> ∅)))))
    None None.

Definition connect_whoop (code state : string) : M reply :=
  valid <- _validate_and_clear_state state ;;
  if negb valid then
    ret (error_response "Invalid OAuth state - possible CSRF attack"
           HTTP_400_BAD_REQUEST)
  else if negb (truthy_ostr (whoop_client_id (get_settings E)))
          || negb (truthy_ostr (whoop_client_secret (get_settings E)))
  then
    ret (error_response "Whoop client credentials not configured"
           HTTP_500_INTERNAL_SERVER_ERROR)
  else
    try_except
      (response <- send E (exchange_request code) ;;
       raise_for_status TOKEN_URL response ;;
       token_data <- response_json response ;;
       expires_in <- dict_get token_data "expires_in" (VNum 3600) ;;
       now <- utcnow E ;;
       delta <- timedelta_seconds expires_in ;;
       expires_at <- datetime_add now delta ;;
       match token_data with
       | VDict d =>
           _save_token
             (VDict (<["expires_at" := VStr (datetime.isoformat expires_at)]> d)) ;;
           ret (JSONResponse
                  (<["success" := VBool true]>
                   (<["message" := VStr "Whoop connected successfully"]> ∅))
                  HTTP_200_OK)
       | _ => raise (PyError "TypeError" "object does not support item assignment")
       end)
      (fun exc =>
         match exc with
         | HTTPError _ resp =>
             ret (error_response ("Failed to connect Whoop: " +:+ text resp)
                    HTTP_400_BAD_REQUEST)
         | _ =>
             ret (error_response ("Failed to connect Whoop: " +:+ str_exn exc)
                    HTTP_500_INTERNAL_SERVER_ERROR)
         end).

Definition disconnect_whoop : M reply :=
  _clear_token ;;
  ret (JSONResponse
         (<["success" := VBool true]>
          (<["message" := VStr "Whoop disconnected successfully"]> ∅))
         HTTP_200_OK).

Definition get_whoop_status : M reply :=
  token_data <- _load_token ;;
  access_token <-
    (if negb (truthy token_data) then ret VNone
     else dict_get token_data "access_token" VNone) ;;
  if negb (truthy token_data) || negb (truthy access_token) then
    ret (JSONResponse {["connected" := VBool false]} HTTP_200_OK)
  else
    expired <- _is_token_expired token_data ;;
    refreshed <- (if expired then _refresh_token else ret token_data) ;;
    if expired && negb (truthy refreshed) then
      ret (JSONResponse {["connected" := VBool false]} HTTP_200_OK)
    else
      ret (JSONResponse {["connected" := VBool true]} HTTP_200_OK).

Definition get_recovery_data (start_date end_date : option string) : M value :=
  let params : gmap string value := ∅ in
  let params :=
    match start_date with
    | Some s =>
        if truthy (VStr s) then
          if (String.length s =? 10)%nat
          then <["start" := VStr (s +:+ "T00:00:00.000Z")]> params
          else <["start" := VStr s]> params
        else params
    | None => params
    end in
  let params :=
    match end_date with
    | Some s =>
        if truthy (VStr s) then
          if (String.length s =? 10)%nat
          then <["end" := VStr (s +:+ "T23:59:59.999Z")]> params
          else <["end" := VStr s]> params
        else params
    | None => params
    end in
  _make_whoop_request "recovery" params.

Definition get_sleep_data (start_date end_date : option string) : M value :=
  let params : gmap string value := ∅ in
  let params :=
    match start_date with
    | Some s =>
        if truthy (VStr s) then
          if (String.length s =? 10)%nat
          then <["start" := VStr (s +:+ "T00:00:00.000Z")]> params
          else <["start" := VStr s]> params
        else params
    | None => params
    end in
  let params :=
    match end_date with
    | Some s =>
        if truthy (VStr s) then
          if (String.length s =? 10)%nat
          then <["end" := VStr (s +:+ "T23:59:59.999Z")]> params
          else <["end" := VStr s]> params
        else params
    | None => params
    end in
  _make_whoop_request "activity/sleep" params.

Definition get_strain_data (start_date end_date : option string) : M value :=
  let params : gmap string value := ∅ in
  let params :=
    match start_date with
    | Some s => if truthy (VStr s) then <["start" := VStr s]> params else params
    | None => params
    end in
  let params :=
    match end_date with
    | Some s => if truthy (VStr s) then <["end" := VStr s]> params else params
    | None => params
    end in
  _make_whoop_request "cycle" params.

Definition get_workout_data (start_date end_date : option string) : M value :=
  let params : gmap string value := ∅ in
  let params :=
    match start_date with
    | Some s =>
        if truthy (VStr s) then
          if (String.length s =? 10)%nat
          then <["start" := VStr (s +:+ "T00:00:00.000Z")]> params
          else <["start" := VStr s]> params
        else params
    | None => params
    end in
  let params :=
    match end_date with
    | Some s =>
        if truthy (VStr s) then
          if (String.length s =? 10)%nat
          then <["end" := VStr (s +:+ "T23:59:59.999Z")]> params
          else <["end" := VStr s]> params
        else params
    | None => params
    end in
  _make_whoop_request "activity/workout" params.

Definition get_cycles_data (start_date end_date : option string) : M value :=
  let params : gmap string value := ∅ in
  let params :=
    match start_date with
    | Some s =>
        if truthy (VStr s) then
          if (String.length s =? 10)%nat
          then <["start" := VStr (s +:+ "T00:00:00.000Z")]> params
          else <["start" := VStr s]> params
        else params
    | None => params
    end in
  let params :=
    match end_date with
    | Some s =>
        if truthy (VStr s) then
          if (String.length s =? 10)%nat
          then <["end" := VStr (s +:+ "T23:59:59.999Z")]> params
          else <["end" := VStr s]> params
        else params
    | None => params
    end in
  _make_whoop_request "cycle" params.

End Client.
End Whoop.

(** ** [server/routes/whoop.py] *)
Module WhoopRoutes.
Section Routes.
Context (E : env).

(** [GET /whoop/connect]: the reply is the URL of the redirect. *)
Definition whoop_connect : M string :=
  let settings := get_settings E in
  if negb (truthy_ostr (whoop_client_id settings)) then
    raise (PyError "ValueError" "Whoop client credentials not configured")
  else
    state <- token_urlsafe E ;;
    Whoop.save_oauth_state state ;;
    let redirect_uri :=
      or_ostr (whoop_redirect_uri settings)
              (Some "http://localhost:3000/api/whoop/callback") in
    ret ("https://api.prod.whoop.com/oauth/oauth2/auth"
         +:+ "?client_id=" +:+ str_value E (of_ostr (whoop_client_id settings))
         +:+ "&redirect_uri=" +:+ str_value E (of_ostr redirect_uri)
         +:+ "&response_type=code"
         +:+ "&scope=read:recovery read:sleep read:workout read:cycles read:body_measurement"
         +:+ "&state=" +:+ state).

(** [GET /whoop/callback?code&state]. *)
Definition whoop_callback (code state : string) : M reply :=
  Whoop.connect_whoop E code state.

End Routes.
End WhoopRoutes.

(** ** [server/services/hevy/client.py] *)
Module Hevy.
Section Client.
Context (E : env).

Definition API_BASE : string := "https://api.hevyapp.com/v1/".

Definition _save_api_key_to_file (api_key : string) : M unit :=
  modify (set_api_key_file (Some (Json (VDict {["api_key" := VStr api_key]})))).

Definition _load_api_key_from_file : M value :=
  w <- get_world ;;
  match api_key_file w with
  | None => ret VNone
  | Some content =>
      try_except
        (data <- or_raise (match content with
                           | Json v => Some v
                           | Garbage => None
                           end)
                   (PyError "JSONDecodeError" "Expecting value") ;;
         dict_get data "api_key" VNone)
        (fun _ => ret VNone)
  end.

Definition _clear_api_key_file : M unit :=
  w <- get_world ;;
  match api_key_file w with
  | Some _ => modify (set_api_key_file None)
  | None => ret tt
  end.

Definition _get_api_key : M value :=
  api_key <- _load_api_key_from_file ;;
  if truthy api_key then ret api_key
  else ret (of_ostr (hevy_api_key (get_settings E))).

Definition or_empty (params : option (gmap string value)) : gmap string value :=
  match params with
  | Some d => d
  | None => ∅
  end.

Definition _make_hevy_request (endpoint method : string)
    (params : option (gmap string value)) (json_data : option value) : M value :=
  api_key <- _get_api_key ;;
  if negb (truthy api_key) then
    raise (HTTPException HTTP_401_UNAUTHORIZED
             "Hevy not connected. Please add your Hevy API key first.")
  else
    let headers : gmap string value :=
      <["api-key" := api_key]> (<["Accept" := VStr "application/json"]> ∅) in
    let headers :=
      if truthy (match json_data with Some v => v | None => VNone end)
      then <["Content-Type" := VStr "application/json"]> headers
      else headers in
    let url := API_BASE +:+ endpoint in
    try_except
      (response <-
         (if String.eqb method "GET" then
            send E (mk_request "GET" url headers (or_empty params) ∅ None None)
          else if String.eqb method "POST" then
            send E (mk_request "POST" url headers (or_empty params) ∅ json_data None)
          else if String.eqb method "PUT" then
            send E (mk_request "PUT" url headers (or_empty params) ∅ json_data None)
          else if String.eqb method "DELETE" then
            send E (mk_request "DELETE" url headers (or_empty params) ∅ None None)
          else raise (PyError "ValueError" ("Unsupported HTTP method: " +:+ method))) ;;
       raise_for_status url response ;;
       response_json response)
      (fun exc =>
         match exc with
         | HTTPError _ resp =>
             if status_code resp =? 401 then
               raise (HTTPException HTTP_401_UNAUTHORIZED
                        "Hevy API key is invalid. Please update your API key.")
             else
               raise (HTTPException (status_code resp)
                        ("Hevy API error: " +:+ text resp))
         | _ =>
             raise (HTTPException HTTP_500_INTERNAL_SERVER_ERROR
                      ("Failed to fetch Hevy data: " +:+ str_exn exc))
         end).

(** The validation probe: one page of one workout, five seconds. *)
Definition probe_request (api_key : value) : request :=
  mk_request "GET" (API_BASE +:+ "workouts")
    (<["X-API-Key" := api_key]> (<["Accept" := VStr "application/json"]> ∅))
    (<["page" := VNum 1]> (<["pageSize" := VNum 1]> ∅))
    ∅ None (Some 5).

Definition save_hevy_api_key (api_key : string) : M reply :=
  if negb (truthy (VStr api_key)) || negb (truthy (VStr (strip api_key))) then
    ret (error_response "API key cannot be empty" HTTP_400_BAD_REQUEST)
  else
    try_except
      (response <- send E (probe_request (VStr (strip api_key))) ;;
       raise_for_status (API_BASE +:+ "workouts") response ;;
       _save_api_key_to_file (strip api_key) ;;
       ret (JSONResponse
              (<["success" := VBool true]>
               (<["message" := VStr "Hevy API key saved successfully"]> ∅))
              HTTP_200_OK))
      (fun exc =>
         match exc with
         | HTTPError _ _ =>
             ret (error_response
                    "Invalid Hevy API key. Please check your API key and try again."
                    HTTP_400_BAD_REQUEST)
         | _ =>
             ret (error_response
                    ("Failed to save Hevy API key: " +:+ str_exn exc)
                    HTTP_500_INTERNAL_SERVER_ERROR)
         end).

Definition clear_hevy_api_key : M reply :=
  _clear_api_key_file ;;
  ret (JSONResponse
         (<["success" := VBool true]>
          (<["message" := VStr "Hevy disconnected successfully"]> ∅))
         HTTP_200_OK).

Definition get_hevy_status : M reply :=
  api_key <- _get_api_key ;;
  if negb (truthy api_key) then
    ret (JSONResponse {["connected" := VBool false]} HTTP_200_OK)
  else
    let settings := get_settings E in
    if eq_ostr api_key (hevy_api_key settings)
       && truthy_ostr (hevy_api_key settings)
    then
      ret (JSONResponse
             (<["connected" := VBool true]>
              (<["source" := VStr "environment"]> ∅))
             HTTP_200_OK)
    else
      try_except
        (response <- send E (probe_request api_key) ;;
         raise_for_status (API_BASE +:+ "workouts") response ;;
         ret (JSONResponse
                (<["connected" := VBool true]>
                 (<["source" := VStr "validated"]> ∅))
                HTTP_200_OK))
        (fun _ =>
           ret (JSONResponse {["connected" := VBool false]} HTTP_200_OK)).

End Client.
End Hevy.

(** ** [server/services/sms/client.py] *)
Module Sms.
Section Client.
Context (E : env).

Definition _load_config : M value :=
  w <- get_world ;;
  match config_file w with
  | None => ret (VDict ∅)
  | Some Garbage => ret (VDict ∅)
  | Some (Json v) => ret v
  end.

(** [settings_value or config.get(key)]: the stored configuration is only
    consulted when the setting is empty. *)
Definition setting_or_config (setting : option string) (config : value)
    (key : string) : M value :=
  if truthy_ostr setting then ret (of_ostr setting)
  else dict_get config key VNone.

(** The client is the pair of credentials it was built from. *)
Definition _get_twilio_client : M (value * value) :=
  if negb (twilio_installed E) then
    raise (PyError "ImportError"
             "Twilio SDK not installed. Run: pip install twilio")
  else
    let settings := get_settings E in
    config <- _load_config ;;
    account_sid <- setting_or_config (twilio_account_sid settings) config "account_sid" ;;
    auth_token <- setting_or_config (twilio_auth_token settings) config "auth_token" ;;
    if negb (truthy account_sid) || negb (truthy auth_token) then
      raise (PyError "ValueError" "Twilio credentials not configured")
    else ret (account_sid, auth_token).

(** [client.messages.create(to=, from_=, body=)]. *)
Definition messages_create (client : value * value) (to_number : string)
    (from_number : value) (body : string) : M (string * string) :=
  fun w =>
    let w' := log (Message (fst client) (snd client) to_number from_number body)
                  (tick w) in
    match twilio_create_at E (ticks w) (fst client) (snd client)
            to_number from_number body with
    | Created sid status => (Ok (sid, status), w')
    | Rejected cls msg => (Raise (PyError cls msg), w')
    end.

Definition send_sms (to_number message : string) : M value :=
  let settings := get_settings E in
  config <- _load_config ;;
  from_number <- setting_or_config (twilio_phone_number settings) config "phone_number" ;;
  if negb (truthy from_number) then
    raise (PyError "ValueError" "Twilio phone number not configured")
  else
    try_except
      (client <- _get_twilio_client ;;
       sms <- messages_create client to_number from_number message ;;
       ret (VDict (<["success" := VBool true]>
                   (<["sid" := VStr (fst sms)]>
                    (<["status" := VStr (snd sms)]>
                     (<["to" := VStr to_number]> ∅))))))
      (fun e =>
         ret (VDict (<["success" := VBool false]>
                     (<["error" := VStr (str_exn e)]> ∅)))).

End Client.
End Sms.

(** ** [server/agents/execution_agent/tools/whoop.py] *)
Module WhoopTools.
Section Tools.
Context (E : env).

Definition _get_default_date_range : M (string * string) :=
  end_date <- utcnow E ;;
  delta <- or_raise (datetime.timedelta 7 0 0)
             (PyError "OverflowError" "days out of range") ;;
  start_date <- datetime_add end_date (- delta) ;;
  ret (datetime.strftime_Ymd start_date, datetime.strftime_Ymd end_date).

(** [if not start_date or not end_date: start_date, end_date = ...]. *)
Definition resolve_dates (start_date end_date : option string)
    : M (option string * option string) :=
  if negb (truthy_ostr start_date) || negb (truthy_ostr end_date) then
    range <- _get_default_date_range ;;
    ret (Some (fst range), Some (snd range))
  else ret (start_date, end_date).

Definition _whoop_get_recovery (start_date end_date : option string) : M string :=
  try_except
    (dates <- resolve_dates start_date end_date ;;
     data <- Whoop.get_recovery_data E (fst dates) (snd dates) ;;
     ret (str_value E data))
    (fun exc => ret ("Error fetching recovery data: " +:+ str_exn exc)).

Definition _whoop_get_sleep (start_date end_date : option string) : M string :=
  try_except
    (dates <- resolve_dates start_date end_date ;;
     data <- Whoop.get_sleep_data E (fst dates) (snd dates) ;;
     ret (str_value E data))
    (fun exc => ret ("Error fetching sleep data: " +:+ str_exn exc)).

Definition _whoop_get_strain (start_date end_date : option string) : M string :=
  try_except
    (dates <- resolve_dates start_date end_date ;;
     data <- Whoop.get_strain_data E (fst dates) (snd dates) ;;
     ret (str_value E data))
    (fun exc => ret ("Error fetching strain data: " +:+ str_exn exc)).

Definition _whoop_get_workouts (start_date end_date : option string) : M string :=
  try_except
    (dates <- resolve_dates start_date end_date ;;
     data <- Whoop.get_workout_data E (fst dates) (snd dates) ;;
     ret (str_value E data))
    (fun exc => ret ("Error fetching workout data: " +:+ str_exn exc)).

Definition _whoop_get_cycles (start_date end_date : option string) : M string :=
  try_except
    (dates <- resolve_dates start_date end_date ;;
     data <- Whoop.get_cycles_data E (fst dates) (snd dates) ;;
     ret (str_value E data))
    (fun exc => ret ("Error fetching cycle data: " +:+ str_exn exc)).

End Tools.
End WhoopTools.

(** ** The five Whoop operations, by name *)
Inductive whoop_op := Recovery | Sleep | Strain | Workouts | Cycles.

Definition tool_name (op : whoop_op) : string :=
  match op with
  | Recovery => "whoop_get_recovery"
  | Sleep => "whoop_get_sleep"
  | Strain => "whoop_get_strain"
  | Workouts => "whoop_get_workouts"
  | Cycles => "whoop_get_cycles"
  end.

(** The adapter of each operation. *)
Definition adapter (E : env) (op : whoop_op)
    : option string -> option string -> M string :=
  match op with
  | Recovery => WhoopTools._whoop_get_recovery E
  | Sleep => WhoopTools._whoop_get_sleep E
  | Strain => WhoopTools._whoop_get_strain E
  | Workouts => WhoopTools._whoop_get_workouts E
  | Cycles => WhoopTools._whoop_get_cycles E
  end.

(** [build_registry] of the tool module: the dictionary from tool names to
    adapters, as a lookup. *)
Definition build_registry (E : env) (name : string)
    : option (option string -> option string -> M string) :=
  if String.eqb name "whoop_get_recovery" then Some (WhoopTools._whoop_get_recovery E)
  else if String.eqb name "whoop_get_sleep" then Some (WhoopTools._whoop_get_sleep E)
  else if String.eqb name "whoop_get_strain" then Some (WhoopTools._whoop_get_strain E)
  else if String.eqb name "whoop_get_workouts" then Some (WhoopTools._whoop_get_workouts E)
  else if String.eqb name "whoop_get_cycles" then Some (WhoopTools._whoop_get_cycles E)
  else None.

(** The data-fetch function behind each adapter. *)
Definition fetch (E : env) (op : whoop_op)
    : option string -> option string -> M value :=
  match op with
  | Recovery => Whoop.get_recovery_data E
  | Sleep => Whoop.get_sleep_data E
  | Strain => Whoop.get_strain_data E
  | Workouts => Whoop.get_workout_data E
  | Cycles => Whoop.get_cycles_data E
  end.

(** The endpoint each data-fetch function requests. *)
Definition endpoint (op : whoop_op) : string :=
  match op with
  | Recovery => "recovery"
  | Sleep => "activity/sleep"
  | Strain => "cycle"
  | Workouts => "activity/workout"
  | Cycles => "cycle"
  end.

(** ** Observations on traces *)

Definition is_refresh (e : event) : bool :=
  match e with Refresh => true | _ => false end.

(** The number of times [_refresh_token] was entered. *)
Definition refresh_attempts (tr : list event) : nat :=
  length (filter (fun e => is_refresh e = true) tr).

(** The requests sent, oldest first. *)
Definition requests_sent (tr : list event) : list request :=
  omap (fun e => match e with Http r => Some r | _ => None end) tr.

(** Whether a value is a dictionary. *)
Definition is_dict (v : value) : bool :=
  match v with VDict _ => true | _ => false end.

(** The stored token record is absent, unreadable, a JSON object, or a JSON
    value that counts as false: what the module itself writes, and what
    [_load_token] turns into "no record". *)
Definition record_shape (w : world) : bool :=
  match token_file w with
  | Some (Json v) => is_dict v || negb (truthy v)
  | _ => true
  end.

(** The refresh token of the stored record, [None] when there is none. *)
Definition stored_refresh_token (w : world) : value :=
  match token_file w with
  | Some (Json (VDict d)) => default VNone (d !! "refresh_token")
  | _ => VNone
  end.

(** The two ways a Whoop data request is refused for lack of a credential. *)
Definition NOT_CONNECTED : exn :=
  HTTPException HTTP_401_UNAUTHORIZED
    "Whoop not connected. Please connect your Whoop account first.".

Definition AUTH_EXPIRED : exn :=
  HTTPException HTTP_401_UNAUTHORIZED
    "Whoop authentication expired. Please reconnect.".

(** The reply of a callback whose state is refused. *)
Definition CSRF_ERROR : reply :=
  error_response "Invalid OAuth state - possible CSRF attack"
    HTTP_400_BAD_REQUEST.

(** [w'] continues the trace of [w] with events that all satisfy [P]. *)
Definition extends (P : event -> Prop) (w w' : world) : Prop :=
  exists tl, trace w' = (trace w ++ tl)%list /\ Forall P tl.

(** An event that is not a [GET] request: a refresh or a token request. *)
Definition not_get (e : event) : Prop :=
  match e with
  | Http r => method r = "POST"
  | _ => True
  end.

(** An event that, if it is a [GET] request, asks [u] with parameters [ps]. *)
Definition get_carries (u : string) (ps : gmap string value) (e : event) : Prop :=
  match e with
  | Http r => method r = "POST" \/ (method r = "GET" /\ url r = u /\ params r = ps)
  | _ => True
  end.

(** The characters of [secrets.token_urlsafe]: the URL-safe base64
    alphabet. *)
Definition is_urlsafe_char (c : ascii) : bool :=
  let k := nat_of_ascii c in
  (((48 <=? k) && (k <=? 57)) || ((65 <=? k) && (k <=? 90))
   || ((97 <=? k) && (k <=? 122)) || (k =? 45) || (k =? 95))%nat.

Definition is_urlsafe (s : string) : bool :=
  forallb is_urlsafe_char (list_ascii_of_string s).

(** ** Dates as the specification speaks of them *)

Definition is_digit (c : ascii) : bool :=
  match digit_val c with Some _ => true | None => false end.

(** A bare date: four digits, a dash, two digits, a dash, two digits. *)
Definition is_bare_date (s : string) : bool :=
  match list_ascii_of_string s with
  | [y1; y2; y3; y4; d1; m1; m2; d2; a1; a2] =>
      is_digit y1 && is_digit y2 && is_digit y3 && is_digit y4
      && Ascii.eqb d1 "-" && is_digit m1 && is_digit m2
      && Ascii.eqb d2 "-" && is_digit a1 && is_digit a2
  | _ => false
  end.

(** A date followed by a time component: a bare date and more. *)
Definition has_time_component (s : string) : bool :=
  is_bare_date (string_of_list_ascii (firstn 10 (list_ascii_of_string s)))
  && (10 <? String.length s)%nat.

(** The start of the day span of the specification: a bare date is widened
    to its first instant, anything else is left as it is. *)
Definition spec_start (s : string) : string :=
  if is_bare_date s then s +:+ "T00:00:00.000Z" else s.

(** The end of the day span: a bare date is widened to its last instant. *)
Definition spec_end (s : string) : string :=
  if is_bare_date s then s +:+ "T23:59:59.999Z" else s.

(** Whether an operation widens its dates: all do, the strain apart. *)
Definition widens (op : whoop_op) : bool :=
  match op with Strain => false | _ => true end.

(** The query parameters of a request for the window from [s] to [e]. *)
Definition window (op : whoop_op) (s e : string) : gmap string value :=
  if widens op
  then <["end" := VStr (spec_end e)]> (<["start" := VStr (spec_start s)]> ∅)
  else <["end" := VStr e]> (<["start" := VStr s]> ∅).

(** A start date and an end date as an operation puts them on the wire. *)
Definition sent_start (op : whoop_op) (s : string) : string :=
  if widens op then spec_start s else s.

Definition sent_end (op : whoop_op) (e : string) : string :=
  if widens op then spec_end e else e.

(** The query parameters of a request for the dates supplied, each on its
    own: a supplied date has its parameter, a date that is not supplied
    has none. *)
Definition query (op : whoop_op) (sd ed : option string)
    : gmap string value :=
  let ps : gmap string value :=
    match sd with
    | Some s => <["start" := VStr (sent_start op s)]> ∅
    | None => ∅
    end in
  match ed with
  | Some e => <["end" := VStr (sent_end op e)]> ps
  | None => ps
  end.

(** ** Checking the calendar *)

(** The day number [n] is turned into a date of the calendar, and that date
    back into [n]. *)
Definition ord_ok (n : Z) : bool :=
  let '(y, m, d) := datetime.ord2ymd n in
  (datetime.ymd2ord y m d =? n) && (1 <=? y) && (1 <=? m) && (m <=? 12)
  && (1 <=? d) && (d <=? datetime.days_in_month y m).

(** [ord_ok] on the [fuel] day numbers from [n] on. *)
Fixpoint all_from (fuel : nat) (n : Z) : bool :=
  match fuel with
  | O => true
  | S f => ord_ok n && all_from f (n + 1)
  end.

(** The days of one cycle of 400 years. *)
Definition CYCLE_DAYS : nat := Z.to_nat datetime.DI400Y.

(** ** The tool adapters, side by side *)

(** What each adapter puts before the text of an exception. *)
Definition error_prefix (op : whoop_op) : string :=
  match op with
  | Recovery => "Error fetching recovery data: "
  | Sleep => "Error fetching sleep data: "
  | Strain => "Error fetching strain data: "
  | Workouts => "Error fetching workout data: "
  | Cycles => "Error fetching cycle data: "
  end.

(** The parameters of the default window that starts on the day of [start]
    and ends on the day of [now]. *)
Definition default_window (op : whoop_op) (start now : datetime.t)
    : gmap string value :=
  if widens op
  then <["end" := VStr (datetime.strftime_Ymd now +:+ "T23:59:59.999Z")]>
         (<["start" := VStr (datetime.strftime_Ymd start +:+ "T00:00:00.000Z")]> ∅)
  else <["end" := VStr (datetime.strftime_Ymd now)]>
         (<["start" := VStr (datetime.strftime_Ymd start)]> ∅).

(** ** The Hevy key and the SMS configuration, as stored *)

(** The key of the stored file, [None] when there is none to read. *)
Definition stored_api_key (w : world) : value :=
  match api_key_file w with
  | Some (Json (VDict d)) => default VNone (d !! "api_key")
  | _ => VNone
  end.

(** The key that [_get_api_key] resolves: the stored one first, then the
    one of the environment. *)
Definition active_api_key (E : env) (w : world) : value :=
  if truthy (stored_api_key w) then stored_api_key w
  else of_ostr (hevy_api_key (get_settings E)).

(** The active key is user-supplied: it was resolved from the stored file. *)
Definition user_supplied (w : world) : bool := truthy (stored_api_key w).

(** The active key was resolved from the environment. *)
Definition from_environment (E : env) (w : world) : bool :=
  negb (truthy (stored_api_key w))
  && truthy_ostr (hevy_api_key (get_settings E)).

(** The test of [get_hevy_status] for "from the environment": the active
    key equals the configured one, which is not empty. *)
Definition equals_environment (E : env) (w : world) : bool :=
  eq_ostr (active_api_key E w) (hevy_api_key (get_settings E))
  && truthy_ostr (hevy_api_key (get_settings E)).

(** The stored SMS configuration as [_load_config] returns it. *)
Definition stored_config (w : world) : value :=
  match config_file w with
  | Some (Json v) => v
  | _ => VDict ∅
  end.

(** The sender number that [send_sms] resolves: the environment first, then
    the stored configuration (which must then be a dictionary). *)
Definition sender_number (E : env) (w : world) : option value :=
  if truthy_ostr (twilio_phone_number (get_settings E))
  then Some (of_ostr (twilio_phone_number (get_settings E)))
  else match stored_config w with
       | VDict d => Some (default VNone (d !! "phone_number"))
       | _ => None
       end.

(** The record of a message that was sent. *)
Definition sms_sent (sid status to_number : string) : value :=
  VDict (<["success" := VBool true]>
         (<["sid" := VStr sid]>
          (<["status" := VStr status]>
           (<["to" := VStr to_number]> ∅)))).

(** The record of a message that could not be sent. *)
Definition sms_failed (error : string) : value :=
  VDict (<["success" := VBool false]> (<["error" := VStr error]> ∅)).

(** ** Sample environments and records, used to run the code *)
Module Sample.

Definition settings : Settings :=
  mk_settings (Some "client-id") (Some "client-secret")
    (Some "http://localhost:3000/api/whoop/callback")
    None None None None.

(** Noon on 5 January 2024, whatever the number of queries. *)
Definition noon : datetime.t := datetime.mk 2024 1 5 12 0 0 0.

(** A provider that answers every request with [resp]. *)
Definition env_answering (s : Settings) (resp : response) : env :=
  mk_env s (fun _ => noon) (fun _ _ => Responded resp) true
    (fun _ _ _ _ _ _ => Created "SM1" "queued")
    (fun _ => "Zm9vYmFyYmF6cXV4")
    (fun _ => "<object>").

(** A provider that cannot be reached. *)
Definition env_unreachable (s : Settings) : env :=
  mk_env s (fun _ => noon)
    (fun _ _ => Failed "ConnectionError" "connection refused") true
    (fun _ _ _ _ _ _ => Rejected "TwilioRestException" "unreachable")
    (fun _ => "Zm9vYmFyYmF6cXV4")
    (fun _ => "<object>").

Definition empty_world : world := mk_world None None None None [] 0.

(** A token record as [connect_whoop] stores it. *)
Definition record (access_token refresh_token expires_at : string)
    : gmap string value :=
  <["access_token" := VStr access_token]>
    (<["refresh_token" := VStr refresh_token]>
      (<["expires_at" := VStr expires_at]> ∅)).

Definition world_with_token (d : gmap string value) : world :=
  mk_world (Some (Json (VDict d))) None None None [] 0.

(** The body of a token response. *)
Definition token_body (access_token : string) : gmap string value :=
  <["access_token" := VStr access_token]> (<["expires_in" := VNum 3600]> ∅).

Definition ok_response (body : value) : response :=
  mk_response 200 "OK" "" (Some body).

Definition unauthorized : response :=
  mk_response 401 "Unauthorized" "invalid token" None.

(** The Hevy key file as [save_hevy_api_key] writes it. *)
Definition world_with_key (api_key : string) : world :=
  mk_world None None (Some (Json (VDict {["api_key" := VStr api_key]})))
    None [] 0.

(** An outstanding OAuth state. *)
Definition world_with_state (state : string) : world :=
  mk_world None (Some (Text state)) None None [] 0.

(** Settings whose environment supplies a Hevy key. *)
Definition settings_with_hevy (api_key : string) : Settings :=
  mk_settings None None None (Some api_key) None None None.

(** Settings whose environment supplies the Twilio credentials and number. *)
Definition settings_with_twilio : Settings :=
  mk_settings None None None None (Some "AC1") (Some "secret")
    (Some "+15550001111").

End Sample.


(** * The rest of the clients *)

(** ** [server/services/hevy/client.py], the data functions *)
Module HevyData.
Section Client.
Context (E : env).

Definition get_workouts (page page_size : value)
    (start_date end_date : option string) : M value :=
  let params : gmap string value :=
    <["pageSize" := page_size]> (<["page" := page]> ∅) in
  let params :=
    match start_date with
    | Some s => if truthy (VStr s) then <["start_date" := VStr s]> params else params
    | None => params
    end in
  let params :=
    match end_date with
    | Some s => if truthy (VStr s) then <["end_date" := VStr s]> params else params
    | None => params
    end in
  Hevy._make_hevy_request E "workouts" "GET" (Some params) None.

Definition get_workout_details (workout_id : string) : M value :=
  Hevy._make_hevy_request E ("workouts/" +:+ workout_id) "GET" None None.

Definition get_routines (page page_size : value) : M value :=
  let params : gmap string value :=
    <["pageSize" := page_size]> (<["page" := page]> ∅) in
  Hevy._make_hevy_request E "routines" "GET" (Some params) None.

Definition get_routine_details (routine_id : string) : M value :=
  Hevy._make_hevy_request E ("routines/" +:+ routine_id) "GET" None None.

Definition create_routine (title : string) (exercises : list value)
    (folder_id : option string) : M value :=
  let request_body :=
    VDict {["routine" :=
              VDict (<["title" := VStr title]>
                     (<["exercises" := VList exercises]>
                      (<["folder_id" := of_ostr folder_id]> ∅)))]} in
  Hevy._make_hevy_request E "routines" "POST" None (Some request_body).

Definition log_workout (workout_data : value) : M value :=
  Hevy._make_hevy_request E "workouts" "POST" None (Some workout_data).

End Client.
End HevyData.

(** ** [server/agents/execution_agent/tools/hevy.py] *)
Module HevyTools.
Section Tools.
Context (E : env).

Definition _hevy_get_workouts (page page_size : value)
    (start_date end_date : option string) : M string :=
  try_except
    (data <- HevyData.get_workouts E page page_size start_date end_date ;;
     ret (str_value E data))
    (fun exc => ret ("Error fetching workouts: " +:+ str_exn exc)).

Definition _hevy_get_workout_details (workout_id : string) : M string :=
  try_except
    (data <- HevyData.get_workout_details E workout_id ;;
     ret (str_value E data))
    (fun exc => ret ("Error fetching workout details: " +:+ str_exn exc)).

Definition _hevy_get_routines (page page_size : value) : M string :=
  try_except
    (data <- HevyData.get_routines E page page_size ;;
     ret (str_value E data))
    (fun exc => ret ("Error fetching routines: " +:+ str_exn exc)).

Definition _hevy_get_routine_details (routine_id : string) : M string :=
  try_except
    (data <- HevyData.get_routine_details E routine_id ;;
     ret (str_value E data))
    (fun exc => ret ("Error fetching routine details: " +:+ str_exn exc)).

Definition _hevy_create_routine (title : string) (exercises : list value)
    (folder_id : option string) : M string :=
  try_except
    (data <- HevyData.create_routine E title exercises folder_id ;;
     ret (str_value E data))
    (fun exc => ret ("Error creating routine: " +:+ str_exn exc)).

Definition _hevy_log_workout (title start_time end_time : string)
    (exercises : list value) (description : option string) : M string :=
  try_except
    (let workout_data : gmap string value :=
       <["exercises" := VList exercises]>
         (<["end_time" := VStr end_time]>
            (<["start_time" := VStr start_time]>
               (<["title" := VStr title]> ∅))) in
     let workout_data :=
       match description with
       | Some s =>
           if truthy (VStr s) then <["description" := VStr s]> workout_data
           else workout_data
       | None => workout_data
       end in
     data <- HevyData.log_workout E (VDict workout_data) ;;
     ret (str_value E data))
    (fun exc => ret ("Error logging workout: " +:+ str_exn exc)).

End Tools.
End HevyTools.

(** ** [server/services/sms/client.py], connection and inbound messages *)

Inductive fetch_outcome :=
| Fetched                          (* [accounts(sid).fetch()] returned *)
| FetchFailed (cls msg : string).  (* it raised *)

Inductive numbers_outcome :=
| Listed (numbers : list string)   (* [incoming_phone_numbers.list] returned *)
| ListFailed (cls msg : string).   (* it raised *)

Inductive agent_outcome :=
| Replied (response : string)      (* [execute_sync] returned the reply *)
| Crashed (cls msg : string).      (* the runtime raised *)

(** What Twilio's account API and the interaction agent
    ([InteractionAgentRuntime], not part of the sources at hand) decide,
    indexed like the oracles of [env]. *)
Record services := mk_services {
  account_fetch_at : nat -> value -> value -> fetch_outcome;
  incoming_numbers_at : nat -> value -> value -> string -> numbers_outcome;
  execute_sync_at : nat -> string -> agent_outcome
}.

Module SmsAdmin.
Section Client.
Context (E : env) (T : services).

Definition _save_config (config : value) : M unit :=
  modify (set_config_file (Some (Json config))).

(** [client.api.accounts(sid).fetch()]. *)
Definition accounts_fetch (client : value * value) : M unit :=
  fun w =>
    match account_fetch_at T (ticks w) (fst client) (snd client) with
    | Fetched => (Ok tt, tick w)
    | FetchFailed cls msg => (Raise (PyError cls msg), tick w)
    end.

(** [client.incoming_phone_numbers.list(phone_number=...)]. *)
Definition incoming_phone_numbers_list (client : value * value)
    (phone_number : string) : M (list string) :=
  fun w =>
    match incoming_numbers_at T (ticks w) (fst client) (snd client)
            phone_number with
    | Listed numbers => (Ok numbers, tick w)
    | ListFailed cls msg => (Raise (PyError cls msg), tick w)
    end.

Definition get_sms_status : M reply :=
  let settings := get_settings E in
  config <- Sms._load_config ;;
  account_sid <-
    Sms.setting_or_config (twilio_account_sid settings) config "account_sid" ;;
  credentials <-
    (if truthy account_sid
     then Sms.setting_or_config (twilio_auth_token settings) config "auth_token"
     else ret account_sid) ;;
  let has_credentials := truthy credentials in
  phone_number <-
    Sms.setting_or_config (twilio_phone_number settings) config "phone_number" ;;
  if has_credentials then
    try_except
      (client <- Sms._get_twilio_client E ;;
       accounts_fetch client ;;
       ret (JSONResponse
              (<["connected" := VBool true]>
               (<["phone_number" := phone_number]>
                (<["source" :=
                     VStr (if truthy_ostr (twilio_account_sid settings)
                           then "environment" else "stored")]> ∅)))
              HTTP_200_OK))
      (fun _ =>
         ret (JSONResponse
                (<["connected" := VBool false]>
                 (<["error" := VStr "Invalid credentials or connection error"]> ∅))
                HTTP_200_OK))
  else ret (JSONResponse {["connected" := VBool false]} HTTP_200_OK).

Definition connect_sms (account_sid auth_token phone_number : string)
    : M reply :=
  if negb (twilio_installed E) then
    ret (JSONResponse
           (<["ok" := VBool false]>
            (<["error" := VStr "Twilio SDK not installed. Run: pip install twilio"]> ∅))
           HTTP_500_INTERNAL_SERVER_ERROR)
  else
    try_except
      (let client := (VStr account_sid, VStr auth_token) in
       accounts_fetch client ;;
       early <-
         try_except
           (incoming_numbers <- incoming_phone_numbers_list client phone_number ;;
            match incoming_numbers with
            | [] =>
                ret (Some (JSONResponse
                             (<["ok" := VBool false]>
                              (<["error" := VStr "Phone number not found in your Twilio account"]> ∅))
                             HTTP_400_BAD_REQUEST))
            | _ :: _ => ret None
            end)
           (fun _ => ret None) ;;
       match early with
       | Some r => ret r
       | None =>
           _save_config
             (VDict (<["account_sid" := VStr account_sid]>
                     (<["auth_token" := VStr auth_token]>
                      (<["phone_number" := VStr phone_number]> ∅)))) ;;
           ret (JSONResponse
                  (<["ok" := VBool true]>
                   (<["phone_number" := VStr phone_number]> ∅))
                  HTTP_200_OK)
       end)
      (fun e =>
         ret (JSONResponse
                (<["ok" := VBool false]>
                 (<["error" := VStr ("Failed to connect to Twilio: " +:+ str_exn e)]> ∅))
                HTTP_400_BAD_REQUEST)).

Definition disconnect_sms : M reply :=
  w <- get_world ;;
  match config_file w with
  | Some _ => modify (set_config_file None)
  | None => ret tt
  end ;;
  ret (JSONResponse {["ok" := VBool true]} HTTP_200_OK).

(** [await runtime.execute_sync(user_message=...)]. *)
Definition execute_sync (user_message : string) : M string :=
  fun w =>
    match execute_sync_at T (ticks w) user_message with
    | Replied response => (Ok response, tick w)
    | Crashed cls msg => (Raise (PyError cls msg), tick w)
    end.

Definition handle_incoming_sms (from_number message_body : string) : M string :=
  try_except
    (response <- execute_sync message_body ;;
     Sms.send_sms E from_number response ;;
     ret "Message processed")
    (fun e =>
       Sms.send_sms E from_number
         "Sorry, I encountered an error processing your message." ;;
       ret ("Error: " +:+ str_exn e)).

End Client.
End SmsAdmin.

(** ** [server/routes/hevy.py] *)
Module HevyRoutes.
Section Routes.
Context (E : env).

Definition hevy_connect (api_key : string) : M reply :=
  Hevy.save_hevy_api_key E api_key.

Definition hevy_status : M reply := Hevy.get_hevy_status E.

Definition hevy_disconnect : M reply := Hevy.clear_hevy_api_key.

End Routes.
End HevyRoutes.

(** ** Instants *)

(** The microseconds a datetime lies after the start of day number zero:
    the position of the datetime on the time line. *)
Definition instant (dt : datetime.t) : Z :=
  datetime.toordinal dt * datetime.US_PER_DAY + datetime.time_us dt.

(** ** The token exchange and the refresh, as seen from outside *)

(** The reply of a callback that connected the account. *)
Definition CONNECTED : reply :=
  JSONResponse
    (<["success" := VBool true]>
     (<["message" := VStr "Whoop connected successfully"]> ∅))
    HTTP_200_OK.

(** [raise_for_status] lets the response through: its status is neither 4xx
    nor 5xx. *)
Definition passes (resp : response) : bool :=
  negb ((400 <=? status_code resp) && (status_code resp <? 500))
  && negb ((500 <=? status_code resp) && (status_code resp <? 600)).

(** The lifetime that a token response announces, in microseconds: its
    [expires_in] seconds, an hour when the field is missing, and nothing
    when the field is not a number or is out of the range of a
    [timedelta]. *)
Definition expires_in_us (body : gmap string value) : option Z :=
  match body !! "expires_in" with
  | None => datetime.timedelta 0 0 3600
  | Some (VNum n) => datetime.timedelta 0 0 n
  | Some (VBool b) => Some ((if b then 1 else 0) * datetime.US_PER_SECOND)
  | Some _ => None
  end.

(** The record that the exchange stores for a response body. *)
Definition issued_record (body : gmap string value) (expiry : datetime.t)
    : gmap string value :=
  <["expires_at" := VStr (datetime.isoformat expiry)]> body.

(** The record that the refresh stores: the stored refresh token is kept
    when the body brings none. *)
Definition refreshed_record (body : gmap string value) (refresh_token : value)
    (expiry : datetime.t) : gmap string value :=
  match issued_record body expiry !! "refresh_token" with
  | None => <["refresh_token" := refresh_token]> (issued_record body expiry)
  | Some _ => issued_record body expiry
  end.

(** Five minutes, in microseconds. *)
Definition MARGIN_US : Z := 5 * 60 * datetime.US_PER_SECOND.


(** ** The Hevy key, stored and refused *)

(** The reply of a key that was validated and stored. *)
Definition KEY_SAVED : reply :=
  JSONResponse
    (<["success" := VBool true]>
     (<["message" := VStr "Hevy API key saved successfully"]> ∅))
    HTTP_200_OK.

(** The key file as [_save_api_key_to_file] writes it. *)
Definition key_file (api_key : string) : file :=
  Json (VDict {["api_key" := VStr api_key]}).

(** How a Hevy data request is refused for lack of a key. *)
Definition HEVY_NOT_CONNECTED : exn :=
  HTTPException HTTP_401_UNAUTHORIZED
    "Hevy not connected. Please add your Hevy API key first.".

(** ** The Hevy tools, side by side *)

(** A call of one of the six tools of [build_registry], with its
    arguments. *)
Inductive hevy_call :=
| GetWorkouts (page page_size : value) (start_date end_date : option string)
| GetWorkoutDetails (workout_id : string)
| GetRoutines (page page_size : value)
| GetRoutineDetails (routine_id : string)
| CreateRoutine (title : string) (exercises : list value)
                (folder_id : option string)
| LogWorkout (title start_time end_time : string) (exercises : list value)
             (description : option string).

(** The adapter that the registry runs for a call. *)
Definition hevy_tool (E : env) (c : hevy_call) : M string :=
  match c with
  | GetWorkouts page page_size start_date end_date =>
      HevyTools._hevy_get_workouts E page page_size start_date end_date
  | GetWorkoutDetails workout_id =>
      HevyTools._hevy_get_workout_details E workout_id
  | GetRoutines page page_size => HevyTools._hevy_get_routines E page page_size
  | GetRoutineDetails routine_id =>
      HevyTools._hevy_get_routine_details E routine_id
  | CreateRoutine title exercises folder_id =>
      HevyTools._hevy_create_routine E title exercises folder_id
  | LogWorkout title start_time end_time exercises description =>
      HevyTools._hevy_log_workout E title start_time end_time exercises
        description
  end.

(** What each adapter puts before the text of an exception. *)
Definition hevy_error_prefix (c : hevy_call) : string :=
  match c with
  | GetWorkouts _ _ _ _ => "Error fetching workouts: "
  | GetWorkoutDetails _ => "Error fetching workout details: "
  | GetRoutines _ _ => "Error fetching routines: "
  | GetRoutineDetails _ => "Error fetching routine details: "
  | CreateRoutine _ _ _ => "Error creating routine: "
  | LogWorkout _ _ _ _ _ => "Error logging workout: "
  end.

(** A date filter as it is put on the wire: only when it is given and not
    empty. *)
Definition date_filter (d : option string) : option value :=
  match d with
  | Some s => if String.eqb s "" then None else Some (VStr s)
  | None => None
  end.

(** ** The SMS bridge, as seen from outside *)

(** The configuration that [connect_sms] stores. *)
Definition sms_config (account_sid auth_token phone_number : string) : value :=
  VDict (<["account_sid" := VStr account_sid]>
         (<["auth_token" := VStr auth_token]>
          (<["phone_number" := VStr phone_number]> ∅))).

(** A field of the Twilio configuration as the client resolves it: the
    setting of the environment when it is not empty, the stored value
    otherwise. *)
Definition resolved (setting : option string) (config : gmap string value)
    (key : string) : value :=
  if truthy_ostr setting then of_ostr setting
  else default VNone (config !! key).

(** The messages handed to Twilio, oldest first. *)
Definition messages_sent (tr : list event)
    : list (value * value * string * value * string) :=
  omap (fun e => match e with
                 | Message sid tok to_number from_number body =>
                     Some (sid, tok, to_number, from_number, body)
                 | _ => None
                 end) tr.

Definition APOLOGY : string :=
  "Sorry, I encountered an error processing your message.".

(** More samples: a Twilio account and an agent that answer, and ones that
    do not. *)
Module SampleSms.

Definition answering : services :=
  mk_services (fun _ _ _ => Fetched) (fun _ _ _ p => Listed [p])
    (fun _ m => Replied ("You said: " +:+ m)).

Definition failing : services :=
  mk_services (fun _ _ _ => FetchFailed "TwilioRestException" "Authenticate")
    (fun _ _ _ _ => ListFailed "TwilioRestException" "Authenticate")
    (fun _ _ => Crashed "RuntimeError" "model unavailable").

Definition world_with_config (account_sid auth_token phone_number : string)
    : world :=
  mk_world None None None
    (Some (Json (sms_config account_sid auth_token phone_number))) [] 0.

End SampleSms.
(** * Properties *)

(** ** Stepping through the monad *)

Ltac mred :=
  lazy beta iota zeta delta
    [bind ret raise try_except get_world modify or_raise dict_get negb
     datetime_add datetime_fromisoformat utcnow send token_urlsafe
     raise_for_status response_json timedelta_seconds
     Whoop._save_token Whoop._load_token Whoop._clear_token
     Whoop._save_oauth_state Whoop.save_oauth_state].

(** Case analysis on the innermost scrutinee that blocks the computation. *)
Ltac mcase :=
  match goal with
  | |- context [match ?x with _ => _ end] =>
      lazymatch x with
      | context [match _ with _ => _ end] => fail
      | _ => first [ is_var x; destruct x | destruct x eqn:? ]
      end
  end.

(** Runs a computation to its leaves, one goal per path. *)
Ltac mrun := mred; repeat (mcase; mred).

Lemma truthy_dict_lookup (d : gmap string value) (k : string) (v : value) :
  d !! k = Some v -> truthy (VDict d) = true.
Proof.
  intros H. simpl. destruct (map_to_list d) eqn:Hl; [|reflexivity].
  apply map_to_list_empty_iff in Hl. subst d.
  rewrite lookup_empty in H. discriminate.
Qed.

Lemma fromisoformat_truthy (s : string) (dt : datetime.t) :
  datetime.fromisoformat s = Some dt -> truthy (VStr s) = true.
Proof. destruct s; [discriminate|reflexivity]. Qed.

Lemma refresh_attempts_app (l1 l2 : list event) :
  refresh_attempts (l1 ++ l2) = (refresh_attempts l1 + refresh_attempts l2)%nat.
Proof. unfold refresh_attempts. rewrite filter_app, length_app. reflexivity. Qed.

Lemma requests_sent_app (l1 l2 : list event) :
  requests_sent (l1 ++ l2) = (requests_sent l1 ++ requests_sent l2)%list.
Proof. unfold requests_sent. apply omap_app. Qed.

Lemma record_shape_dict (w : world) (v : value) :
  record_shape w = true -> token_file w = Some (Json v) -> truthy v = true ->
  exists d, v = VDict d.
Proof.
  unfold record_shape. intros Hs Hf Hv. rewrite Hf, Hv in Hs.
  destruct v; try discriminate. eauto.
Qed.

(** Every operation is registered under its tool name. *)
Lemma build_registry_adapter (E : env) (op : whoop_op) :
  build_registry E (tool_name op) = Some (adapter E op).
Proof. destruct op; reflexivity. Qed.

(** *** Traces only grow *)

Lemma extends_refl (P : event -> Prop) (w w' : world) :
  trace w' = trace w -> extends P w w'.
Proof. intros H. exists []. rewrite H, app_nil_r. auto. Qed.

Lemma extends_trans (P : event -> Prop) (w1 w2 w3 : world) :
  extends P w1 w2 -> extends P w2 w3 -> extends P w1 w3.
Proof.
  intros (l1 & H1 & F1) (l2 & H2 & F2). exists (l1 ++ l2)%list.
  rewrite H2, H1, app_assoc. split; [reflexivity|]. apply Forall_app; auto.
Qed.

Lemma extends_weaken (P Q : event -> Prop) (w w' : world) :
  (forall e, P e -> Q e) -> extends P w w' -> extends Q w w'.
Proof.
  intros H (l & Hl & F). exists l. split; [exact Hl|].
  eapply Forall_impl; eauto.
Qed.

Lemma extends_step (P : event -> Prop) (w w' : world) (e : event) :
  trace w' = (trace w ++ [e])%list -> P e -> extends P w w'.
Proof. intros H He. exists [e]. auto. Qed.

(** ** The calendar: day numbers and dates *)

Lemma all_from_spec (fuel : nat) (n i : Z) :
  all_from fuel n = true -> n <= i < n + Z.of_nat fuel -> ord_ok i = true.
Proof.
  revert n. induction fuel as [|f IH]; intros n H Hi; [lia|].
  simpl in H. apply andb_true_iff in H as [H1 H2].
  destruct (Z.eq_dec i n) as [->|Hne]; [exact H1|].
  apply (IH (n + 1) H2). lia.
Qed.

(** Every day of the first 400 years, checked by running the code. *)
Lemma cycle_checked : all_from CYCLE_DAYS 1 = true.
Proof. vm_compute. reflexivity. Qed.

Lemma days_before_year_period (y k : Z) :
  datetime.days_before_year (y + 400 * k)
  = datetime.days_before_year y + 146097 * k.
Proof.
  unfold datetime.days_before_year. cbv zeta. Z.div_mod_to_equations. lia.
Qed.

Lemma is_leap_period (y k : Z) :
  datetime.is_leap (y + 400 * k) = datetime.is_leap y.
Proof.
  unfold datetime.is_leap.
  replace ((y + 400 * k) mod 4) with (y mod 4)
    by (Z.div_mod_to_equations; lia).
  replace ((y + 400 * k) mod 100) with (y mod 100)
    by (Z.div_mod_to_equations; lia).
  replace ((y + 400 * k) mod 400) with (y mod 400)
    by (Z.div_mod_to_equations; lia).
  reflexivity.
Qed.

Lemma ymd2ord_period (y m d k : Z) :
  datetime.ymd2ord (y + 400 * k) m d = datetime.ymd2ord y m d + 146097 * k.
Proof.
  unfold datetime.ymd2ord, datetime.days_before_month.
  rewrite days_before_year_period, is_leap_period. lia.
Qed.

Lemma days_in_month_period (y m k : Z) :
  datetime.days_in_month (y + 400 * k) m = datetime.days_in_month y m.
Proof. unfold datetime.days_in_month. rewrite is_leap_period. reflexivity. Qed.

Lemma ord2ymd_period (n k : Z) :
  datetime.ord2ymd (n + 146097 * k)
  = let '(y, m, d) := datetime.ord2ymd n in (y + 400 * k, m, d).
Proof.
  assert (Hq : (n + 146097 * k - 1) / 146097 = (n - 1) / 146097 + k)
    by (Z.div_mod_to_equations; lia).
  assert (Hr : (n + 146097 * k - 1) mod 146097 = (n - 1) mod 146097)
    by (Z.div_mod_to_equations; lia).
  unfold datetime.ord2ymd, datetime.DI400Y. cbv zeta. rewrite Hq, Hr.
  generalize ((n - 1) mod 146097). generalize ((n - 1) / 146097).
  intros q r.
  repeat match goal with
         | |- context [if ?c then _ else _] => destruct c
         end; f_equal; f_equal; lia.
Qed.

(** Every day number that a date can have is turned by [_ord2ymd] into a
    date of the calendar whose number it is. *)
Lemma ord2ymd_ok (n : Z) : 1 <= n -> ord_ok n = true.
Proof.
  intros Hn.
  set (k := (n - 1) / 146097). set (i := (n - 1) mod 146097 + 1).
  assert (Hk : 0 <= k) by (subst k; Z.div_mod_to_equations; lia).
  assert (Hi : 1 <= i < 1 + Z.of_nat CYCLE_DAYS).
  { subst i. unfold CYCLE_DAYS, datetime.DI400Y. rewrite Z2Nat.id by lia.
    Z.div_mod_to_equations; lia. }
  assert (Hni : n = i + 146097 * k)
    by (subst i k; Z.div_mod_to_equations; lia).
  assert (Hok := all_from_spec _ _ i cycle_checked Hi).
  rewrite Hni. unfold ord_ok in *. rewrite ord2ymd_period.
  destruct (datetime.ord2ymd i) as [[y m] d].
  rewrite ymd2ord_period, days_in_month_period.
  repeat (apply andb_true_iff in Hok as [Hok ?]).
  repeat (apply andb_true_iff; split); try assumption.
  - apply Z.eqb_eq in Hok. apply Z.eqb_eq. lia.
  - apply Z.leb_le. match goal with H : (1 <=? y) = true |- _ => apply Z.leb_le in H end. lia.
Qed.

(** A valid datetime has a time of day within the day. *)
Lemma valid_time_us (dt : datetime.t) :
  datetime.valid dt = true -> 0 <= datetime.time_us dt < datetime.US_PER_DAY.
Proof.
  unfold datetime.valid, datetime.time_us, datetime.US_PER_DAY,
    datetime.US_PER_SECOND.
  intros H. repeat (apply andb_true_iff in H as [H ?]).
  repeat match goal with
         | H : (_ <=? _) = true |- _ => apply Z.leb_le in H
         | H : (_ <? _) = true |- _ => apply Z.ltb_lt in H
         end.
  lia.
Qed.

Lemma whole_days_div (o t d : Z) :
  0 <= t < 86400000000 ->
  (o * 86400000000 + t + d * 86400000000) / 86400000000 = o + d
  /\ (o * 86400000000 + t + d * 86400000000) mod 86400000000 = t.
Proof. intros Ht. Z.div_mod_to_equations. lia. Qed.

Lemma time_of_day_parts (t : Z) :
  ((t / 1000000 / 3600 * 60 + t / 1000000 mod 3600 / 60) * 60
   + t / 1000000 mod 60) * 1000000 + t mod 1000000 = t.
Proof.
  assert (Hs : forall secs,
             (secs / 3600 * 60 + secs mod 3600 / 60) * 60 + secs mod 60 = secs)
    by (intros secs; Z.div_mod_to_equations; lia).
  rewrite Hs. Z.div_mod_to_equations. lia.
Qed.

(** Adding whole days moves the day number by that many days and keeps the
    time of day. *)
Lemma add_days_ordinal (dt dt' : datetime.t) (days : Z) :
  datetime.valid dt = true ->
  datetime.add dt (days * datetime.US_PER_DAY) = Some dt' ->
  datetime.toordinal dt' = datetime.toordinal dt + days
  /\ datetime.time_us dt' = datetime.time_us dt.
Proof.
  intros Hv Hadd. assert (Ht := valid_time_us dt Hv).
  revert Hadd. unfold datetime.add. cbv zeta.
  change datetime.US_PER_DAY with 86400000000 in *.
  change datetime.US_PER_SECOND with 1000000.
  destruct (whole_days_div (datetime.toordinal dt) (datetime.time_us dt) days Ht)
    as [-> ->].
  generalize (datetime.time_us dt). intros t.
  generalize (datetime.toordinal dt + days). intros n.
  destruct ((0 <? n) && (n <=? datetime.MAXORDINAL)) eqn:Hg; [|discriminate].
  apply andb_true_iff in Hg as [Hg1 _]. apply Z.ltb_lt in Hg1.
  assert (Hok := ord2ymd_ok n ltac:(lia)). unfold ord_ok in Hok.
  destruct (datetime.ord2ymd n) as [[y m] d].
  intros [= <-].
  repeat (apply andb_true_iff in Hok as [Hok _]). apply Z.eqb_eq in Hok.
  split; [exact Hok|].
  unfold datetime.time_us. cbn [datetime.hour datetime.minute
    datetime.second datetime.microsecond].
  change datetime.US_PER_SECOND with 1000000.
  apply time_of_day_parts.
Qed.

(** ** The calendar: order and text *)

Lemma month_cases (m : Z) :
  1 <= m <= 12 ->
  m = 1 \/ m = 2 \/ m = 3 \/ m = 4 \/ m = 5 \/ m = 6
  \/ m = 7 \/ m = 8 \/ m = 9 \/ m = 10 \/ m = 11 \/ m = 12.
Proof. lia. Qed.

(** The days before a month and the days in it end before the next months
    begin. *)
Lemma months_in_order (y m m' : Z) :
  1 <= m -> m < m' -> m' <= 12 ->
  datetime.days_before_month y m + datetime.days_in_month y m
  <= datetime.days_before_month y m'.
Proof.
  intros H1 H2 H3.
  unfold datetime.days_before_month, datetime.days_in_month.
  destruct (datetime.is_leap y);
    destruct (month_cases m ltac:(lia)) as [->|[->|[->|[->|[->|[->|[->|[->|[->|[->|[->| ->]]]]]]]]]]];
    destruct (month_cases m' ltac:(lia)) as [->|[->|[->|[->|[->|[->|[->|[->|[->|[->|[->| ->]]]]]]]]]]];
    try lia; vm_compute; discriminate.
Qed.

Lemma month_within_year (y m : Z) :
  1 <= m <= 12 ->
  0 <= datetime.days_before_month y m
  /\ datetime.days_before_month y m + datetime.days_in_month y m
     <= 365 + (if datetime.is_leap y then 1 else 0).
Proof.
  intros H. unfold datetime.days_before_month, datetime.days_in_month.
  destruct (datetime.is_leap y);
    destruct (month_cases m H) as [->|[->|[->|[->|[->|[->|[->|[->|[->|[->|[->| ->]]]]]]]]]]];
    vm_compute; split; discriminate.
Qed.

Lemma next_year (y : Z) :
  datetime.days_before_year (y + 1)
  = datetime.days_before_year y + 365 + (if datetime.is_leap y then 1 else 0).
Proof.
  unfold datetime.days_before_year, datetime.is_leap. cbv zeta.
  replace (y + 1 - 1) with y by lia.
  destruct (y mod 4 =? 0) eqn:H4; destruct (y mod 100 =? 0) eqn:H100;
    destruct (y mod 400 =? 0) eqn:H400; simpl;
    repeat match goal with
           | H : (_ =? _) = true |- _ => apply Z.eqb_eq in H
           | H : (_ =? _) = false |- _ => apply Z.eqb_neq in H
           end;
    Z.div_mod_to_equations; lia.
Qed.

Lemma years_in_order (y y' : Z) :
  y <= y' -> datetime.days_before_year y <= datetime.days_before_year y'.
Proof.
  intros H. unfold datetime.days_before_year. cbv zeta.
  Z.div_mod_to_equations. lia.
Qed.

(** Dates of the calendar are numbered in their order. *)
Lemma ymd2ord_in_order (y m d y' m' d' : Z) :
  1 <= m <= 12 -> 1 <= d <= datetime.days_in_month y m ->
  1 <= m' <= 12 -> 1 <= d' <= datetime.days_in_month y' m' ->
  y < y' \/ (y = y' /\ (m < m' \/ (m = m' /\ d < d'))) ->
  datetime.ymd2ord y m d < datetime.ymd2ord y' m' d'.
Proof.
  intros Hm Hd Hm' Hd' Hlt. unfold datetime.ymd2ord.
  destruct Hlt as [Hy|[<- [Hmm|[<- Hdd]]]].
  - assert (H1 := month_within_year y m Hm).
    assert (H2 := month_within_year y' m' Hm').
    assert (H3 := next_year y).
    assert (H4 := years_in_order (y + 1) y' ltac:(lia)). lia.
  - assert (H1 := months_in_order y m m' ltac:(lia) Hmm ltac:(lia)). lia.
  - lia.
Qed.

Lemma valid_fields (dt : datetime.t) :
  datetime.valid dt = true ->
  1 <= datetime.year dt <= 9999
  /\ 1 <= datetime.month dt <= 12
  /\ 1 <= datetime.day dt
     <= datetime.days_in_month (datetime.year dt) (datetime.month dt)
  /\ 0 <= datetime.hour dt < 24 /\ 0 <= datetime.minute dt < 60
  /\ 0 <= datetime.second dt < 60 /\ 0 <= datetime.microsecond dt < 1000000.
Proof.
  unfold datetime.valid, datetime.MINYEAR, datetime.MAXYEAR,
    datetime.US_PER_SECOND.
  intros H. repeat (apply andb_true_iff in H as [H ?]).
  repeat match goal with
         | H : (_ <=? _) = true |- _ => apply Z.leb_le in H
         | H : (_ <? _) = true |- _ => apply Z.ltb_lt in H
         end.
  lia.
Qed.

(** Python's comparison of two datetimes is the comparison of their
    instants. *)
Lemma cmp_instant (a b : datetime.t) :
  datetime.valid a = true -> datetime.valid b = true ->
  datetime.cmp a b = (instant a ?= instant b).
Proof.
  intros Ha Hb.
  destruct (valid_fields a Ha) as (Hya & Hma & Hda & Hha & Hmia & Hsa & Hua).
  destruct (valid_fields b Hb) as (Hyb & Hmb & Hdb & Hhb & Hmib & Hsb & Hub).
  assert (Hta := valid_time_us a Ha). assert (Htb := valid_time_us b Hb).
  unfold instant, datetime.toordinal.
  assert (Hord := ymd2ord_in_order (datetime.year a) (datetime.month a)
                    (datetime.day a) (datetime.year b) (datetime.month b)
                    (datetime.day b) Hma Hda Hmb Hdb).
  assert (Hord' := ymd2ord_in_order (datetime.year b) (datetime.month b)
                     (datetime.day b) (datetime.year a) (datetime.month a)
                     (datetime.day a) Hmb Hdb Hma Hda).
  change datetime.US_PER_DAY with 86400000000 in *.
  unfold datetime.cmp, datetime.lex.
  destruct (Z.compare_spec (datetime.year a) (datetime.year b)) as [Hy|Hy|Hy];
    [|symmetry; apply Z.compare_lt_iff; lia|symmetry; apply Z.compare_gt_iff; lia].
  destruct (Z.compare_spec (datetime.month a) (datetime.month b)) as [Hm|Hm|Hm];
    [|symmetry; apply Z.compare_lt_iff; lia|symmetry; apply Z.compare_gt_iff; lia].
  destruct (Z.compare_spec (datetime.day a) (datetime.day b)) as [Hd|Hd|Hd];
    [|symmetry; apply Z.compare_lt_iff; lia|symmetry; apply Z.compare_gt_iff; lia].
  rewrite Hy, Hm, Hd. clear Hord Hord'.
  generalize (datetime.ymd2ord (datetime.year b) (datetime.month b)
                (datetime.day b)). intros o.
  unfold datetime.time_us in *.
  change datetime.US_PER_SECOND with 1000000 in *.
  destruct (Z.compare_spec (datetime.hour a) (datetime.hour b)) as [Hh|Hh|Hh];
    [|symmetry; apply Z.compare_lt_iff; lia|symmetry; apply Z.compare_gt_iff; lia].
  destruct (Z.compare_spec (datetime.minute a) (datetime.minute b)) as [Hmi|Hmi|Hmi];
    [|symmetry; apply Z.compare_lt_iff; lia|symmetry; apply Z.compare_gt_iff; lia].
  destruct (Z.compare_spec (datetime.second a) (datetime.second b)) as [Hs|Hs|Hs];
    [|symmetry; apply Z.compare_lt_iff; lia|symmetry; apply Z.compare_gt_iff; lia].
  destruct (Z.compare_spec (datetime.microsecond a) (datetime.microsecond b)) as [Hu|Hu|Hu];
    symmetry; [apply Z.compare_eq_iff|apply Z.compare_lt_iff|apply Z.compare_gt_iff]; lia.
Qed.

Lemma year_in_range (y m d : Z) :
  1 <= m <= 12 -> 1 <= d ->
  datetime.ymd2ord y m d <= datetime.MAXORDINAL -> y <= 9999.
Proof.
  intros Hm Hd H. destruct (Z_le_gt_dec y 9999) as [|Hy]; [assumption|].
  exfalso. assert (H1 := years_in_order 10000 y ltac:(lia)).
  assert (H2 := month_within_year y m Hm).
  change (datetime.days_before_year 10000) with 3652059 in H1.
  unfold datetime.ymd2ord, datetime.MAXORDINAL in H. lia.
Qed.

Lemma time_fields_in_range (t : Z) :
  0 <= t < 86400000000 ->
  0 <= t / 1000000 / 3600 < 24
  /\ 0 <= t / 1000000 mod 3600 / 60 < 60
  /\ 0 <= t / 1000000 mod 60 < 60
  /\ 0 <= t mod 1000000 < 1000000.
Proof. intros H. Z.div_mod_to_equations. lia. Qed.

Lemma whole_div (total : Z) :
  total / 86400000000 * 86400000000 + total mod 86400000000 = total
  /\ 0 <= total mod 86400000000 < 86400000000.
Proof. Z.div_mod_to_equations. lia. Qed.

(** Adding a timedelta moves the instant by that much, and the sum is again
    a datetime of the calendar. *)
Lemma add_instant (dt dt' : datetime.t) (td : Z) :
  datetime.add dt td = Some dt' ->
  instant dt' = instant dt + td /\ datetime.valid dt' = true.
Proof.
  unfold datetime.add, instant. cbv zeta.
  change datetime.US_PER_DAY with 86400000000.
  change datetime.US_PER_SECOND with 1000000.
  generalize (datetime.toordinal dt * 86400000000 + datetime.time_us dt + td).
  intros total.
  destruct (whole_div total) as [Htot Hrest].
  revert Htot Hrest.
  generalize (total mod 86400000000). generalize (total / 86400000000).
  intros n t Htot Ht.
  destruct ((0 <? n) && (n <=? datetime.MAXORDINAL)) eqn:Hg; [|discriminate].
  apply andb_true_iff in Hg as [Hg1 Hg2].
  apply Z.ltb_lt in Hg1. apply Z.leb_le in Hg2.
  assert (Hok := ord2ymd_ok n ltac:(lia)). unfold ord_ok in Hok.
  destruct (datetime.ord2ymd n) as [[y m] d].
  intros [= <-].
  repeat (apply andb_true_iff in Hok as [Hok ?]).
  repeat match goal with
         | H : (_ <=? _) = true |- _ => apply Z.leb_le in H
         | H : (_ =? _) = true |- _ => apply Z.eqb_eq in H
         end.
  assert (Hy : y <= 9999) by (apply (year_in_range y m d); lia).
  destruct (time_fields_in_range t Ht) as (Hh & Hmi & Hs & Hu).
  split.
  - unfold datetime.toordinal, datetime.time_us.
    cbn [datetime.year datetime.month datetime.day datetime.hour
           datetime.minute datetime.second datetime.microsecond].
    change datetime.US_PER_SECOND with 1000000.
    rewrite time_of_day_parts. lia.
  - unfold datetime.valid.
    cbn [datetime.year datetime.month datetime.day datetime.hour
           datetime.minute datetime.second datetime.microsecond].
    unfold datetime.MINYEAR, datetime.MAXYEAR.
    change datetime.US_PER_SECOND with 1000000.
    repeat (apply andb_true_iff; split);
      first [apply Z.leb_le; lia | apply Z.ltb_lt; lia].
Qed.

(** *** Writing a datetime and reading it back *)

Lemma digit_val_digit_char (n : Z) : digit_val (digit_char n) = Some (n mod 10).
Proof.
  unfold digit_char. assert (H := Z.mod_pos_bound n 10 ltac:(lia)).
  assert (Hk : In (n mod 10) [0; 1; 2; 3; 4; 5; 6; 7; 8; 9]) by (simpl; lia).
  simpl in Hk.
  repeat (destruct Hk as [<-|Hk]; [reflexivity|]). destruct Hk.
Qed.

Lemma digits_val_fixed2 (n : Z) :
  0 <= n < 100 -> digits_val 0 (fixed 2 n) = Some n.
Proof.
  intros H. cbn [fixed app digits_val]. rewrite !digit_val_digit_char.
  f_equal. Z.div_mod_to_equations. lia.
Qed.

Lemma digits_val_fixed4 (n : Z) :
  0 <= n < 10000 -> digits_val 0 (fixed 4 n) = Some n.
Proof.
  intros H. cbn [fixed app digits_val]. rewrite !digit_val_digit_char.
  f_equal. Z.div_mod_to_equations. lia.
Qed.

Lemma digits_val_fixed6 (n : Z) :
  0 <= n < 1000000 -> digits_val 0 (fixed 6 n) = Some n.
Proof.
  intros H. cbn [fixed app digits_val]. rewrite !digit_val_digit_char.
  f_equal. Z.div_mod_to_equations. lia.
Qed.

Lemma days_in_month_le (y m : Z) :
  1 <= m <= 12 -> datetime.days_in_month y m <= 31.
Proof.
  intros Hm. unfold datetime.days_in_month.
  destruct ((m =? 2) && datetime.is_leap y); [lia|].
  destruct (month_cases m Hm) as [->|[->|[->|[->|[->|[->|[->|[->|[->|[->|[->| ->]]]]]]]]]]];
    vm_compute; discriminate.
Qed.

Lemma parse_date_fixed (y m d : Z) :
  1 <= y <= 9999 -> 1 <= m <= 12 -> 1 <= d <= datetime.days_in_month y m ->
  datetime.parse_date
    (fixed 4 y ++ ["-"%char] ++ fixed 2 m ++ ["-"%char] ++ fixed 2 d)
  = Some (y, m, d).
Proof.
  intros Hy Hm Hd.
  assert (Hd' := days_in_month_le y m Hm).
  assert (H4 := digits_val_fixed4 y ltac:(lia)).
  assert (H2m := digits_val_fixed2 m ltac:(lia)).
  assert (H2d := digits_val_fixed2 d ltac:(lia)).
  cbn [fixed app] in *. unfold datetime.parse_date.
  rewrite !Ascii.eqb_refl. cbn [andb]. rewrite H4, H2m, H2d.
  unfold datetime.MINYEAR.
  replace (1 <=? y) with true by (symmetry; apply Z.leb_le; lia).
  replace (1 <=? m) with true by (symmetry; apply Z.leb_le; lia).
  replace (m <=? 12) with true by (symmetry; apply Z.leb_le; lia).
  replace (1 <=? d) with true by (symmetry; apply Z.leb_le; lia).
  replace (d <=? datetime.days_in_month y m) with true
    by (symmetry; apply Z.leb_le; lia).
  reflexivity.
Qed.

Lemma parse_time_fixed (h mi sec us : Z) :
  0 <= h < 24 -> 0 <= mi < 60 -> 0 <= sec < 60 -> 0 <= us < 1000000 ->
  datetime.parse_time
    (fixed 2 h ++ [":"%char] ++ fixed 2 mi ++ [":"%char] ++ fixed 2 sec
     ++ (if us =? 0 then [] else ["."%char] ++ fixed 6 us))
  = Some (h, mi, sec, us).
Proof.
  intros Hh Hmi Hs Hus.
  assert (H2h := digits_val_fixed2 h ltac:(lia)).
  assert (H2m := digits_val_fixed2 mi ltac:(lia)).
  assert (H2s := digits_val_fixed2 sec ltac:(lia)).
  assert (H6 := digits_val_fixed6 us ltac:(lia)).
  destruct (us =? 0) eqn:Hz;
    cbn [fixed app] in *; unfold datetime.parse_time;
    rewrite !Ascii.eqb_refl; cbn [andb]; rewrite H2h, H2m, H2s;
    replace (h <? 24) with true by (symmetry; apply Z.ltb_lt; lia);
    replace (mi <? 60) with true by (symmetry; apply Z.ltb_lt; lia);
    replace (sec <? 60) with true by (symmetry; apply Z.ltb_lt; lia);
    cbn [andb].
  - apply Z.eqb_eq in Hz. subst us. reflexivity.
  - rewrite H6. reflexivity.
Qed.

(** The expiry that the code writes with [isoformat] is read back by
    [fromisoformat] as the same datetime. *)
Lemma fromisoformat_isoformat (dt : datetime.t) :
  datetime.valid dt = true ->
  datetime.fromisoformat (datetime.isoformat dt) = Some dt.
Proof.
  intros Hv.
  destruct (valid_fields dt Hv) as (Hy & Hm & Hd & Hh & Hmi & Hs & Hu).
  assert (Hdate := parse_date_fixed _ _ _ Hy Hm Hd).
  assert (Htime := parse_time_fixed _ _ _ _ Hh Hmi Hs Hu).
  unfold datetime.fromisoformat, datetime.isoformat.
  rewrite list_ascii_of_string_of_list_ascii.
  cbn [fixed app firstn skipn] in *.
  rewrite Hdate, Htime. destruct dt; reflexivity.
Qed.
(** ** The Whoop token manager *)
Section WhoopToken.
Context (E : env).

Lemma is_token_expired_run w d a s expiry margin :
  d !! "access_token" = Some a -> truthy a = true ->
  d !! "expires_at" = Some (VStr s) ->
  datetime.fromisoformat s = Some expiry ->
  datetime.add (utcnow_at E (ticks w)) (5 * 60 * datetime.US_PER_SECOND)
    = Some margin ->
  Whoop._is_token_expired E (VDict d) w
    = (Ok (datetime.ge margin expiry), tick w).
Proof.
  intros Ha Hta He Hp Hm.
  unfold Whoop._is_token_expired. mred.
  rewrite Ha, Hta. mred. rewrite He, (fromisoformat_truthy _ _ Hp). mred.
  rewrite Hp. mred. rewrite Hm. reflexivity.
Qed.

(** The expiry check changes neither the files nor the trace. *)
Lemma is_token_expired_frame td w r w' :
  Whoop._is_token_expired E td w = (r, w') ->
  trace w' = trace w /\ token_file w' = token_file w.
Proof.
  unfold Whoop._is_token_expired. mrun.
  all: intros [= <- <-]; auto.
Qed.

(** A refresh never raises; it enters once, sends at most one request, and
    what it returns is [None] or the record it has just persisted. *)
Lemma refresh_token_total w :
  record_shape w = true ->
  exists v w',
    Whoop._refresh_token E w = (Ok v, w')
    /\ (v = VNone \/ exists d, v = VDict d /\ token_file w' = Some (Json v))
    /\ (exists tl, trace w' = (trace w ++ Refresh :: tl)%list
                   /\ refresh_attempts tl = 0%nat
                   /\ (length (requests_sent tl) <= 1)%nat).
Proof.
  intros Hok. unfold Whoop._refresh_token. mred.
  destruct (token_file w) as [[|v]|] eqn:Hf.
  - simpl. rewrite Hf. simpl. eexists _, _; split; [reflexivity|].
    split; [auto|]. exists []. auto.
  - simpl. rewrite Hf. destruct (truthy v) eqn:Hv.
    + destruct (record_shape_dict w v Hok Hf Hv) as [d ->].
      repeat (mcase; simpl; try rewrite Hf).
      all: eexists _, _; (split; [reflexivity|]); split;
        [first [left; reflexivity | right; eexists; split; reflexivity]|];
        simpl; rewrite <- ?app_assoc; simpl; eexists;
        (split; [reflexivity|]); split; simpl; auto.
    + eexists _, _; split; [reflexivity|]. split; [auto|]. exists []. auto.
  - simpl. rewrite Hf. simpl. eexists _, _; split; [reflexivity|].
    split; [auto|]. exists []. auto.
Qed.

(** Whatever happens, a refresh adds to the trace its own mark and at most
    the one token request. *)
Lemma refresh_token_trace w r w' :
  Whoop._refresh_token E w = (r, w') -> extends not_get w w'.
Proof.
  unfold Whoop._refresh_token. mred. simpl.
  repeat (mcase; simpl).
  all: intros [= <- <-]; unfold extends;
    cbn [trace log tick set_token_file]; rewrite <- ?app_assoc;
    eexists; (split; [reflexivity|]); repeat constructor.
Qed.

(** C2. Reading the access token.  With no record stored the read returns
  "not connected" ([None]) and nothing else happens.  With a stored
  record holding an access token and an expiry, the read returns the
  stored token unchanged, without a refresh, when [now + 5 minutes] is
  before the expiry; when [now + 5 minutes] is at or after the expiry it
  makes exactly one refresh attempt (sending at most one request) and
  then returns, without raising, either [None] or the access token of
  the record that the refresh has persisted. *)
Theorem C2_read_access_token (w : world) :
(token_file w = None -> Whoop._get_valid_token E w = (Ok VNone, w))
/\ (forall d a s expiry margin,
      token_file w = Some (Json (VDict d)) ->
      d !! "access_token" = Some a -> truthy a = true ->
      d !! "expires_at" = Some (VStr s) ->
      datetime.fromisoformat s = Some expiry ->
      datetime.add (utcnow_at E (ticks w)) (5 * 60 * datetime.US_PER_SECOND)
        = Some margin ->
      (datetime.lt margin expiry = true ->
         Whoop._get_valid_token E w = (Ok a, tick w))
      /\ (datetime.ge margin expiry = true ->
          exists v w',
            Whoop._get_valid_token E w = (Ok v, w')
            /\ refresh_attempts (trace w') = S (refresh_attempts (trace w))
            /\ (length (requests_sent (trace w'))
                <= S (length (requests_sent (trace w))))%nat
            /\ (v = VNone
                \/ exists d', token_file w' = Some (Json (VDict d'))
                              /\ v = default VNone (d' !! "access_token")))).
Proof.
split.
- intros Hf. unfold Whoop._get_valid_token. mred. rewrite Hf. reflexivity.
- intros d a s expiry margin Hf Ha Hta He Hp Hm.
  assert (Hrun := is_token_expired_run w d a s expiry margin Ha Hta He Hp Hm).
  assert (Hd := truthy_dict_lookup d _ _ Ha).
  split; intros Hcmp.
  + unfold Whoop._get_valid_token. mred. rewrite Hf, Hd. mred.
    rewrite Hrun. unfold datetime.lt in Hcmp.
    apply negb_true_iff in Hcmp. rewrite Hcmp. mred. rewrite Ha. reflexivity.
  + destruct (refresh_token_total (tick w)) as (v & w' & Hr & Hv & tl & Htr & Hn & Hq).
    { unfold record_shape. simpl. rewrite Hf. reflexivity. }
    assert (Hcount :
      refresh_attempts (trace w') = S (refresh_attempts (trace w))
      /\ (length (requests_sent (trace w'))
           <= S (length (requests_sent (trace w))))%nat).
    { rewrite Htr. simpl trace.
      rewrite refresh_attempts_app, requests_sent_app, length_app.
      change (requests_sent (Refresh :: tl)) with (requests_sent tl).
      change (refresh_attempts (Refresh :: tl)) with (S (refresh_attempts tl)).
      rewrite Hn. split; lia. }
    destruct Hcount as [Hc1 Hc2].
    unfold Whoop._get_valid_token. mred. rewrite Hf, Hd. mred.
    rewrite Hrun, Hcmp. mred. rewrite Hr.
    destruct Hv as [-> | (d' & -> & Hf')].
    * simpl. eexists _, _. split; [reflexivity|]. auto.
    * destruct (truthy (VDict d')) eqn:Hd'.
      -- mred. eexists _, _. split; [reflexivity|].
         split; [exact Hc1|]. split; [exact Hc2|]. right. exists d'. auto.
      -- mred. eexists _, _. split; [reflexivity|]. auto.
Qed.

End WhoopToken.

(** At noon, a token that expires at one o'clock is returned as stored. *)
Lemma C2_read_access_token_witness :
  let E := Sample.env_answering Sample.settings
             (Sample.ok_response (VDict (Sample.token_body "new"))) in
  let w := Sample.world_with_token
             (Sample.record "old" "r1" "2024-01-05T13:00:00") in
  Whoop._get_valid_token E w = (Ok (VStr "old"), tick w).
Proof.
  intros E w.
  refine (proj1 (proj2 (C2_read_access_token E w)
            (Sample.record "old" "r1" "2024-01-05T13:00:00")
            (VStr "old") "2024-01-05T13:00:00"
            (datetime.mk 2024 1 5 13 0 0 0) (datetime.mk 2024 1 5 12 5 0 0)
            _ _ _ _ _ _) _).
  - reflexivity.
  - vm_compute; reflexivity.
  - reflexivity.
  - vm_compute; reflexivity.
  - vm_compute; reflexivity.
  - vm_compute; reflexivity.
  - vm_compute; reflexivity.
Defined.

(** ** Refreshing the token *)
Section WhoopRefresh.
Context (E : env).

(** C6. Every successful refresh (one that returns a record) persists the
    record it returns, built from the body of the provider's response: when
    the body has no [refresh_token] field the persisted record keeps the
    refresh token that was stored before, unchanged; when the body has one,
    that new value is the one persisted.  The other fields of the body,
    [expires_at] apart, are persisted as received. *)
Theorem C6_refresh_keeps_refresh_token (w : world) (v : value) (w' : world) :
  Whoop._refresh_token E w = (Ok v, w') -> truthy v = true ->
  exists old rt resp body new,
    token_file w = Some (Json (VDict old))
    /\ old !! "refresh_token" = Some rt
    /\ http_at E (ticks w) (Whoop.refresh_request E rt) = Responded resp
    /\ json_body resp = Some (VDict body)
    /\ v = VDict new
    /\ token_file w' = Some (Json (VDict new))
    /\ (body !! "refresh_token" = None -> new !! "refresh_token" = Some rt)
    /\ (forall x, body !! "refresh_token" = Some x ->
                  new !! "refresh_token" = Some x)
    /\ (forall k, k <> "refresh_token" -> k <> "expires_at" ->
                  new !! k = body !! k).
Proof.
  unfold Whoop._refresh_token. mred. simpl.
  repeat (mcase; simpl).
  all: intros [= <- <-]; try discriminate; intros _.
  all: match goal with
       | H : _ !! "refresh_token" = _ |- _ =>
           rewrite lookup_insert_ne in H by discriminate
       end.
  all: do 5 eexists; repeat (split; [eassumption || reflexivity|]).
  all: repeat split.
  all: try (intros; congruence).
  all: try (intros; rewrite ?lookup_insert_eq; congruence).
  all: try (intros; rewrite lookup_insert_ne by discriminate; congruence).
  all: try (intros k Hk1 Hk2; rewrite ?lookup_insert_ne by congruence; reflexivity).
Qed.

End WhoopRefresh.

(** A refresh answered without a [refresh_token] keeps the stored one. *)
Lemma C6_refresh_keeps_refresh_token_witness :
  let E := Sample.env_answering Sample.settings
             (Sample.ok_response (VDict (Sample.token_body "new"))) in
  let w := Sample.world_with_token
             (Sample.record "old" "r1" "2024-01-05T12:03:00") in
  exists new w',
    Whoop._refresh_token E w = (Ok (VDict new), w')
    /\ token_file w' = Some (Json (VDict new))
    /\ new !! "refresh_token" = Some (VStr "r1")
    /\ new !! "access_token" = Some (VStr "new").
Proof.
  intros E w.
  destruct (Whoop._refresh_token E w) as [r w'] eqn:Hrun.
  assert (Hr : r = Ok (VDict (<["refresh_token" := VStr "r1"]>
                 (<["expires_at" := VStr "2024-01-05T13:00:00"]>
                    (Sample.token_body "new"))))).
  { vm_compute in Hrun. injection Hrun as <- _. vm_compute. reflexivity. }
  subst r.
  destruct (C6_refresh_keeps_refresh_token E w _ w' Hrun eq_refl)
    as (old & rt & resp & body & new & Hold & Hrt & Hresp & Hbody & Hv & Hf & Hkeep & _ & Hother).
  injection Hold as <-. vm_compute in Hrt. injection Hrt as <-.
  vm_compute in Hresp. injection Hresp as <-.
  vm_compute in Hbody. injection Hbody as <-.
  exists new, w'. rewrite Hv. split; [reflexivity|]. split; [exact Hf|].
  split.
  - apply Hkeep. vm_compute. reflexivity.
  - rewrite Hother by discriminate. vm_compute. reflexivity.
Defined.

(** ** When the refresh fails *)
Section WhoopRefreshFailure.
Context (E : env).

Ltac failure_leaf :=
  intros Hs F;
  first
    [ discriminate Hs
    | eexists; split; [reflexivity | simpl; first [assumption | reflexivity]]
    | exfalso;
      destruct F as [F|[F|[F|[(c & m & F)|(resp & F & Hst)]]]];
      [ congruence | congruence | congruence | congruence
      | injection F as F; subst;
        repeat match goal with
               | H : (_ && _) = false |- _ => apply andb_false_iff in H
               | H : (_ <=? _) = false |- _ => apply Z.leb_gt in H
               | H : (_ <? _) = false |- _ => apply Z.ltb_ge in H
               | H : _ \/ _ |- _ => destruct H
               end; lia ] ].

Lemma refresh_failure w :
  record_shape w = true ->
  (truthy (stored_refresh_token w) = false
   \/ truthy_ostr (whoop_client_id (get_settings E)) = false
   \/ truthy_ostr (whoop_client_secret (get_settings E)) = false
   \/ (exists cls msg,
         http_at E (ticks w) (Whoop.refresh_request E (stored_refresh_token w))
         = Failed cls msg)
   \/ (exists resp,
         http_at E (ticks w) (Whoop.refresh_request E (stored_refresh_token w))
         = Responded resp
         /\ 400 <= status_code resp < 600)) ->
  exists w', Whoop._refresh_token E w = (Ok VNone, w')
             /\ token_file w' = token_file w.
Proof.
  unfold record_shape, stored_refresh_token, Whoop._refresh_token, default.
  mred. simpl.
  repeat (mcase; simpl).
  all: failure_leaf.
Qed.

Lemma make_request_without_token w tok w1 ep ps :
  Whoop._get_valid_token E w = (Ok tok, w1) -> truthy tok = false ->
  Whoop._make_whoop_request E ep ps w = (Raise NOT_CONNECTED, w1).
Proof.
  intros H Ht. unfold Whoop._make_whoop_request. mred. rewrite H, Ht.
  reflexivity.
Qed.

Lemma get_valid_token_absent w :
  token_file w = None -> Whoop._get_valid_token E w = (Ok VNone, w).
Proof.
  intros Hf. unfold Whoop._get_valid_token. mred. rewrite Hf. reflexivity.
Qed.

(** What the callers of the refresh do when it yields no token. *)
Lemma callers_after_failed_refresh w0 td w1 v w2 :
  token_file w0 = Some (Json td) -> truthy td = true ->
  Whoop._is_token_expired E td w0 = (Ok true, w1) ->
  Whoop._refresh_token E w1 = (Ok v, w2) -> truthy v = false ->
  Whoop._get_valid_token E w0 = (Ok VNone, w2)
  /\ (forall ep ps,
        Whoop._make_whoop_request E ep ps w0 = (Raise NOT_CONNECTED, w2))
  /\ (exists w3,
        Whoop.get_whoop_status E w0
        = (Ok (JSONResponse {["connected" := VBool false]} HTTP_200_OK), w3)).
Proof.
  intros Hf Htd Hexp Href Hv.
  assert (Hget : Whoop._get_valid_token E w0 = (Ok VNone, w2)).
  { unfold Whoop._get_valid_token. mred. rewrite Hf, Htd. mred.
    rewrite Hexp. mred. rewrite Href. mred. rewrite Hv. reflexivity. }
  split; [exact Hget|]. split.
  - intros ep ps. apply (make_request_without_token _ _ _ _ _ Hget). reflexivity.
  - unfold Whoop.get_whoop_status. mred. rewrite Hf, Htd. mred.
    destruct td; try (unfold Whoop._is_token_expired in Hexp; discriminate Hexp).
    destruct (truthy match d !! "access_token" with
                     | Some a => a
                     | None => VNone
                     end) eqn:Ha; simpl.
    + rewrite Hexp. mred. rewrite Href. mred. rewrite Hv. simpl. eauto.
    + eauto.
Qed.

(** C7, as amended. With the stored record absent, unreadable or a JSON
    object, a refresh that fails for one of the listed reasons (no
    stored refresh token, missing client credentials, a network error, or a
    response with a 4xx or 5xx status, the statuses on which
    [raise_for_status] raises) returns [None] without raising and leaves
    the stored record as it was; and a caller that gets [None] from the
    refresh does what it does when no record is stored: the read returns
    [None], a data request is refused as "not connected" without being
    sent, and the status is "not connected". *)
Theorem C7_refresh_failure_is_not_connected :
  (forall w,
      record_shape w = true ->
      (truthy (stored_refresh_token w) = false
       \/ truthy_ostr (whoop_client_id (get_settings E)) = false
       \/ truthy_ostr (whoop_client_secret (get_settings E)) = false
       \/ (exists cls msg,
             http_at E (ticks w)
               (Whoop.refresh_request E (stored_refresh_token w))
             = Failed cls msg)
       \/ (exists resp,
             http_at E (ticks w)
               (Whoop.refresh_request E (stored_refresh_token w))
             = Responded resp
             /\ 400 <= status_code resp < 600)) ->
      exists w', Whoop._refresh_token E w = (Ok VNone, w')
                 /\ token_file w' = token_file w)
  /\ (forall w0 td w1 v w2,
        token_file w0 = Some (Json td) -> truthy td = true ->
        Whoop._is_token_expired E td w0 = (Ok true, w1) ->
        Whoop._refresh_token E w1 = (Ok v, w2) -> truthy v = false ->
        Whoop._get_valid_token E w0 = (Ok VNone, w2)
        /\ (forall ep ps,
              Whoop._make_whoop_request E ep ps w0 = (Raise NOT_CONNECTED, w2))
        /\ (exists w3,
              Whoop.get_whoop_status E w0
              = (Ok (JSONResponse {["connected" := VBool false]} HTTP_200_OK),
                 w3)))
  /\ (forall w0,
        token_file w0 = None ->
        Whoop._get_valid_token E w0 = (Ok VNone, w0)
        /\ (forall ep ps,
              Whoop._make_whoop_request E ep ps w0 = (Raise NOT_CONNECTED, w0))
        /\ Whoop.get_whoop_status E w0
           = (Ok (JSONResponse {["connected" := VBool false]} HTTP_200_OK), w0)).
Proof.
  split; [exact refresh_failure|]. split; [exact callers_after_failed_refresh|].
  intros w0 Hf. assert (Hget := get_valid_token_absent w0 Hf).
  split; [exact Hget|]. split.
  - intros ep ps. apply (make_request_without_token _ _ _ _ _ Hget). reflexivity.
  - unfold Whoop.get_whoop_status. mred. rewrite Hf. reflexivity.
Qed.

End WhoopRefreshFailure.

(** A provider that cannot be reached: the refresh returns [None]. *)
Lemma C7_refresh_failure_is_not_connected_witness :
  let E := Sample.env_unreachable Sample.settings in
  let w := Sample.world_with_token
             (Sample.record "old" "r1" "2024-01-05T12:03:00") in
  exists w', Whoop._refresh_token E w = (Ok VNone, w')
             /\ token_file w' = token_file w.
Proof.
  intros E w.
  apply (proj1 (C7_refresh_failure_is_not_connected E) w).
  - reflexivity.
  - right. right. right. left.
    exists "ConnectionError", "connection refused". reflexivity.
Defined.

(** Counterexample to C7 as the specification states it, for every response
    that is not 2xx: a 300 whose body is a token is taken as a successful
    refresh, and the record is replaced. *)
Lemma C7_counterexample_multiple_choices :
  let resp := mk_response 300 "Multiple Choices" ""
                (Some (VDict (Sample.token_body "new"))) in
  let E := Sample.env_answering Sample.settings resp in
  let w := Sample.world_with_token
             (Sample.record "old" "r1" "2024-01-05T12:03:00") in
  http_at E (ticks w) (Whoop.refresh_request E (stored_refresh_token w))
    = Responded resp
  /\ ~ (200 <= status_code resp < 300)
  /\ fst (Whoop._refresh_token E w) <> Ok VNone
  /\ token_file (snd (Whoop._refresh_token E w)) <> token_file w.
Proof.
  intros resp E w. split; [reflexivity|]. split; [simpl; lia|].
  split; intros H; vm_compute in H; discriminate H.
Qed.

(** ** Resolving the Hevy key *)
Section HevyKey.
Context (E : env).

Lemma load_api_key_run w :
  Hevy._load_api_key_from_file w = (Ok (stored_api_key w), w).
Proof.
  unfold Hevy._load_api_key_from_file, stored_api_key, default. mrun;
    reflexivity.
Qed.

Lemma get_api_key_run w :
  Hevy._get_api_key E w = (Ok (active_api_key E w), w).
Proof.
  unfold Hevy._get_api_key, active_api_key. mred. rewrite load_api_key_run.
  destruct (truthy (stored_api_key w)); reflexivity.
Qed.

(** The key resolved depends on the key file only. *)
Lemma active_api_key_frame w w' :
  api_key_file w' = api_key_file w -> active_api_key E w' = active_api_key E w.
Proof.
  intros H. unfold active_api_key, stored_api_key. rewrite H. reflexivity.
Qed.

End HevyKey.

(** ** A 401 from the provider *)
Section Unauthorized.
Context (E : env).

Lemma make_request_unauthorized w ep ps tok w1 resp :
  Whoop._get_valid_token E w = (Ok tok, w1) -> truthy tok = true ->
  http_at E (ticks w1) (Whoop.data_request E ep tok ps) = Responded resp ->
  status_code resp = 401 ->
  exists w',
    Whoop._make_whoop_request E ep ps w = (Raise AUTH_EXPIRED, w')
    /\ token_file w' = None
    /\ trace w' = (trace w1 ++ [Http (Whoop.data_request E ep tok ps)])%list.
Proof.
  intros Hget Ht Hresp Hst.
  unfold Whoop._make_whoop_request. mred. rewrite Hget, Ht. mred.
  rewrite Hresp. mred. rewrite Hst. simpl. rewrite Hst. simpl.
  destruct (token_file w1) eqn:Hf; simpl; eexists; (repeat split);
    simpl; first [reflexivity | exact Hf].
Qed.

Lemma hevy_request_unauthorized w ep method ps jd :
  truthy (active_api_key E w) = true ->
  In method ["GET"; "POST"; "PUT"; "DELETE"] ->
  (forall req, exists resp,
      http_at E (ticks w) req = Responded resp /\ status_code resp = 401) ->
  exists w',
    Hevy._make_hevy_request E ep method ps jd w
    = (Raise (HTTPException HTTP_401_UNAUTHORIZED
                "Hevy API key is invalid. Please update your API key."), w')
    /\ api_key_file w' = api_key_file w
    /\ length (requests_sent (trace w')) = S (length (requests_sent (trace w))).
Proof.
  intros Ht Hm Hresp.
  unfold Hevy._make_hevy_request. mred. rewrite get_api_key_run, Ht. mred.
  simpl in Hm.
  destruct Hm as [<-|[<-|[<-|[<-|[]]]]]; simpl;
    match goal with
    | |- context [http_at E (ticks w) ?r] =>
        destruct (Hresp r) as (resp & -> & Hst)
    end; mred; rewrite Hst; simpl; rewrite Hst; simpl;
    (eexists; split; [reflexivity|]; split; [reflexivity|];
       simpl; rewrite requests_sent_app, length_app; simpl; lia).
Qed.

(** C1, as amended.  A Whoop data request that is answered by a 401 deletes
    the stored token record before the error is surfaced as
    "authentication expired", so that the next data request starts from
    "not connected" and is refused without being sent.  A Hevy data request
    that is answered by a 401 is surfaced as an invalid key, but the stored
    key is left in place: the next call resolves the same key again. *)
Theorem C1_unauthorized_invalidation :
  (forall w ep ps tok w1 resp,
      Whoop._get_valid_token E w = (Ok tok, w1) -> truthy tok = true ->
      http_at E (ticks w1) (Whoop.data_request E ep tok ps) = Responded resp ->
      status_code resp = 401 ->
      exists w',
        Whoop._make_whoop_request E ep ps w = (Raise AUTH_EXPIRED, w')
        /\ token_file w' = None
        /\ (forall ep' ps',
              Whoop._make_whoop_request E ep' ps' w'
              = (Raise NOT_CONNECTED, w')))
  /\ (forall w ep method ps jd,
        truthy (active_api_key E w) = true ->
        In method ["GET"; "POST"; "PUT"; "DELETE"] ->
        (forall req, exists resp,
            http_at E (ticks w) req = Responded resp
            /\ status_code resp = 401) ->
        exists w',
          Hevy._make_hevy_request E ep method ps jd w
          = (Raise (HTTPException HTTP_401_UNAUTHORIZED
                      "Hevy API key is invalid. Please update your API key."),
             w')
          /\ api_key_file w' = api_key_file w
          /\ Hevy._get_api_key E w' = (Ok (active_api_key E w), w')).
Proof.
  split.
  - intros w ep ps tok w1 resp Hget Ht Hresp Hst.
    destruct (make_request_unauthorized w ep ps tok w1 resp Hget Ht Hresp Hst)
      as (w' & Hrun & Hf & _).
    exists w'. split; [exact Hrun|]. split; [exact Hf|].
    intros ep' ps'. unfold Whoop._make_whoop_request, Whoop._get_valid_token.
    mred. rewrite Hf. reflexivity.
  - intros w ep method ps jd Ht Hm Hresp.
    destruct (hevy_request_unauthorized w ep method ps jd Ht Hm Hresp)
      as (w' & Hrun & Hf & _).
    exists w'. split; [exact Hrun|]. split; [exact Hf|].
    rewrite get_api_key_run, (active_api_key_frame E w w' Hf). reflexivity.
Qed.

End Unauthorized.

(** A fresh Whoop token, a 401 on the data request: the record is gone. *)
Lemma C1_unauthorized_invalidation_witness :
  let E := Sample.env_answering Sample.settings Sample.unauthorized in
  let w := Sample.world_with_token
             (Sample.record "old" "r1" "2024-01-05T13:00:00") in
  exists w',
    Whoop._make_whoop_request E "recovery" ∅ w = (Raise AUTH_EXPIRED, w')
    /\ token_file w' = None
    /\ (forall ep' ps',
          Whoop._make_whoop_request E ep' ps' w' = (Raise NOT_CONNECTED, w')).
Proof.
  intros E w.
  apply (proj1 (C1_unauthorized_invalidation E) w "recovery" ∅
           (VStr "old") (tick w) Sample.unauthorized).
  - vm_compute. reflexivity.
  - reflexivity.
  - reflexivity.
  - reflexivity.
Defined.

(** Counterexample to C1 as the specification states it, for Hevy: after a
    401 the stored key is still there, and the next request is sent with it
    again. *)
Lemma C1_counterexample_hevy_keeps_key :
  let E := Sample.env_answering Sample.settings Sample.unauthorized in
  let w := Sample.world_with_key "k1" in
  let run := Hevy._make_hevy_request E "workouts" "GET" None None w in
  fst run = Raise (HTTPException HTTP_401_UNAUTHORIZED
                     "Hevy API key is invalid. Please update your API key.")
  /\ api_key_file (snd run) = api_key_file w
  /\ api_key_file (snd run) <> None
  /\ length (requests_sent
               (trace (snd (Hevy._make_hevy_request E "workouts" "GET"
                              None None (snd run))))) = 2%nat.
Proof.
  intros E w run. vm_compute. repeat split; discriminate.
Qed.

(** ** The OAuth state *)

Lemma urlsafe_char_plain (c : ascii) :
  is_urlsafe_char c = true -> is_space c = false /\ Ascii.eqb c CR = false.
Proof.
  destruct c as [[] [] [] [] [] [] [] []]; intros H;
    try discriminate H; split; reflexivity.
Qed.

Lemma universal_newlines_plain (cs : list ascii) :
  Forall (fun c => Ascii.eqb c CR = false) cs -> universal_newlines cs = cs.
Proof.
  induction 1 as [|c cs Hc _ IH]; [reflexivity|].
  simpl. rewrite Hc, IH. reflexivity.
Qed.

Lemma lstrip_plain (cs : list ascii) :
  Forall (fun c => is_space c = false) cs -> lstrip cs = cs.
Proof. destruct 1 as [|c cs Hc _]; [reflexivity|]. simpl. rewrite Hc. reflexivity. Qed.

(** A URL-safe token is read back from the state file as it was written. *)
Lemma strip_read_urlsafe (s : string) :
  is_urlsafe s = true -> strip (read_text s) = s.
Proof.
  unfold is_urlsafe. intros H0.
  assert (H := proj1 (forallb_forall _ _) H0). clear H0.
  assert (Hsp : Forall (fun c => is_space c = false) (list_ascii_of_string s)).
  { apply List.Forall_forall. intros c Hc. apply urlsafe_char_plain; auto. }
  assert (Hcr : Forall (fun c => Ascii.eqb c CR = false) (list_ascii_of_string s)).
  { apply List.Forall_forall. intros c Hc. apply urlsafe_char_plain; auto. }
  unfold strip, read_text.
  rewrite (universal_newlines_plain _ Hcr), string_of_list_ascii_of_string.
  rewrite (lstrip_plain _ Hsp), (lstrip_plain _ (List.Forall_rev Hsp)).
  rewrite rev_involutive. apply string_of_list_ascii_of_string.
Qed.

Section OAuthState.
Context (E : env).


Lemma connect_whoop_no_state code state w :
  state_file w = None ->
  Whoop.connect_whoop E code state w = (Ok CSRF_ERROR, w).
Proof.
  intros Hf. unfold Whoop.connect_whoop, Whoop._validate_and_clear_state.
  mred. rewrite Hf. reflexivity.
Qed.



(** The redirect stores the fresh state. *)
Lemma whoop_connect_issues w :
  truthy_ostr (whoop_client_id (get_settings E)) = true ->
  exists redirect,
    WhoopRoutes.whoop_connect E w
    = (Ok redirect,
       set_state_file (Some (Text (token_urlsafe_at E (ticks w)))) (tick w)).
Proof.
  intros Hid. unfold WhoopRoutes.whoop_connect. rewrite Hid. mred.
  eexists. reflexivity.
Qed.


End OAuthState.



(** ** Data requests and their parameters *)
Section DataRequests.
Context (E : env).

Lemma not_get_carries (u : string) (ps : gmap string value) (e : event) :
  not_get e -> get_carries u ps e.
Proof. destruct e; simpl; auto. Qed.

(** Reading the access token sends no data request. *)
Lemma get_valid_token_trace w r w' :
  Whoop._get_valid_token E w = (r, w') -> extends not_get w w'.
Proof.
  unfold Whoop._get_valid_token. mrun.
  all: intros [= <- <-].
  all: repeat match goal with
         | H : Whoop._is_token_expired _ _ _ = _ |- _ =>
             apply is_token_expired_frame in H; destruct H as [H _]
         | H : Whoop._refresh_token _ _ = _ |- _ =>
             apply refresh_token_trace in H
         end.
  all: first
         [ apply extends_refl; first [reflexivity | assumption]
         | eapply extends_trans;
           [apply extends_refl; eassumption | eassumption] ].
Qed.

(** A data request sends at most one [GET], to its endpoint and with its
    parameters. *)
Lemma make_request_trace ep ps w r w' :
  Whoop._make_whoop_request E ep ps w = (r, w') ->
  extends (get_carries (Whoop.API_BASE +:+ ep) ps) w w'.
Proof.
  unfold Whoop._make_whoop_request. mrun.
  all: intros [= <- <-].
  all: match goal with
       | H : Whoop._get_valid_token _ _ = _ |- _ =>
           apply get_valid_token_trace in H;
           apply (extends_weaken _ _ _ _
                    (not_get_carries (Whoop.API_BASE +:+ ep) ps)) in H
       end.
  all: first
         [ eassumption
         | eapply extends_trans; [eassumption|];
           eapply extends_step; [simpl; reflexivity|];
           right; repeat split ].
Qed.

Lemma length_list_ascii (s : string) :
  length (list_ascii_of_string s) = String.length s.
Proof. induction s as [|c s IH]; simpl; congruence. Qed.

Lemma bare_date_length (s : string) :
  is_bare_date s = true -> String.length s = 10%nat.
Proof.
  unfold is_bare_date. rewrite <- length_list_ascii.
  destruct (list_ascii_of_string s) as [|? [|? [|? [|? [|? [|? [|? [|? [|? [|? [|? ?]]]]]]]]]]];
    try discriminate. reflexivity.
Qed.

(** On a bare date and on a date with a time component, the length test of
    the code is the test of the specification. *)
Lemma length_test (s : string) :
  is_bare_date s = true \/ has_time_component s = true ->
  (String.length s =? 10)%nat = is_bare_date s /\ truthy (VStr s) = true.
Proof.
  intros [H|H].
  - rewrite H, (bare_date_length s H). split; [reflexivity|].
    destruct s; [discriminate H|reflexivity].
  - unfold has_time_component in H. apply andb_true_iff in H as [_ H].
    apply Nat.ltb_lt in H.
    destruct (is_bare_date s) eqn:Hb.
    + apply bare_date_length in Hb. lia.
    + split; [apply Nat.eqb_neq; lia|]. destruct s; [simpl in H; lia|reflexivity].
Qed.

(** What each data-fetch function asks for, given both dates. *)
Lemma fetch_window op s e :
  (is_bare_date s = true \/ has_time_component s = true) ->
  (is_bare_date e = true \/ has_time_component e = true) ->
  fetch E op (Some s) (Some e)
  = Whoop._make_whoop_request E (endpoint op) (window op s e).
Proof.
  intros Hs He.
  destruct (length_test s Hs) as [Hls Hts], (length_test e He) as [Hle Hte].
  unfold window, spec_start, spec_end.
  destruct op; unfold fetch, widens, endpoint,
    Whoop.get_recovery_data, Whoop.get_sleep_data, Whoop.get_strain_data,
    Whoop.get_workout_data, Whoop.get_cycles_data;
    rewrite ?Hts, ?Hte, ?Hls, ?Hle;
    destruct (is_bare_date s), (is_bare_date e); reflexivity.
Qed.

(** What each data-fetch function asks for, each date supplied or not. *)
Lemma fetch_query op sd ed :
  (forall s, sd = Some s ->
     is_bare_date s = true \/ has_time_component s = true) ->
  (forall e, ed = Some e ->
     is_bare_date e = true \/ has_time_component e = true) ->
  fetch E op sd ed
  = Whoop._make_whoop_request E (endpoint op) (query op sd ed).
Proof.
  intros Hs He.
  assert (Hsd : forall s, sd = Some s ->
            (String.length s =? 10)%nat = is_bare_date s
            /\ truthy (VStr s) = true)
    by (intros s H; apply length_test, Hs, H).
  assert (Hed : forall e, ed = Some e ->
            (String.length e =? 10)%nat = is_bare_date e
            /\ truthy (VStr e) = true)
    by (intros e H; apply length_test, He, H).
  clear Hs He.
  unfold query, sent_start, sent_end, spec_start, spec_end.
  destruct sd as [s|]; [destruct (Hsd s eq_refl) as [Hls Hts]|];
    (destruct ed as [e|]; [destruct (Hed e eq_refl) as [Hle Hte]|]);
    clear Hsd Hed;
    destruct op; unfold fetch, widens, endpoint,
      Whoop.get_recovery_data, Whoop.get_sleep_data, Whoop.get_strain_data,
      Whoop.get_workout_data, Whoop.get_cycles_data;
    rewrite ?Hts, ?Hte, ?Hls, ?Hle;
    try destruct (is_bare_date s); try destruct (is_bare_date e);
    reflexivity.
Qed.

(** C4, as amended.  Each date is treated on its own, whether or not the
    other one is supplied.  The recovery, sleep, workout and cycle fetches
    widen a supplied bare [YYYY-MM-DD] start date to [T00:00:00.000Z] and a
    supplied bare end date to [T23:59:59.999Z] and pass a supplied date
    that already has a time component through unchanged; a date that is
    not supplied has no parameter; every [GET] they send goes to their
    endpoint with exactly these parameters.  The strain fetch does not
    widen: it passes each supplied date through as it is, bare or not. *)
Theorem C4_date_widening (op : whoop_op) (sd ed : option string) :
  (forall s, sd = Some s ->
     is_bare_date s = true \/ has_time_component s = true) ->
  (forall e, ed = Some e ->
     is_bare_date e = true \/ has_time_component e = true) ->
  fetch E op sd ed
  = Whoop._make_whoop_request E (endpoint op) (query op sd ed)
  /\ query op sd ed !! "start"
     = option_map
         (fun s => VStr (if widens op then spec_start s else s)) sd
  /\ query op sd ed !! "end"
     = option_map
         (fun e => VStr (if widens op then spec_end e else e)) ed
  /\ (forall k, query op sd ed !! k <> None -> k = "start" \/ k = "end")
  /\ (forall w r w',
        fetch E op sd ed w = (r, w') ->
        extends
          (get_carries (Whoop.API_BASE +:+ endpoint op) (query op sd ed))
          w w').
Proof.
  intros Hs He. split; [exact (fetch_query op sd ed Hs He)|].
  split; [|split; [|split]].
  - unfold query, sent_start. destruct sd as [s|], ed as [e|];
      cbn [option_map];
      rewrite ?(lookup_insert_ne _ "end") by discriminate;
      first [apply lookup_insert_eq | apply lookup_empty].
  - unfold query, sent_end. destruct sd as [s|], ed as [e|];
      cbn [option_map];
      first [apply lookup_insert_eq
            | rewrite lookup_insert_ne by discriminate; apply lookup_empty
            | apply lookup_empty].
  - intros k Hk.
    destruct (decide (k = "start")) as [->|Hns]; [left; reflexivity|].
    destruct (decide (k = "end")) as [->|Hne]; [right; reflexivity|].
    exfalso. apply Hk. unfold query. destruct sd as [s|], ed as [e|];
      rewrite ?lookup_insert_ne by congruence; apply lookup_empty.
  - intros w r w'. rewrite (fetch_query op sd ed Hs He).
    apply make_request_trace.
Qed.

End DataRequests.

(** A bare start date alone, for the recovery fetch: it is widened, and no
    end date is sent. *)
Lemma C4_date_widening_witness :
  let E := Sample.env_answering Sample.settings
             (Sample.ok_response (VDict ∅)) in
  fetch E Recovery (Some "2024-01-05") None
  = Whoop._make_whoop_request E "recovery"
      (<["start" := VStr "2024-01-05T00:00:00.000Z"]> ∅).
Proof.
  intros E.
  refine (proj1 (C4_date_widening E Recovery (Some "2024-01-05") None _ _)).
  - intros s [= <-]. left. reflexivity.
  - intros e H. discriminate H.
Defined.

(** Counterexample to C4 as the specification states it, for the strain
    fetch: bare dates reach the provider as they were supplied. *)
Lemma C4_counterexample_strain :
  let E := Sample.env_answering Sample.settings
             (Sample.ok_response (VDict ∅)) in
  let w := Sample.world_with_token
             (Sample.record "old" "r1" "2024-01-05T13:00:00") in
  let sent := requests_sent
                (trace (snd (fetch E Strain (Some "2024-01-05")
                               (Some "2024-01-06") w))) in
  is_bare_date "2024-01-05" = true
  /\ is_bare_date "2024-01-06" = true
  /\ map (fun r => (method r, url r, params r !! "start", params r !! "end")) sent
     = [("GET", "https://api.prod.whoop.com/developer/v2/cycle",
         Some (VStr "2024-01-05"), Some (VStr "2024-01-06"))].
Proof.
  intros E w sent. vm_compute. repeat split.
Qed.

(** ** The default window of the tool adapters *)

Lemma is_digit_digit_char (n : Z) : is_digit (digit_char n) = true.
Proof.
  unfold digit_char. assert (H := Z.mod_pos_bound n 10 ltac:(lia)).
  assert (Hk : In (n mod 10) [0; 1; 2; 3; 4; 5; 6; 7; 8; 9]) by (simpl; lia).
  simpl in Hk.
  repeat (destruct Hk as [<-|Hk]; [reflexivity|]). destruct Hk.
Qed.

(** [strftime("%Y-%m-%d")] writes a bare date. *)
Lemma strftime_bare (dt : datetime.t) :
  is_bare_date (datetime.strftime_Ymd dt) = true.
Proof.
  unfold is_bare_date, datetime.strftime_Ymd.
  rewrite list_ascii_of_string_of_list_ascii. cbn [fixed app].
  rewrite !is_digit_digit_char. reflexivity.
Qed.

Section DefaultWindow.
Context (E : env).

Lemma default_range_run w start :
  datetime.add (utcnow_at E (ticks w)) (-7 * datetime.US_PER_DAY) = Some start ->
  WhoopTools._get_default_date_range E w
  = (Ok (datetime.strftime_Ymd start,
         datetime.strftime_Ymd (utcnow_at E (ticks w))), tick w).
Proof.
  intros Hadd. unfold WhoopTools._get_default_date_range. mred.
  change (datetime.timedelta 7 0 0) with (Some (7 * datetime.US_PER_DAY)).
  mred. change (- (7 * datetime.US_PER_DAY)) with (-7 * datetime.US_PER_DAY).
  rewrite Hadd. reflexivity.
Qed.

(** With a date missing, both dates are those of the default range. *)
Lemma resolve_dates_default sd ed :
  truthy_ostr sd = false \/ truthy_ostr ed = false ->
  WhoopTools.resolve_dates E sd ed
  = (range <- WhoopTools._get_default_date_range E ;;
     ret (Some (fst range), Some (snd range))).
Proof.
  intros H. unfold WhoopTools.resolve_dates.
  destruct H as [-> | ->]; [reflexivity|].
  rewrite orb_true_r. reflexivity.
Qed.

(** An adapter is its data fetch, with the result or the exception turned
    into text. *)
Lemma tool_after_dates op sd ed w s e w0 :
  WhoopTools.resolve_dates E sd ed w = (Ok (s, e), w0) ->
  adapter E op sd ed w
  = (let '(r, w') := fetch E op s e w0 in
     (Ok match r with
         | Ok data => str_value E data
         | Raise exc => error_prefix op +:+ str_exn exc
         end, w')).
Proof.
  intros H.
  destruct op; unfold adapter, fetch, error_prefix,
    WhoopTools._whoop_get_recovery, WhoopTools._whoop_get_sleep,
    WhoopTools._whoop_get_strain, WhoopTools._whoop_get_workouts,
    WhoopTools._whoop_get_cycles; mred; rewrite H; simpl;
    match goal with
    | |- context [?f E (Some ?a) (Some ?b) ?w] => destruct (f E (Some a) (Some b) w) as [[?|?] ?]
    | |- context [?f E ?a ?b w0] => destruct (f E a b w0) as [[?|?] ?]
    end; reflexivity.
Qed.

(** A data request made with a token in hand is sent, whatever comes back. *)
Lemma make_request_sends ep ps w tok w1 r w' :
  Whoop._get_valid_token E w = (Ok tok, w1) -> truthy tok = true ->
  Whoop._make_whoop_request E ep ps w = (r, w') ->
  trace w' = (trace w1 ++ [Http (Whoop.data_request E ep tok ps)])%list.
Proof.
  intros Hget Ht. unfold Whoop._make_whoop_request. mred. rewrite Hget, Ht.
  mrun. all: intros [= <- <-]; reflexivity.
Qed.

(** What a tool call without usable dates asks the provider. *)
Lemma default_window_query op sd ed w start :
  truthy_ostr sd = false \/ truthy_ostr ed = false ->
  datetime.add (utcnow_at E (ticks w)) (-7 * datetime.US_PER_DAY) = Some start ->
  WhoopTools.resolve_dates E sd ed w
  = (Ok (Some (datetime.strftime_Ymd start),
         Some (datetime.strftime_Ymd (utcnow_at E (ticks w)))), tick w)
  /\ (forall r w',
        adapter E op sd ed w = (r, w') ->
        (exists text, r = Ok text)
        /\ extends
             (get_carries (Whoop.API_BASE +:+ endpoint op)
                (default_window op start (utcnow_at E (ticks w)))) w w'
        /\ (forall tok w1,
              Whoop._get_valid_token E (tick w) = (Ok tok, w1) ->
              truthy tok = true ->
              trace w'
              = (trace w1
                 ++ [Http (Whoop.data_request E (endpoint op) tok
                             (default_window op start
                                (utcnow_at E (ticks w))))])%list)).
Proof.
  intros Hmiss Hadd.
  assert (Hres :
    WhoopTools.resolve_dates E sd ed w
    = (Ok (Some (datetime.strftime_Ymd start),
           Some (datetime.strftime_Ymd (utcnow_at E (ticks w)))), tick w)).
  { rewrite (resolve_dates_default sd ed Hmiss). mred.
    rewrite (default_range_run w start Hadd). reflexivity. }
  split; [exact Hres|].
  intros r w'. rewrite (tool_after_dates op sd ed w _ _ _ Hres).
  rewrite (fetch_window E op _ _ (or_introl (strftime_bare start))
             (or_introl (strftime_bare (utcnow_at E (ticks w))))).
  assert (Hwin : window op (datetime.strftime_Ymd start)
                   (datetime.strftime_Ymd (utcnow_at E (ticks w)))
                 = default_window op start (utcnow_at E (ticks w))).
  { unfold window, default_window, spec_start, spec_end.
    rewrite !strftime_bare. reflexivity. }
  rewrite Hwin.
  destruct (Whoop._make_whoop_request E (endpoint op)
              (default_window op start (utcnow_at E (ticks w))) (tick w))
    as [r0 w0] eqn:Hrun.
  intros [= <- <-]. split; [eauto|]. split.
  - apply make_request_trace in Hrun.
    eapply extends_trans; [|exact Hrun]. apply extends_refl. reflexivity.
  - intros tok w1 Hget Ht.
    apply (make_request_sends _ _ _ _ _ _ _ Hget Ht Hrun).
Qed.

(** C5. A tool call with no dates asks for a window of seven days at day
    granularity: the dates handed to the data fetch are the current UTC
    date and the date seven days before it, [now] being the one reading of
    the clock; the call never raises; every [GET] it sends goes to the
    endpoint of the operation with exactly that window as parameters
    (widened to the full days, the strain apart), and with a usable token
    the request is sent. *)
Theorem C5_default_window (op : whoop_op) (w : world) (start : datetime.t) :
  datetime.valid (utcnow_at E (ticks w)) = true ->
  datetime.add (utcnow_at E (ticks w)) (-7 * datetime.US_PER_DAY) = Some start ->
  WhoopTools.resolve_dates E None None w
  = (Ok (Some (datetime.strftime_Ymd start),
         Some (datetime.strftime_Ymd (utcnow_at E (ticks w)))), tick w)
  /\ datetime.toordinal (utcnow_at E (ticks w)) - datetime.toordinal start = 7
  /\ (forall r w',
        adapter E op None None w = (r, w') ->
        (exists text, r = Ok text)
        /\ extends
             (get_carries (Whoop.API_BASE +:+ endpoint op)
                (default_window op start (utcnow_at E (ticks w)))) w w'
        /\ (forall tok w1,
              Whoop._get_valid_token E (tick w) = (Ok tok, w1) ->
              truthy tok = true ->
              trace w'
              = (trace w1
                 ++ [Http (Whoop.data_request E (endpoint op) tok
                             (default_window op start
                                (utcnow_at E (ticks w))))])%list)).
Proof.
  intros Hv Hadd.
  destruct (default_window_query op None None w start (or_introl eq_refl) Hadd)
    as [Hres Hq].
  split; [exact Hres|]. split; [|exact Hq].
  destruct (add_days_ordinal _ _ (-7) Hv Hadd) as [Hord _]. lia.
Qed.


End DefaultWindow.

(** At noon on 5 January 2024 the window starts on 29 December 2023. *)
Lemma C5_default_window_witness :
  let E := Sample.env_answering Sample.settings
             (Sample.ok_response (VDict ∅)) in
  WhoopTools.resolve_dates E None None Sample.empty_world
  = (Ok (Some "2023-12-29", Some "2024-01-05"), tick Sample.empty_world).
Proof.
  intros E.
  apply (proj1 (C5_default_window E Recovery Sample.empty_world
                  (datetime.mk 2023 12 29 12 0 0 0) eq_refl eq_refl)).
Defined.


(** ** The Hevy status check *)
Section HevyStatus.
Context (E : env).

(** What the status check does, case by case. *)
Lemma hevy_status_run w :
  if negb (truthy (active_api_key E w)) then
    Hevy.get_hevy_status E w
    = (Ok (JSONResponse {["connected" := VBool false]} HTTP_200_OK), w)
  else if equals_environment E w then
    Hevy.get_hevy_status E w
    = (Ok (JSONResponse
             (<["connected" := VBool true]>
                (<["source" := VStr "environment"]> ∅)) HTTP_200_OK), w)
  else
    exists r,
      Hevy.get_hevy_status E w
      = (Ok r, log (Http (Hevy.probe_request (active_api_key E w))) (tick w)).
Proof.
  unfold Hevy.get_hevy_status, equals_environment. mred.
  rewrite get_api_key_run.
  destruct (truthy (active_api_key E w)); simpl; [|reflexivity].
  destruct (eq_ostr (active_api_key E w) (hevy_api_key (get_settings E))
            && truthy_ostr (hevy_api_key (get_settings E))); [reflexivity|].
  mrun; eauto.
Qed.

(** C9, as amended.  A key sourced from the environment is reported
    connected, with the environment as its source, and no request is sent.
    The validation probe is sent if and only if there is an active key and
    it differs from the key of the environment (or the environment has
    none); the check tells the two sources apart by comparing the values,
    so a user-supplied key that equals the key of the environment is
    reported as from the environment, without a probe. *)
Theorem C9_status_probe (w : world) :
  (from_environment E w = true ->
     Hevy.get_hevy_status E w
     = (Ok (JSONResponse
              (<["connected" := VBool true]>
                 (<["source" := VStr "environment"]> ∅)) HTTP_200_OK), w))
  /\ (exists r w',
        Hevy.get_hevy_status E w = (Ok r, w')
        /\ (truthy (active_api_key E w) && negb (equals_environment E w) = true ->
            trace w'
            = (trace w ++ [Http (Hevy.probe_request (active_api_key E w))])%list)
        /\ (truthy (active_api_key E w) && negb (equals_environment E w) = false ->
            trace w' = trace w))
  /\ (user_supplied w = true -> equals_environment E w = true ->
      Hevy.get_hevy_status E w
      = (Ok (JSONResponse
               (<["connected" := VBool true]>
                  (<["source" := VStr "environment"]> ∅)) HTTP_200_OK), w)).
Proof.
  assert (Hrun := hevy_status_run w).
  split; [|split].
  - unfold from_environment. intros H. apply andb_true_iff in H as [Hf He].
    apply negb_true_iff in Hf.
    assert (Ha : active_api_key E w = of_ostr (hevy_api_key (get_settings E)))
      by (unfold active_api_key; rewrite Hf; reflexivity).
    assert (Heq : equals_environment E w = true).
    { unfold equals_environment. rewrite Ha, He.
      destruct (hevy_api_key (get_settings E)); simpl; [|reflexivity].
      rewrite String.eqb_refl. reflexivity. }
    rewrite Heq in Hrun.
    replace (truthy (active_api_key E w)) with true in Hrun
      by (rewrite Ha; symmetry; exact He).
    exact Hrun.
  - destruct (truthy (active_api_key E w)); simpl in *.
    + destruct (equals_environment E w); simpl.
      * eexists _, _. split; [exact Hrun|]. split; [discriminate|reflexivity].
      * destruct Hrun as [r Hrun]. eexists _, _. split; [exact Hrun|].
        split; [reflexivity|discriminate].
    + eexists _, _. split; [exact Hrun|]. split; [discriminate|reflexivity].
  - intros Hu Heq. unfold user_supplied in Hu.
    replace (truthy (active_api_key E w)) with true in Hrun
      by (unfold active_api_key; rewrite Hu; symmetry; exact Hu).
    rewrite Heq in Hrun. exact Hrun.
Qed.

End HevyStatus.

(** A key of the environment alone: connected, nothing sent. *)
Lemma C9_status_probe_witness :
  let E := Sample.env_answering (Sample.settings_with_hevy "k1")
             Sample.unauthorized in
  Hevy.get_hevy_status E Sample.empty_world
  = (Ok (JSONResponse
           (<["connected" := VBool true]>
              (<["source" := VStr "environment"]> ∅)) HTTP_200_OK),
     Sample.empty_world).
Proof.
  intros E.
  apply (proj1 (C9_status_probe E Sample.empty_world)). reflexivity.
Defined.

(** Counterexample to C9 as the specification states it: the active key is
    the user-supplied one, read from the stored file, and no probe is sent,
    because it equals the key of the environment. *)
Lemma C9_counterexample_same_key :
  let E := Sample.env_answering (Sample.settings_with_hevy "k1")
             Sample.unauthorized in
  let w := Sample.world_with_key "k1" in
  user_supplied w = true
  /\ fst (Hevy._load_api_key_from_file w) = Ok (VStr "k1")
  /\ requests_sent (trace (snd (Hevy.get_hevy_status E w))) = []
  /\ fst (Hevy.get_hevy_status E w)
     = Ok (JSONResponse
             (<["connected" := VBool true]>
                (<["source" := VStr "environment"]> ∅)) HTTP_200_OK).
Proof.
  intros E w. vm_compute. repeat split.
Qed.

(** ** Sending a message *)
Section SendSms.
Context (E : env).

Lemma load_config_run w :
  Sms._load_config w = (Ok (stored_config w), w).
Proof. unfold Sms._load_config, stored_config. mrun; reflexivity. Qed.

Ltac sms_leaf :=
  eexists _, _; (split; [reflexivity|]);
  lazymatch goal with
  | |- (exists _ _, VDict (<["success" := VBool true]> _) = _) \/ _ =>
      left; eexists _, _; reflexivity
  | |- _ \/ _ => right; eexists; reflexivity
  end.

(** With a sender number, the send returns one of its two records. *)
Lemma send_sms_returns to_number message w from_number :
  sender_number E w = Some from_number -> truthy from_number = true ->
  exists r w',
    Sms.send_sms E to_number message w = (Ok r, w')
    /\ ((exists sid status, r = sms_sent sid status to_number)
        \/ (exists error, r = sms_failed error)).
Proof.
  unfold sender_number, Sms.send_sms, Sms._get_twilio_client,
    Sms.setting_or_config, Sms.messages_create, sms_sent, sms_failed, default.
  mred. rewrite !load_config_run.
  destruct (truthy_ostr (twilio_phone_number (get_settings E))) eqn:Hp.
  - intros [= <-] Ht. mred. rewrite Ht. mred.
    repeat (mcase; mred; rewrite ?load_config_run).
    all: sms_leaf.
  - destruct (stored_config w) as [| | | | |d] eqn:Hc; try discriminate.
    intros [= <-] Ht. mred. rewrite Ht. mred.
    repeat (mcase; mred; rewrite ?load_config_run, ?Hc).
    all: sms_leaf.
Qed.

(** Without one, it raises. *)
Lemma send_sms_raises to_number message w from_number :
  sender_number E w = Some from_number -> truthy from_number = false ->
  Sms.send_sms E to_number message w
  = (Raise (PyError "ValueError" "Twilio phone number not configured"), w).
Proof.
  unfold sender_number, Sms.send_sms, Sms.setting_or_config, default.
  mred. rewrite load_config_run.
  destruct (truthy_ostr (twilio_phone_number (get_settings E))) eqn:Hp.
  - intros [= <-] Ht. unfold truthy_ostr in Hp. congruence.
  - destruct (stored_config w) as [| | | | |d]; try discriminate.
    intros [= <-] Ht. mred. rewrite Ht. reflexivity.
Qed.

(** C8, as amended.  When a sender number is configured (in the environment
    or in the stored configuration), the send returns either the record of
    the message sent, [{success: true, sid, status, to}], or the record
    [{success: false, error}], and raises nothing: a missing SDK, missing
    credentials and a refusal by the provider all become the second record.
    When no sender number is configured, the send raises [ValueError]
    before it tries anything, and nothing is sent. *)
Theorem C8_send_sms_outcome (to_number message : string) (w : world)
    (from_number : value) :
  sender_number E w = Some from_number ->
  (truthy from_number = true ->
     exists r w',
       Sms.send_sms E to_number message w = (Ok r, w')
       /\ ((exists sid status, r = sms_sent sid status to_number)
           \/ (exists error, r = sms_failed error)))
  /\ (truthy from_number = false ->
      Sms.send_sms E to_number message w
      = (Raise (PyError "ValueError" "Twilio phone number not configured"), w)).
Proof.
  intros Hs. split; intros Ht.
  - exact (send_sms_returns to_number message w from_number Hs Ht).
  - exact (send_sms_raises to_number message w from_number Hs Ht).
Qed.

End SendSms.

(** Credentials and number in the environment: the message is sent. *)
Lemma C8_send_sms_outcome_witness :
  let E := Sample.env_answering Sample.settings_with_twilio
             Sample.unauthorized in
  exists r w',
    Sms.send_sms E "+15551234567" "hello" Sample.empty_world = (Ok r, w')
    /\ ((exists sid status, r = sms_sent sid status "+15551234567")
        \/ (exists error, r = sms_failed error)).
Proof.
  intros E.
  apply (proj1 (C8_send_sms_outcome E "+15551234567" "hello"
                  Sample.empty_world (VStr "+15550001111") eq_refl)).
  reflexivity.
Defined.

(** Counterexample to C8 as the specification states it: with no sender
    number configured the send raises [ValueError] to its caller. *)
Lemma C8_counterexample_no_sender :
  let E := Sample.env_answering Sample.settings Sample.unauthorized in
  twilio_phone_number (get_settings E) = None
  /\ config_file Sample.empty_world = None
  /\ Sms.send_sms E "+15551234567" "hello" Sample.empty_world
     = (Raise (PyError "ValueError" "Twilio phone number not configured"),
        Sample.empty_world).
Proof.
  intros E. repeat split.
Qed.

(** * Further properties of the clients *)

(** Steps through the monad and leaves the library calls folded. *)
Ltac mstep :=
  lazy beta iota zeta delta
    [bind ret raise try_except get_world modify or_raise dict_get negb orb
     andb response_json datetime_add Whoop._save_token Whoop._load_token
     Whoop._clear_token].

(** ** Connecting Whoop: the exchange *)
Section WhoopConnect.
Context (E : env).

Lemma send_responded req resp w :
  http_at E (ticks w) req = Responded resp ->
  send E req w = (Ok resp, log (Http req) (tick w)).
Proof. intros H. unfold send. rewrite H. reflexivity. Qed.

Lemma send_failed req cls msg w :
  http_at E (ticks w) req = Failed cls msg ->
  send E req w = (Raise (PyError cls msg), log (Http req) (tick w)).
Proof. intros H. unfold send. rewrite H. reflexivity. Qed.

Lemma passes_raise_for_status u resp w :
  passes resp = true -> raise_for_status u resp w = (Ok tt, w).
Proof.
  unfold passes, raise_for_status. intros H.
  apply andb_true_iff in H as [H1 H2].
  apply negb_true_iff in H1, H2. rewrite H1, H2. reflexivity.
Qed.

Lemma expires_in_run body us w :
  expires_in_us body = Some us ->
  timedelta_seconds
    (match body !! "expires_in" with Some v => v | None => VNum 3600 end) w
  = (Ok us, w).
Proof.
  unfold expires_in_us, timedelta_seconds.
  destruct (body !! "expires_in") as [[]|]; try discriminate;
    intros H; try rewrite H; try injection H as <-; reflexivity.
Qed.

(** The run of a callback that connects the account. *)
Lemma connect_whoop_run (code state content : string) (w : world)
    (resp : response) (body : gmap string value) (us : Z)
    (expiry : datetime.t) :
  state_file w = Some (Text content) -> strip (read_text content) = state ->
  truthy_ostr (whoop_client_id (get_settings E)) = true ->
  truthy_ostr (whoop_client_secret (get_settings E)) = true ->
  http_at E (ticks w) (Whoop.exchange_request E code) = Responded resp ->
  passes resp = true -> json_body resp = Some (VDict body) ->
  expires_in_us body = Some us ->
  datetime.add (utcnow_at E (S (ticks w))) us = Some expiry ->
  Whoop.connect_whoop E code state w
  = (Ok CONNECTED,
     set_token_file (Some (Json (VDict (issued_record body expiry))))
       (tick (log (Http (Whoop.exchange_request E code))
                (tick (set_state_file None w))))).
Proof.
  intros Hf Hs Hid Hsec Hresp Hpass Hbody Hus Hadd.
  unfold Whoop.connect_whoop, Whoop._validate_and_clear_state. mstep.
  rewrite Hf. mstep. rewrite Hs, String.eqb_refl, Hid, Hsec. mstep.
  rewrite (send_responded _ resp (set_state_file None w) Hresp).
  rewrite (passes_raise_for_status _ _ _ Hpass), Hbody. mstep.
  unfold utcnow. mstep. rewrite (expires_in_run body us _ Hus). mstep.
  cbn [ticks tick log set_state_file]. rewrite Hadd. reflexivity.
Qed.

(** X1. A callback whose state matches, with the client credentials
    configured and a token response that passes [raise_for_status], sends
    exactly the exchange request, stores the body of the response with
    [expires_at] set to the clock reading plus the announced lifetime (an
    hour when [expires_in] is missing), replacing whatever record was
    stored, consumes the state and answers 200. *)
Theorem connect_whoop_success (code state content : string) (w : world)
    (resp : response) (body : gmap string value) (us : Z)
    (expiry : datetime.t) :
  state_file w = Some (Text content) -> strip (read_text content) = state ->
  truthy_ostr (whoop_client_id (get_settings E)) = true ->
  truthy_ostr (whoop_client_secret (get_settings E)) = true ->
  http_at E (ticks w) (Whoop.exchange_request E code) = Responded resp ->
  passes resp = true -> json_body resp = Some (VDict body) ->
  expires_in_us body = Some us ->
  datetime.add (utcnow_at E (S (ticks w))) us = Some expiry ->
  Whoop.connect_whoop E code state w
  = (Ok CONNECTED,
     set_token_file (Some (Json (VDict (issued_record body expiry))))
       (tick (log (Http (Whoop.exchange_request E code))
                (tick (set_state_file None w))))).
Proof.
  intros Hf Hs Hid Hsec Hresp Hpass Hbody Hus Hadd.
  unfold Whoop.connect_whoop, Whoop._validate_and_clear_state. mstep.
  rewrite Hf. mstep. rewrite Hs, String.eqb_refl, Hid, Hsec. mstep.
  rewrite (send_responded _ resp (set_state_file None w) Hresp).
  rewrite (passes_raise_for_status _ _ _ Hpass), Hbody. mstep.
  unfold utcnow. mstep. rewrite (expires_in_run body us _ Hus). mstep.
  cbn [ticks tick log set_state_file]. rewrite Hadd. reflexivity.
Qed.

(** X2. A callback never raises, and it writes the token file only when it
    answers that the account is connected: every other answer is an error
    with status 400 or 500 and leaves the stored record exactly as it
    was. *)
Theorem connect_whoop_failure_keeps_record (code state : string) (w : world)
    (r : result reply) (w' : world) :
  Whoop.connect_whoop E code state w = (r, w') ->
  (r = Ok CONNECTED /\ exists d, token_file w' = Some (Json (VDict d)))
  \/ (token_file w' = token_file w
      /\ exists message status,
           r = Ok (error_response message status)
           /\ (status = 400 \/ status = 500)).
Proof.
  unfold Whoop.connect_whoop, Whoop._validate_and_clear_state, CONNECTED.
  mred. simpl.
  repeat (mcase; simpl).
  all: intros [= <- <-]; simpl.
  all: first [ left; split; [reflexivity|]; eexists; reflexivity
             | right; split; [reflexivity|]; eexists _, _;
               split; [reflexivity|]; auto ].
Qed.

End WhoopConnect.

(** The state issued, a token for an hour: the record is stored. *)
Lemma connect_whoop_success_witness :
  let E := Sample.env_answering Sample.settings
             (Sample.ok_response (VDict (Sample.token_body "new"))) in
  let w := Sample.world_with_state "Zm9vYmFyYmF6cXV4" in
  exists w',
    Whoop.connect_whoop E "code" "Zm9vYmFyYmF6cXV4" w = (Ok CONNECTED, w')
    /\ token_file w'
       = Some (Json (VDict (issued_record (Sample.token_body "new")
                              (datetime.mk 2024 1 5 13 0 0 0)))).
Proof.
  intros E w. eexists. split.
  - apply (connect_whoop_success E "code" "Zm9vYmFyYmF6cXV4"
             "Zm9vYmFyYmF6cXV4" w
             (Sample.ok_response (VDict (Sample.token_body "new")))
             (Sample.token_body "new") 3600000000
             (datetime.mk 2024 1 5 13 0 0 0));
      vm_compute; reflexivity.
  - reflexivity.
Defined.

(** A refused callback leaves the stored record where it was. *)
Lemma connect_whoop_failure_keeps_record_witness :
  let E := Sample.env_answering Sample.settings Sample.unauthorized in
  let w := Sample.world_with_token
             (Sample.record "old" "r1" "2024-01-05T13:00:00") in
  token_file (snd (Whoop.connect_whoop E "code" "forged" w)) = token_file w.
Proof.
  intros E w.
  destruct (Whoop.connect_whoop E "code" "forged" w) as [r w'] eqn:Hrun.
  destruct (connect_whoop_failure_keeps_record E _ _ _ _ _ Hrun)
    as [[Hr _]|[Hf _]].
  - vm_compute in Hrun. rewrite Hr in Hrun. discriminate Hrun.
  - exact Hf.
Defined.

(** ** The lifetime of a token, on the time line *)
Section TokenLifetime.
Context (E : env).

Lemma ge_instant (a b : datetime.t) :
  datetime.valid a = true -> datetime.valid b = true ->
  datetime.ge a b = (instant b <=? instant a).
Proof.
  intros Ha Hb. unfold datetime.ge. rewrite (cmp_instant a b Ha Hb).
  destruct (Z.compare_spec (instant a) (instant b)) as [H|H|H];
    symmetry; first [apply Z.leb_le; lia | apply Z.leb_gt; lia].
Qed.

(** The expiry check of a record written by this module, as a comparison
    of instants. *)
Lemma expiry_check_instant w d a expiry margin :
  d !! "access_token" = Some a -> truthy a = true ->
  d !! "expires_at" = Some (VStr (datetime.isoformat expiry)) ->
  datetime.valid expiry = true ->
  datetime.add (utcnow_at E (ticks w)) MARGIN_US = Some margin ->
  Whoop._is_token_expired E (VDict d) w
  = (Ok (instant expiry <=? instant (utcnow_at E (ticks w)) + MARGIN_US),
     tick w).
Proof.
  intros Ha Hta He Hv Hm.
  destruct (add_instant _ _ _ Hm) as [Hi Hvm].
  rewrite (is_token_expired_run E w d a _ expiry margin Ha Hta He
             (fromisoformat_isoformat expiry Hv) Hm).
  rewrite (ge_instant margin expiry Hvm Hv), Hi. reflexivity.
Qed.

Lemma get_valid_token_fresh w d a w1 :
  token_file w = Some (Json (VDict d)) ->
  d !! "access_token" = Some a ->
  Whoop._is_token_expired E (VDict d) w = (Ok false, w1) ->
  Whoop._get_valid_token E w = (Ok a, w1).
Proof.
  intros Hf Ha Hexp. unfold Whoop._get_valid_token. mred.
  rewrite Hf, (truthy_dict_lookup d _ _ Ha). mred. rewrite Hexp. mred.
  rewrite Ha. reflexivity.
Qed.

Lemma get_valid_token_stale w d a w1 :
  token_file w = Some (Json (VDict d)) ->
  d !! "access_token" = Some a ->
  Whoop._is_token_expired E (VDict d) w = (Ok true, w1) ->
  exists v w',
    Whoop._get_valid_token E w = (Ok v, w')
    /\ refresh_attempts (trace w') = S (refresh_attempts (trace w))
    /\ (length (requests_sent (trace w'))
        <= S (length (requests_sent (trace w))))%nat.
Proof.
  intros Hf Ha Hexp.
  destruct (is_token_expired_frame E _ _ _ _ Hexp) as [Htr Hf1].
  destruct (refresh_token_total E w1)
    as (v & w' & Hr & Hv & tl & Htl & Hn & Hq).
  { unfold record_shape. rewrite Hf1, Hf. reflexivity. }
  assert (Hcount :
    refresh_attempts (trace w') = S (refresh_attempts (trace w))
    /\ (length (requests_sent (trace w'))
        <= S (length (requests_sent (trace w))))%nat).
  { rewrite Htl, Htr.
    rewrite refresh_attempts_app, requests_sent_app, length_app.
    change (requests_sent (Refresh :: tl)) with (requests_sent tl).
    change (refresh_attempts (Refresh :: tl)) with (S (refresh_attempts tl)).
    rewrite Hn. split; lia. }
  unfold Whoop._get_valid_token. mred.
  rewrite Hf, (truthy_dict_lookup d _ _ Ha). mred. rewrite Hexp. mred.
  rewrite Hr.
  destruct Hv as [-> | (d' & -> & _)].
  - simpl. eauto.
  - destruct (truthy (VDict d')); mred; eauto.
Qed.

(** For a stored record whose expiry was written by this module, the
    read is decided on the time line: while the clock reading plus five
    minutes lies before the expiry, the stored access token is returned
    and nothing is sent; from the instant the clock reading plus five
    minutes reaches the expiry on, every read makes one refresh attempt. *)
Lemma read_on_time_line (w : world) (d : gmap string value) (a : value)
    (expiry margin : datetime.t) :
  token_file w = Some (Json (VDict d)) ->
  d !! "access_token" = Some a -> truthy a = true ->
  d !! "expires_at" = Some (VStr (datetime.isoformat expiry)) ->
  datetime.valid expiry = true ->
  datetime.add (utcnow_at E (ticks w)) MARGIN_US = Some margin ->
  (instant (utcnow_at E (ticks w)) + MARGIN_US < instant expiry ->
     Whoop._get_valid_token E w = (Ok a, tick w))
  /\ (instant expiry <= instant (utcnow_at E (ticks w)) + MARGIN_US ->
      exists v w',
        Whoop._get_valid_token E w = (Ok v, w')
        /\ refresh_attempts (trace w') = S (refresh_attempts (trace w))
        /\ (length (requests_sent (trace w'))
            <= S (length (requests_sent (trace w))))%nat).
Proof.
  intros Hf Ha Hta He Hv Hm.
  assert (Hexp := expiry_check_instant w d a expiry margin Ha Hta He Hv Hm).
  split; intros Hcmp.
  - apply (get_valid_token_fresh w d a _ Hf Ha).
    rewrite Hexp. f_equal. f_equal. apply Z.leb_gt. lia.
  - apply (get_valid_token_stale w d a (tick w) Hf Ha).
    rewrite Hexp. f_equal. f_equal. apply Z.leb_le. lia.
Qed.

(** X3. Connecting and then reading.  After a successful exchange, the
    next read returns the access token of the provider's response without
    sending anything as long as the clock reading of the read plus five
    minutes lies before the clock reading of the exchange plus the
    announced lifetime; otherwise the read goes for a refresh.  A token
    announced for five minutes or less is therefore never returned as
    stored, unless the clock went backwards. *)
Theorem connect_then_read (code state content : string) (w : world)
    (resp : response) (body : gmap string value) (a : value) (us : Z)
    (expiry margin : datetime.t) :
  state_file w = Some (Text content) -> strip (read_text content) = state ->
  truthy_ostr (whoop_client_id (get_settings E)) = true ->
  truthy_ostr (whoop_client_secret (get_settings E)) = true ->
  http_at E (ticks w) (Whoop.exchange_request E code) = Responded resp ->
  passes resp = true -> json_body resp = Some (VDict body) ->
  body !! "access_token" = Some a -> truthy a = true ->
  expires_in_us body = Some us ->
  datetime.add (utcnow_at E (S (ticks w))) us = Some expiry ->
  datetime.add (utcnow_at E (S (S (ticks w)))) MARGIN_US = Some margin ->
  exists w1,
    Whoop.connect_whoop E code state w = (Ok CONNECTED, w1)
    /\ (instant (utcnow_at E (S (S (ticks w)))) + MARGIN_US
        < instant (utcnow_at E (S (ticks w))) + us ->
        Whoop._get_valid_token E w1 = (Ok a, tick w1))
    /\ (instant (utcnow_at E (S (ticks w))) + us
        <= instant (utcnow_at E (S (S (ticks w)))) + MARGIN_US ->
        exists v w2,
          Whoop._get_valid_token E w1 = (Ok v, w2)
          /\ refresh_attempts (trace w2) = S (refresh_attempts (trace w1))).
Proof.
  intros Hf Hs Hid Hsec Hresp Hpass Hbody Ha Hta Hus Hadd Hm.
  eexists. split.
  { exact (connect_whoop_run E code state content w resp body us expiry
             Hf Hs Hid Hsec Hresp Hpass Hbody Hus Hadd). }
  destruct (add_instant _ _ _ Hadd) as [Hi Hv].
  match goal with
  | |- context [Whoop._get_valid_token E ?w1] =>
      destruct (read_on_time_line w1 (issued_record body expiry) a expiry margin)
        as [Hfresh Hstale]
  end.
  - reflexivity.
  - unfold issued_record. rewrite lookup_insert_ne by discriminate. exact Ha.
  - exact Hta.
  - unfold issued_record. apply lookup_insert_eq.
  - exact Hv.
  - exact Hm.
  - cbn [ticks set_token_file tick log set_state_file] in Hfresh, Hstale.
    rewrite Hi in Hfresh, Hstale. split.
    + exact Hfresh.
    + intros H. destruct (Hstale H) as (v & w2 & Hrun & Hn & _). eauto.
Qed.

(** The run of a refresh that succeeds. *)
Lemma refresh_token_run (w : world) (d : gmap string value) (rt : value)
    (resp : response) (body : gmap string value) (us : Z)
    (expiry : datetime.t) :
  token_file w = Some (Json (VDict d)) ->
  d !! "refresh_token" = Some rt -> truthy rt = true ->
  truthy_ostr (whoop_client_id (get_settings E)) = true ->
  truthy_ostr (whoop_client_secret (get_settings E)) = true ->
  http_at E (ticks w) (Whoop.refresh_request E rt) = Responded resp ->
  passes resp = true -> json_body resp = Some (VDict body) ->
  expires_in_us body = Some us ->
  datetime.add (utcnow_at E (S (ticks w))) us = Some expiry ->
  Whoop._refresh_token E w
  = (Ok (VDict (refreshed_record body rt expiry)),
     set_token_file (Some (Json (VDict (refreshed_record body rt expiry))))
       (tick (log (Http (Whoop.refresh_request E rt))
                (tick (log Refresh w))))).
Proof.
  intros Hf Hrt Htrt Hid Hsec Hresp Hpass Hbody Hus Hadd.
  unfold Whoop._refresh_token. mstep. cbn [token_file log].
  rewrite Hf, (truthy_dict_lookup d _ _ Hrt). mstep.
  rewrite Hrt, Htrt, Hid, Hsec. mstep.
  rewrite (send_responded E _ resp (log Refresh w) Hresp).
  rewrite (passes_raise_for_status _ _ _ Hpass), Hbody. mstep.
  unfold utcnow. mstep. rewrite (expires_in_run body us _ Hus). mstep.
  cbn [ticks tick log]. rewrite Hadd. unfold refreshed_record, issued_record.
  destruct (<["expires_at" := VStr (datetime.isoformat expiry)]> body
              !! "refresh_token"); reflexivity.
Qed.

Lemma refreshed_record_access body rt expiry a :
  body !! "access_token" = Some a ->
  refreshed_record body rt expiry !! "access_token" = Some a.
Proof.
  intros Ha. unfold refreshed_record, issued_record.
  destruct (<["expires_at" := VStr (datetime.isoformat expiry)]> body
              !! "refresh_token");
    rewrite ?lookup_insert_ne by discriminate; exact Ha.
Qed.

Lemma refreshed_record_expiry body rt expiry :
  refreshed_record body rt expiry !! "expires_at"
  = Some (VStr (datetime.isoformat expiry)).
Proof.
  unfold refreshed_record, issued_record.
  destruct (<["expires_at" := VStr (datetime.isoformat expiry)]> body
              !! "refresh_token");
    rewrite ?(lookup_insert_ne _ "refresh_token") by discriminate;
    apply lookup_insert_eq.
Qed.

(** X4. A read that finds the stored token within five minutes of its
    expiry, with a refresh token stored and a provider that answers the
    refresh, sends the one refresh request, returns the access token of
    the answer and stores it; the read after that returns the same token
    without sending anything, as long as its clock reading plus five
    minutes lies before the clock reading of the refresh plus the
    announced lifetime. *)
Theorem refresh_then_read (w : world) (d : gmap string value)
    (a0 rt a : value) (expiry0 margin0 : datetime.t) (resp : response)
    (body : gmap string value) (us : Z) (expiry margin : datetime.t) :
  token_file w = Some (Json (VDict d)) ->
  d !! "access_token" = Some a0 -> truthy a0 = true ->
  d !! "expires_at" = Some (VStr (datetime.isoformat expiry0)) ->
  datetime.valid expiry0 = true ->
  datetime.add (utcnow_at E (ticks w)) MARGIN_US = Some margin0 ->
  instant expiry0 <= instant (utcnow_at E (ticks w)) + MARGIN_US ->
  d !! "refresh_token" = Some rt -> truthy rt = true ->
  truthy_ostr (whoop_client_id (get_settings E)) = true ->
  truthy_ostr (whoop_client_secret (get_settings E)) = true ->
  http_at E (S (ticks w)) (Whoop.refresh_request E rt) = Responded resp ->
  passes resp = true -> json_body resp = Some (VDict body) ->
  body !! "access_token" = Some a -> truthy a = true ->
  expires_in_us body = Some us ->
  datetime.add (utcnow_at E (S (S (ticks w)))) us = Some expiry ->
  datetime.add (utcnow_at E (S (S (S (ticks w))))) MARGIN_US = Some margin ->
  exists w1,
    Whoop._get_valid_token E w = (Ok a, w1)
    /\ requests_sent (trace w1)
       = (requests_sent (trace w) ++ [Whoop.refresh_request E rt])%list
    /\ token_file w1 = Some (Json (VDict (refreshed_record body rt expiry)))
    /\ (instant (utcnow_at E (S (S (S (ticks w))))) + MARGIN_US
        < instant (utcnow_at E (S (S (ticks w)))) + us ->
        Whoop._get_valid_token E w1 = (Ok a, tick w1)).
Proof.
  intros Hf Ha0 Hta0 He0 Hv0 Hm0 Hstale Hrt Htrt Hid Hsec Hresp Hpass Hbody
    Ha Hta Hus Hadd Hm.
  assert (Hexp := expiry_check_instant w d a0 expiry0 margin0
                    Ha0 Hta0 He0 Hv0 Hm0).
  replace (instant expiry0 <=? instant (utcnow_at E (ticks w)) + MARGIN_US)
    with true in Hexp by (symmetry; apply Z.leb_le; exact Hstale).
  assert (Hrun := refresh_token_run (tick w) d rt resp body us expiry
                    Hf Hrt Htrt Hid Hsec Hresp Hpass Hbody Hus Hadd).
  eexists. split; [|split; [|split]].
  - unfold Whoop._get_valid_token. mstep.
    rewrite Hf, (truthy_dict_lookup d _ _ Ha0). mstep. rewrite Hexp. mstep.
    rewrite Hrun. mstep.
    rewrite (truthy_dict_lookup _ _ _ (refreshed_record_access body rt expiry a Ha)).
    mstep. rewrite (refreshed_record_access body rt expiry a Ha). reflexivity.
  - cbn [trace set_token_file tick log].
    rewrite !requests_sent_app. cbn [requests_sent omap].
    rewrite app_nil_r. reflexivity.
  - reflexivity.
  - intros Hfresh.
    destruct (add_instant _ _ _ Hadd) as [Hi Hv].
    match goal with
    | |- Whoop._get_valid_token E ?w1 = _ =>
        destruct (read_on_time_line w1 (refreshed_record body rt expiry)
                    a expiry margin) as [Hread _]
    end.
    + reflexivity.
    + exact (refreshed_record_access body rt expiry a Ha).
    + exact Hta.
    + exact (refreshed_record_expiry body rt expiry).
    + exact Hv.
    + exact Hm.
    + apply Hread. cbn [ticks set_token_file tick log]. rewrite Hi.
      exact Hfresh.
Qed.

(** X5. The status check looks at the clock as a read does.  For a stored
    record with an access token and an expiry written by this module: while
    the clock reading plus five minutes lies before the expiry, the account
    is reported connected and nothing is sent, so the provider is not asked
    whether the token still holds; from then on the check makes one refresh
    attempt and reports the account connected exactly when the refresh
    returned a record. *)
Theorem whoop_status_on_time_line (w : world) (d : gmap string value)
    (a : value) (expiry margin : datetime.t) :
  token_file w = Some (Json (VDict d)) ->
  d !! "access_token" = Some a -> truthy a = true ->
  d !! "expires_at" = Some (VStr (datetime.isoformat expiry)) ->
  datetime.valid expiry = true ->
  datetime.add (utcnow_at E (ticks w)) MARGIN_US = Some margin ->
  (instant (utcnow_at E (ticks w)) + MARGIN_US < instant expiry ->
     Whoop.get_whoop_status E w
     = (Ok (JSONResponse {["connected" := VBool true]} HTTP_200_OK), tick w))
  /\ (instant expiry <= instant (utcnow_at E (ticks w)) + MARGIN_US ->
      exists v w',
        Whoop._refresh_token E (tick w) = (Ok v, w')
        /\ Whoop.get_whoop_status E w
           = (Ok (JSONResponse {["connected" := VBool (truthy v)]} HTTP_200_OK),
              w')
        /\ refresh_attempts (trace w') = S (refresh_attempts (trace w))).
Proof.
  intros Hf Ha Hta He Hv Hm.
  assert (Hexp := expiry_check_instant w d a expiry margin Ha Hta He Hv Hm).
  split; intros Hcmp.
  - unfold Whoop.get_whoop_status. mstep.
    rewrite Hf, (truthy_dict_lookup d _ _ Ha). mstep. rewrite Ha, Hta. mstep.
    rewrite Hexp.
    replace (instant expiry <=? instant (utcnow_at E (ticks w)) + MARGIN_US)
      with false by (symmetry; apply Z.leb_gt; lia).
    reflexivity.
  - destruct (refresh_token_total E (tick w))
      as (v & w' & Hr & _ & tl & Htl & Hn & _).
    { unfold record_shape. cbn [token_file tick]. rewrite Hf. reflexivity. }
    exists v, w'. split; [exact Hr|]. split.
    + unfold Whoop.get_whoop_status. mstep.
      rewrite Hf, (truthy_dict_lookup d _ _ Ha). mstep. rewrite Ha, Hta. mstep.
      rewrite Hexp.
      replace (instant expiry <=? instant (utcnow_at E (ticks w)) + MARGIN_US)
        with true by (symmetry; apply Z.leb_le; lia).
      mstep. rewrite Hr. mstep. destruct (truthy v); reflexivity.
    + rewrite Htl. cbn [trace tick]. rewrite refresh_attempts_app.
      change (refresh_attempts (Refresh :: tl)) with (S (refresh_attempts tl)).
      rewrite Hn. lia.
Qed.

End TokenLifetime.

(** Connected at noon for an hour, read at noon: the new token, as stored. *)
Lemma connect_then_read_witness :
  let E := Sample.env_answering Sample.settings
             (Sample.ok_response (VDict (Sample.token_body "new"))) in
  let w := Sample.world_with_state "Zm9vYmFyYmF6cXV4" in
  exists w1,
    Whoop.connect_whoop E "code" "Zm9vYmFyYmF6cXV4" w = (Ok CONNECTED, w1)
    /\ Whoop._get_valid_token E w1 = (Ok (VStr "new"), tick w1).
Proof.
  intros E w.
  destruct (connect_then_read E "code" "Zm9vYmFyYmF6cXV4" "Zm9vYmFyYmF6cXV4"
              w (Sample.ok_response (VDict (Sample.token_body "new")))
              (Sample.token_body "new") (VStr "new") 3600000000
              (datetime.mk 2024 1 5 13 0 0 0) (datetime.mk 2024 1 5 12 5 0 0))
    as (w1 & Hrun & Hfresh & _); try (vm_compute; reflexivity).
  exists w1. split; [exact Hrun|]. apply Hfresh. vm_compute. reflexivity.
Defined.

(** A token three minutes from its expiry is refreshed, and the new one is
    then read as stored. *)
Lemma refresh_then_read_witness :
  let E := Sample.env_answering Sample.settings
             (Sample.ok_response (VDict (Sample.token_body "new"))) in
  let w := Sample.world_with_token
             (Sample.record "old" "r1" "2024-01-05T12:03:00") in
  exists w1,
    Whoop._get_valid_token E w = (Ok (VStr "new"), w1)
    /\ Whoop._get_valid_token E w1 = (Ok (VStr "new"), tick w1).
Proof.
  intros E w.
  pose proof (refresh_then_read E w
                (Sample.record "old" "r1" "2024-01-05T12:03:00")
                (VStr "old") (VStr "r1") (VStr "new")
                (datetime.mk 2024 1 5 12 3 0 0) (datetime.mk 2024 1 5 12 5 0 0)
                (Sample.ok_response (VDict (Sample.token_body "new")))
                (Sample.token_body "new") 3600000000
                (datetime.mk 2024 1 5 13 0 0 0) (datetime.mk 2024 1 5 12 5 0 0))
    as H.
  repeat match type of H with
         | ?A -> _ =>
             let a := fresh in
             assert (a : A)
               by first [vm_compute; reflexivity | vm_compute; discriminate];
             specialize (H a); clear a
         end.
  destruct H as (w1 & Hrun & _ & _ & Hfresh).
  exists w1. split; [exact Hrun|]. apply Hfresh. vm_compute. reflexivity.
Defined.

(** A token with an hour to go: connected, and the provider is not asked. *)
Lemma whoop_status_on_time_line_witness :
  let E := Sample.env_unreachable Sample.settings in
  let w := Sample.world_with_token
             (Sample.record "old" "r1" "2024-01-05T13:00:00") in
  Whoop.get_whoop_status E w
  = (Ok (JSONResponse {["connected" := VBool true]} HTTP_200_OK), tick w).
Proof.
  intros E w.
  apply (whoop_status_on_time_line E w
           (Sample.record "old" "r1" "2024-01-05T13:00:00") (VStr "old")
           (datetime.mk 2024 1 5 13 0 0 0) (datetime.mk 2024 1 5 12 5 0 0));
    vm_compute; reflexivity.
Defined.

(** ** Whoop: requests, disconnecting, and the tools *)
Section WhoopRequests.
Context (E : env).

(** A handler that only returns makes the whole block return. *)
Lemma try_except_total {A : Type} (c : M A) (f : exn -> A) (w : world) :
  exists a w', try_except c (fun e => ret (f e)) w = (Ok a, w').
Proof. unfold try_except, ret. destruct (c w) as [[a|e] w']; eauto. Qed.

Lemma is_token_expired_type_error w d a x :
  d !! "access_token" = Some a -> truthy a = true ->
  d !! "expires_at" = Some x -> truthy x = true ->
  (forall s, x <> VStr s) ->
  Whoop._is_token_expired E (VDict d) w
  = (Raise (PyError "TypeError" "fromisoformat: argument must be str"), w).
Proof.
  intros Ha Hta Hx Htx Hns. unfold Whoop._is_token_expired. mstep.
  rewrite Ha, Hta. mstep. rewrite Hx, Htx. mstep.
  unfold datetime_fromisoformat.
  destruct x; try reflexivity. destruct (Hns s). reflexivity.
Qed.

(** X6. A stored record whose [expires_at] is present but not a string
    is never repaired: reading the token, every data request and the
    status check raise the [TypeError] of [fromisoformat], send nothing
    and leave the record where it is, so that the same happens at the
    next call. *)
Theorem expiry_not_a_string (w : world) (d : gmap string value)
    (a x : value) :
  token_file w = Some (Json (VDict d)) ->
  d !! "access_token" = Some a -> truthy a = true ->
  d !! "expires_at" = Some x -> truthy x = true ->
  (forall s, x <> VStr s) ->
  Whoop._get_valid_token E w
  = (Raise (PyError "TypeError" "fromisoformat: argument must be str"), w)
  /\ (forall ep ps,
        Whoop._make_whoop_request E ep ps w
        = (Raise (PyError "TypeError" "fromisoformat: argument must be str"),
           w))
  /\ Whoop.get_whoop_status E w
     = (Raise (PyError "TypeError" "fromisoformat: argument must be str"), w).
Proof.
  intros Hf Ha Hta Hx Htx Hns.
  assert (Hexp := is_token_expired_type_error w d a x Ha Hta Hx Htx Hns).
  assert (Hread :
    Whoop._get_valid_token E w
    = (Raise (PyError "TypeError" "fromisoformat: argument must be str"), w)).
  { unfold Whoop._get_valid_token. mstep.
    rewrite Hf, (truthy_dict_lookup d _ _ Ha). mstep. rewrite Hexp.
    reflexivity. }
  split; [exact Hread|]. split.
  - intros ep ps. unfold Whoop._make_whoop_request.
    unfold bind at 1. rewrite Hread. reflexivity.
  - unfold Whoop.get_whoop_status. mstep.
    rewrite Hf, (truthy_dict_lookup d _ _ Ha). mstep. rewrite Ha, Hta. mstep.
    rewrite Hexp. reflexivity.
Qed.

(** X7. A data request that has a token sends exactly one [GET].  It
    returns a value exactly when the response passes [raise_for_status]
    and has a JSON body, and the value is that body; in every other case
    it raises an [HTTPException] and nothing else.  It drops the stored
    record only when the provider answers 401: a network failure, a body
    that is not JSON and every other error status leave the record as the
    token read left it. *)
Theorem make_whoop_request_outcomes (ep : string) (ps : gmap string value)
    (w : world) (tok : value) (w1 : world) :
  Whoop._get_valid_token E w = (Ok tok, w1) -> truthy tok = true ->
  exists r w',
    Whoop._make_whoop_request E ep ps w = (r, w')
    /\ trace w' = (trace w1 ++ [Http (Whoop.data_request E ep tok ps)])%list
    /\ (forall v,
          r = Ok v
          <-> exists resp,
                http_at E (ticks w1) (Whoop.data_request E ep tok ps)
                = Responded resp
                /\ passes resp = true /\ json_body resp = Some v)
    /\ ((exists v, r = Ok v) \/ (exists status detail,
                                   r = Raise (HTTPException status detail)))
    /\ (token_file w' = token_file w1
        \/ (token_file w' = None /\ r = Raise AUTH_EXPIRED
            /\ exists resp,
                 http_at E (ticks w1) (Whoop.data_request E ep tok ps)
                 = Responded resp
                 /\ status_code resp = 401)).
Proof.
  intros Hread Htok. unfold Whoop._make_whoop_request.
  unfold bind at 1. rewrite Hread, Htok. unfold AUTH_EXPIRED.
  mred. simpl.
  destruct (http_at E (ticks w1) (Whoop.data_request E ep tok ps))
    as [resp|cls msg] eqn:Hhttp; simpl.
  2: { eexists _, _. split; [reflexivity|]. simpl.
       split; [reflexivity|]. split.
       { intros v. split; [discriminate|]. intros (resp & Hr & _).
         discriminate Hr. }
       split; [right; eauto|left; reflexivity]. }
  assert (Hraise : forall (e : exn) v,
            passes resp = false ->
            (@Raise value e = Ok v
             <-> exists resp0,
                   Responded resp = Responded resp0
                   /\ passes resp0 = true /\ json_body resp0 = Some v)).
  { intros e v Hp. split; [discriminate|].
    intros (resp0 & [= <-] & Hp0 & _). congruence. }
  destruct ((400 <=? status_code resp) && (status_code resp <? 500)) eqn:H4;
    simpl.
  { assert (Hp : passes resp = false) by (unfold passes; rewrite H4; reflexivity).
    destruct (status_code resp =? 401) eqn:H401; simpl.
    - apply Z.eqb_eq in H401.
      destruct (token_file w1) eqn:Hf; simpl.
      all: eexists _, _; (split; [reflexivity|]); simpl;
        (split; [reflexivity|]);
        (split; [intros v; apply Hraise; exact Hp|]);
        (split; [right; eauto|]); right;
        (split; [first [reflexivity | assumption]|]);
        (split; [reflexivity|]); eauto.
    - eexists _, _. split; [reflexivity|]. simpl.
      split; [reflexivity|]. split; [intros v; apply Hraise; exact Hp|].
      split; [right; eauto|left; reflexivity]. }
  destruct ((500 <=? status_code resp) && (status_code resp <? 600)) eqn:H5;
    simpl.
  { assert (Hp : passes resp = false)
      by (unfold passes; rewrite H5; apply andb_false_r).
    assert (H401 : (status_code resp =? 401) = false).
    { apply Z.eqb_neq. intros Heq. rewrite Heq in H5. discriminate H5. }
    rewrite H401. simpl.
    eexists _, _. split; [reflexivity|]. simpl.
    split; [reflexivity|]. split; [intros v; apply Hraise; exact Hp|].
    split; [right; eauto|left; reflexivity]. }
  assert (Hp : passes resp = true) by (unfold passes; rewrite H4, H5; reflexivity).
  destruct (json_body resp) as [v0|] eqn:Hbody; simpl.
  - eexists _, _. split; [reflexivity|]. simpl.
    split; [reflexivity|]. split.
    { intros v. split.
      - intros [= <-]. exists resp. auto.
      - intros (resp0 & [= <-] & _ & Hb). congruence. }
    split; [left; eauto|left; reflexivity].
  - eexists _, _. split; [reflexivity|]. simpl.
    split; [reflexivity|]. split.
    { intros v. split; [discriminate|].
      intros (resp0 & [= <-] & _ & Hb). congruence. }
    split; [right; eauto|left; reflexivity].
Qed.

(** The world after the stored record was deleted. *)
Lemma clear_token_run w :
  Whoop._clear_token w
  = (Ok tt, match token_file w with
            | Some _ => set_token_file None w
            | None => w
            end).
Proof. unfold Whoop._clear_token. mstep. destruct (token_file w); reflexivity. Qed.

(** X8. Disconnecting always answers 200, deletes the stored record and
    touches nothing else; done twice it changes nothing the second time.
    Afterwards every data request is refused as not connected and the
    status check reports not connected, both without sending anything. *)
Theorem disconnect_whoop_then (w : world) :
  exists content w',
    Whoop.disconnect_whoop w = (Ok (JSONResponse content HTTP_200_OK), w')
    /\ token_file w' = None
    /\ state_file w' = state_file w /\ api_key_file w' = api_key_file w
    /\ config_file w' = config_file w /\ trace w' = trace w
    /\ Whoop.disconnect_whoop w' = (Ok (JSONResponse content HTTP_200_OK), w')
    /\ (forall ep ps,
          Whoop._make_whoop_request E ep ps w' = (Raise NOT_CONNECTED, w'))
    /\ Whoop.get_whoop_status E w'
       = (Ok (JSONResponse {["connected" := VBool false]} HTTP_200_OK), w').
Proof.
  unfold Whoop.disconnect_whoop.
  unfold bind at 1. rewrite clear_token_run.
  set (w' := match token_file w with
             | Some _ => set_token_file None w
             | None => w
             end).
  assert (Hnone : token_file w' = None).
  { unfold w'. destruct (token_file w) eqn:Hf; [reflexivity|exact Hf]. }
  eexists _, w'. split; [reflexivity|]. split; [exact Hnone|].
  repeat split.
  1-4: unfold w'; destruct (token_file w); reflexivity.
  - unfold bind at 1. rewrite clear_token_run, Hnone. reflexivity.
  - intros ep ps.
    apply (make_request_without_token E w' VNone w' ep ps);
      [apply get_valid_token_absent; exact Hnone | reflexivity].
  - unfold Whoop.get_whoop_status. mstep. rewrite Hnone. reflexivity.
Qed.

(** Every data-fetch function is one request to its endpoint. *)
Lemma fetch_is_request op s e :
  exists ps, fetch E op s e = Whoop._make_whoop_request E (endpoint op) ps.
Proof.
  destruct op; unfold fetch, endpoint, Whoop.get_recovery_data,
    Whoop.get_sleep_data, Whoop.get_strain_data, Whoop.get_workout_data,
    Whoop.get_cycles_data; eexists; reflexivity.
Qed.

(** Resolving the dates reads the clock at most; files and trace stay. *)
Lemma resolve_dates_frame sd ed w r w0 :
  WhoopTools.resolve_dates E sd ed w = (r, w0) ->
  token_file w0 = token_file w /\ trace w0 = trace w.
Proof.
  unfold WhoopTools.resolve_dates, WhoopTools._get_default_date_range.
  destruct (negb (truthy_ostr sd) || negb (truthy_ostr ed)).
  - unfold utcnow. mstep.
    destruct (datetime.timedelta 7 0 0); mstep.
    + destruct (datetime.add _ _); mstep; intros [= <- <-]; auto.
    + intros [= <- <-]; auto.
  - intros [= <- <-]; auto.
Qed.

(** X9. The Whoop tool adapters never raise: whatever the dates, the
    stored record and the provider, the outcome is a text.  With no record
    stored and the dates resolved, that text is the adapter's error prefix
    followed by the 401 of the client, and nothing was sent. *)
Theorem whoop_tools_never_raise (op : whoop_op) (sd ed : option string)
    (w : world) :
  (exists text w', adapter E op sd ed w = (Ok text, w'))
  /\ (token_file w = None ->
      forall s e w0,
        WhoopTools.resolve_dates E sd ed w = (Ok (s, e), w0) ->
        adapter E op sd ed w
        = (Ok (error_prefix op
               +:+ "401: Whoop not connected. Please connect your Whoop account first."),
           w0)
        /\ trace w0 = trace w).
Proof.
  split.
  - destruct op; unfold adapter, WhoopTools._whoop_get_recovery,
      WhoopTools._whoop_get_sleep, WhoopTools._whoop_get_strain,
      WhoopTools._whoop_get_workouts, WhoopTools._whoop_get_cycles;
      apply try_except_total.
  - intros Hnone s e w0 Hdates.
    destruct (resolve_dates_frame sd ed w _ w0 Hdates) as [Hf Htr].
    rewrite (tool_after_dates E op sd ed w s e w0 Hdates).
    destruct (fetch_is_request op s e) as [ps ->].
    rewrite (make_request_without_token E w0 VNone w0 (endpoint op) ps).
    + split; [|exact Htr]. destruct op; reflexivity.
    + apply get_valid_token_absent. rewrite Hf. exact Hnone.
    + reflexivity.
Qed.

(** X10. The round trip of the OAuth state.  With client id and secret
    configured, the state that [/whoop/connect] issues is accepted by the
    callback that presents it: the exchange request is sent and, when the
    provider answers it, the record is stored and the state is gone, so
    that presenting the same state again is refused. *)
Theorem issue_then_callback (code : string) (w : world) (resp : response)
    (body : gmap string value) (us : Z) (expiry : datetime.t) :
  truthy_ostr (whoop_client_id (get_settings E)) = true ->
  truthy_ostr (whoop_client_secret (get_settings E)) = true ->
  is_urlsafe (token_urlsafe_at E (ticks w)) = true ->
  http_at E (S (ticks w)) (Whoop.exchange_request E code) = Responded resp ->
  passes resp = true -> json_body resp = Some (VDict body) ->
  expires_in_us body = Some us ->
  datetime.add (utcnow_at E (S (S (ticks w)))) us = Some expiry ->
  exists redirect w1 w2,
    WhoopRoutes.whoop_connect E w = (Ok redirect, w1)
    /\ WhoopRoutes.whoop_callback E code (token_urlsafe_at E (ticks w)) w1
       = (Ok CONNECTED, w2)
    /\ token_file w2 = Some (Json (VDict (issued_record body expiry)))
    /\ requests_sent (trace w2)
       = (requests_sent (trace w) ++ [Whoop.exchange_request E code])%list
    /\ state_file w2 = None
    /\ WhoopRoutes.whoop_callback E code (token_urlsafe_at E (ticks w)) w2
       = (Ok CSRF_ERROR, w2).
Proof.
  intros Hid Hsec Hsafe Hresp Hpass Hbody Hus Hadd.
  destruct (whoop_connect_issues E w Hid) as [redirect Hissue].
  eexists redirect, _, _. split; [exact Hissue|].
  unfold WhoopRoutes.whoop_callback. split.
  - apply (connect_whoop_run E code _ (token_urlsafe_at E (ticks w)) _
             resp body us expiry);
      [reflexivity | apply strip_read_urlsafe; exact Hsafe
      | exact Hid | exact Hsec | exact Hresp | exact Hpass | exact Hbody
      | exact Hus | exact Hadd].
  - split; [reflexivity|]. split.
    { cbn [trace set_token_file tick log set_state_file].
      rewrite requests_sent_app. reflexivity. }
    split; [reflexivity|].
    apply connect_whoop_no_state. reflexivity.
Qed.

End WhoopRequests.

(** A record whose expiry is a number of seconds. *)
Lemma expiry_not_a_string_witness :
  let E := Sample.env_answering Sample.settings Sample.unauthorized in
  let d : gmap string value :=
    <["access_token" := VStr "old"]> (<["expires_at" := VNum 1704459600]> ∅) in
  Whoop.get_whoop_status E (Sample.world_with_token d)
  = (Raise (PyError "TypeError" "fromisoformat: argument must be str"),
     Sample.world_with_token d).
Proof.
  intros E d.
  apply (expiry_not_a_string E (Sample.world_with_token d) d (VStr "old")
           (VNum 1704459600));
    first [vm_compute; reflexivity | discriminate].
Defined.

(** A server error of the provider: surfaced, and the record is kept. *)
Lemma make_whoop_request_outcomes_witness :
  let E := Sample.env_answering Sample.settings
             (mk_response 503 "Service Unavailable" "down" None) in
  let w := Sample.world_with_token
             (Sample.record "old" "r1" "2024-01-05T13:00:00") in
  exists r w',
    Whoop._make_whoop_request E "recovery" ∅ w = (r, w')
    /\ token_file w' = token_file w.
Proof.
  intros E w.
  destruct (make_whoop_request_outcomes E "recovery" ∅ w (VStr "old") (tick w))
    as (r & w' & Hrun & _ & _ & _ & [Hkeep | (_ & _ & resp & Hresp & H401)]).
  - vm_compute. reflexivity.
  - reflexivity.
  - exists r, w'. split; [exact Hrun | exact Hkeep].
  - exfalso. injection Hresp as <-. discriminate H401.
Defined.

(** The state issued, the callback made, the token stored. *)
Lemma issue_then_callback_witness :
  let E := Sample.env_answering Sample.settings
             (Sample.ok_response (VDict (Sample.token_body "new"))) in
  exists redirect w1 w2,
    WhoopRoutes.whoop_connect E Sample.empty_world = (Ok redirect, w1)
    /\ WhoopRoutes.whoop_callback E "code" "Zm9vYmFyYmF6cXV4" w1
       = (Ok CONNECTED, w2)
    /\ token_file w2
       = Some (Json (VDict (issued_record (Sample.token_body "new")
                              (datetime.mk 2024 1 5 13 0 0 0)))).
Proof.
  intros E.
  pose proof (issue_then_callback E "code" Sample.empty_world
                (Sample.ok_response (VDict (Sample.token_body "new")))
                (Sample.token_body "new") 3600000000
                (datetime.mk 2024 1 5 13 0 0 0)) as H.
  repeat match type of H with
         | ?A -> _ =>
             let a := fresh in
             assert (a : A) by (vm_compute; reflexivity);
             specialize (H a); clear a
         end.
  destruct H as (redirect & w1 & w2 & H1 & H2 & H3 & _).
  exists redirect, w1, w2. split; [exact H1|]. split; [exact H2 | exact H3].
Defined.

(** Nothing stored: the tool answers with the refusal of the client. *)
Lemma whoop_tools_never_raise_witness :
  let E := Sample.env_answering Sample.settings Sample.unauthorized in
  adapter E Recovery (Some "2024-01-01") (Some "2024-01-02") Sample.empty_world
  = (Ok "Error fetching recovery data: 401: Whoop not connected. Please connect your Whoop account first.",
     Sample.empty_world).
Proof.
  intros E.
  destruct (whoop_tools_never_raise E Recovery (Some "2024-01-01")
              (Some "2024-01-02") Sample.empty_world) as [_ H].
  assert (Hd : WhoopTools.resolve_dates E (Some "2024-01-01")
                 (Some "2024-01-02") Sample.empty_world
               = (Ok (Some "2024-01-01", Some "2024-01-02"),
                  Sample.empty_world)) by (vm_compute; reflexivity).
  exact (proj1 (H eq_refl _ _ _ Hd)).
Defined.

(** ** Hevy: the key and the requests *)
Section HevyMore.
Context (E : env).

Lemma truthy_str (s : string) : s <> "" -> truthy (VStr s) = true.
Proof. destruct s; [congruence|reflexivity]. Qed.

Lemma truthy_str_inv (s : string) : truthy (VStr s) = true -> s <> "".
Proof. destruct s; [discriminate|discriminate]. Qed.

Lemma stored_key_file (k : string) (w : world) :
  api_key_file w = Some (key_file k) -> stored_api_key w = VStr k.
Proof.
  intros H. unfold stored_api_key, key_file in *. rewrite H.
  rewrite lookup_singleton_eq. reflexivity.
Qed.

(** X11. Saving a Hevy key.  A key that is empty or only white space is
    refused with 400 and nothing is sent.  Any other key is trimmed and
    probed with exactly one request; when the probe passes, the trimmed
    key is stored and is the key that every later request resolves; when
    the probe fails in any way, the answer is an error with status 400 or
    500 and the key file is left as it was. *)
Theorem save_hevy_api_key_outcomes (api_key : string) (w : world) :
  (strip api_key = "" ->
     Hevy.save_hevy_api_key E api_key w
     = (Ok (error_response "API key cannot be empty" HTTP_400_BAD_REQUEST), w))
  /\ (strip api_key <> "" ->
      forall resp,
        http_at E (ticks w) (Hevy.probe_request (VStr (strip api_key)))
        = Responded resp ->
        passes resp = true ->
        exists w',
          Hevy.save_hevy_api_key E api_key w = (Ok KEY_SAVED, w')
          /\ api_key_file w' = Some (key_file (strip api_key))
          /\ Hevy._get_api_key E w' = (Ok (VStr (strip api_key)), w')
          /\ trace w'
             = (trace w
                ++ [Http (Hevy.probe_request (VStr (strip api_key)))])%list)
  /\ (strip api_key <> "" ->
      (forall resp,
         http_at E (ticks w) (Hevy.probe_request (VStr (strip api_key)))
         = Responded resp ->
         passes resp = false) ->
      exists message status w',
        Hevy.save_hevy_api_key E api_key w
        = (Ok (error_response message status), w')
        /\ (status = 400 \/ status = 500)
        /\ api_key_file w' = api_key_file w
        /\ trace w'
           = (trace w
              ++ [Http (Hevy.probe_request (VStr (strip api_key)))])%list).
Proof.
  assert (Hnonblank : strip api_key <> "" ->
            negb (truthy (VStr api_key))
            || negb (truthy (VStr (strip api_key))) = false).
  { intros Hs. rewrite (truthy_str _ Hs).
    rewrite truthy_str; [reflexivity|]. intros ->. apply Hs. reflexivity. }
  split; [|split].
  - intros Hblank. unfold Hevy.save_hevy_api_key. rewrite Hblank.
    change (truthy (VStr "")) with false. change (negb false) with true.
    rewrite orb_true_r. reflexivity.
  - intros Hs resp Hresp Hpass.
    unfold Hevy.save_hevy_api_key. rewrite (Hnonblank Hs).
    unfold Hevy._save_api_key_to_file. mstep.
    rewrite (send_responded E _ resp w Hresp).
    rewrite (passes_raise_for_status _ _ _ Hpass).
    eexists. split; [reflexivity|]. split; [reflexivity|]. split.
    + rewrite get_api_key_run. unfold active_api_key.
      rewrite (stored_key_file (strip api_key)) by reflexivity.
      rewrite (truthy_str _ Hs). reflexivity.
    + reflexivity.
  - intros Hs Hfail.
    unfold Hevy.save_hevy_api_key. rewrite (Hnonblank Hs). mstep.
    unfold send.
    destruct (http_at E (ticks w) (Hevy.probe_request (VStr (strip api_key))))
      as [resp|cls msg] eqn:Hhttp.
    + specialize (Hfail resp eq_refl). unfold passes in Hfail.
      unfold raise_for_status.
      destruct ((400 <=? status_code resp) && (status_code resp <? 500)).
      { eexists _, _, _. split; [reflexivity|]. auto. }
      destruct ((500 <=? status_code resp) && (status_code resp <? 600)).
      { eexists _, _, _. split; [reflexivity|]. auto. }
      discriminate Hfail.
    + eexists _, _, _. split; [reflexivity|]. auto.
Qed.

Lemma clear_api_key_run w :
  Hevy._clear_api_key_file w
  = (Ok tt, match api_key_file w with
            | Some _ => set_api_key_file None w
            | None => w
            end).
Proof.
  unfold Hevy._clear_api_key_file. mstep. destruct (api_key_file w); reflexivity.
Qed.

Lemma hevy_request_not_connected w ep meth ps jd :
  truthy (active_api_key E w) = false ->
  Hevy._make_hevy_request E ep meth ps jd w = (Raise HEVY_NOT_CONNECTED, w).
Proof.
  intros Hk. unfold Hevy._make_hevy_request.
  unfold bind at 1. rewrite get_api_key_run, Hk. reflexivity.
Qed.

Lemma eq_ostr_refl (o : option string) : eq_ostr (of_ostr o) o = true.
Proof. destruct o; [apply String.eqb_refl|reflexivity]. Qed.

(** X12. Disconnecting Hevy always answers 200, deletes the key file and
    touches nothing else; done twice it changes nothing the second time.
    Afterwards the key of the environment is the active one: when there is
    none, every data request is refused as not connected and the status is
    not connected, both without sending anything; when there is one, the
    status still reports the account connected, from the environment. *)
Theorem clear_hevy_api_key_then (w : world) :
  exists content w',
    Hevy.clear_hevy_api_key w = (Ok (JSONResponse content HTTP_200_OK), w')
    /\ api_key_file w' = None
    /\ token_file w' = token_file w /\ state_file w' = state_file w
    /\ config_file w' = config_file w /\ trace w' = trace w
    /\ Hevy.clear_hevy_api_key w' = (Ok (JSONResponse content HTTP_200_OK), w')
    /\ Hevy._get_api_key E w'
       = (Ok (of_ostr (hevy_api_key (get_settings E))), w')
    /\ (truthy_ostr (hevy_api_key (get_settings E)) = false ->
        (forall ep meth ps jd,
           Hevy._make_hevy_request E ep meth ps jd w'
           = (Raise HEVY_NOT_CONNECTED, w'))
        /\ Hevy.get_hevy_status E w'
           = (Ok (JSONResponse {["connected" := VBool false]} HTTP_200_OK), w'))
    /\ (truthy_ostr (hevy_api_key (get_settings E)) = true ->
        Hevy.get_hevy_status E w'
        = (Ok (JSONResponse
                 (<["connected" := VBool true]>
                    (<["source" := VStr "environment"]> ∅)) HTTP_200_OK), w')).
Proof.
  unfold Hevy.clear_hevy_api_key.
  unfold bind at 1. rewrite clear_api_key_run.
  set (w' := match api_key_file w with
             | Some _ => set_api_key_file None w
             | None => w
             end).
  assert (Hnone : api_key_file w' = None).
  { unfold w'. destruct (api_key_file w) eqn:Hf; [reflexivity|exact Hf]. }
  assert (Hkey : active_api_key E w' = of_ostr (hevy_api_key (get_settings E))).
  { unfold active_api_key, stored_api_key. rewrite Hnone. reflexivity. }
  eexists _, w'. split; [reflexivity|]. split; [exact Hnone|].
  repeat split.
  1-4: unfold w'; destruct (api_key_file w); reflexivity.
  - unfold bind at 1. rewrite clear_api_key_run, Hnone. reflexivity.
  - rewrite get_api_key_run, Hkey. reflexivity.
  - intros ep meth ps jd. apply hevy_request_not_connected.
    rewrite Hkey. exact H.
  - assert (Hrun := hevy_status_run E w'). rewrite Hkey in Hrun.
    unfold truthy_ostr in H. rewrite H in Hrun. exact Hrun.
  - intros Henv. assert (Hrun := hevy_status_run E w').
    unfold equals_environment in Hrun. rewrite Hkey in Hrun.
    rewrite eq_ostr_refl, Henv in Hrun. unfold truthy_ostr in Henv.
    rewrite Henv in Hrun. exact Hrun.
Qed.

(** X13. A Hevy data request never writes a file and raises nothing but
    an [HTTPException].  It sends at most one request: to the endpoint
    asked for, with the method asked for, carrying the active key in the
    [api-key] header and no timeout. *)
Theorem make_hevy_request_frame (ep meth : string)
    (ps : option (gmap string value)) (jd : option value) (w : world)
    (r : result value) (w' : world) :
  Hevy._make_hevy_request E ep meth ps jd w = (r, w') ->
  (api_key_file w' = api_key_file w /\ token_file w' = token_file w
   /\ state_file w' = state_file w /\ config_file w' = config_file w)
  /\ ((exists v, r = Ok v)
      \/ (exists status detail, r = Raise (HTTPException status detail)))
  /\ (trace w' = trace w
      \/ exists req,
           trace w' = (trace w ++ [Http req])%list
           /\ method req = meth /\ url req = Hevy.API_BASE +:+ ep
           /\ headers req !! "api-key" = Some (active_api_key E w)
           /\ timeout req = None).
Proof.
  unfold Hevy._make_hevy_request.
  unfold bind at 1. rewrite get_api_key_run.
  destruct (truthy (active_api_key E w)).
  2: { intros [= <- <-]. repeat split; eauto. }
  cbn [negb].
  match goal with
  | |- context [send E (mk_request "GET" _ ?h _ _ _ _)] => set (hdrs := h)
  end.
  assert (Hh : hdrs !! "api-key" = Some (active_api_key E w)).
  { unfold hdrs.
    destruct (truthy match jd with Some v => v | None => VNone end);
      rewrite ?(lookup_insert_ne _ "Content-Type") by discriminate;
      apply lookup_insert_eq. }
  clearbody hdrs.
  unfold try_except, bind, send, raise_for_status, response_json, or_raise,
    raise, ret.
  destruct (String.eqb meth "GET") eqn:Hget;
    [apply String.eqb_eq in Hget|
     destruct (String.eqb meth "POST") eqn:Hpost;
       [apply String.eqb_eq in Hpost|
        destruct (String.eqb meth "PUT") eqn:Hput;
          [apply String.eqb_eq in Hput|
           destruct (String.eqb meth "DELETE") eqn:Hdel;
             [apply String.eqb_eq in Hdel|]]]].
  5: { intros [= <- <-]. repeat split; eauto. }
  all: match goal with
       | |- context [http_at E (ticks ?w0) ?q] =>
           destruct (http_at E (ticks w0) q) as [resp|cls msg]
       end.
  all: try (destruct ((400 <=? status_code resp) && (status_code resp <? 500));
            [destruct (status_code resp =? 401)|
             destruct ((500 <=? status_code resp) && (status_code resp <? 600));
               [destruct (status_code resp =? 401)|
                destruct (json_body resp)]]).
  all: intros [= <- <-]; (split; [repeat split|]);
    (split; [first [left; eexists; reflexivity
                   | right; eexists _, _; reflexivity]|]);
    right; eexists; (split; [reflexivity|]);
    cbn [method url headers timeout]; auto.
Qed.

(** X14. The Hevy tool adapters never raise: whatever the arguments, the
    key and the provider, the outcome is a text.  With no key, neither
    stored nor in the environment, that text is the adapter's error prefix
    followed by the 401 of the client, and nothing is sent or written. *)
Theorem hevy_tools_never_raise (c : hevy_call) (w : world) :
  (exists text w', hevy_tool E c w = (Ok text, w'))
  /\ (truthy (active_api_key E w) = false ->
      hevy_tool E c w
      = (Ok (hevy_error_prefix c
             +:+ "401: Hevy not connected. Please add your Hevy API key first."),
         w)).
Proof.
  split.
  - destruct c; unfold hevy_tool, HevyTools._hevy_get_workouts,
      HevyTools._hevy_get_workout_details, HevyTools._hevy_get_routines,
      HevyTools._hevy_get_routine_details, HevyTools._hevy_create_routine,
      HevyTools._hevy_log_workout;
      apply try_except_total.
  - intros Hk.
    destruct c; unfold hevy_tool, HevyTools._hevy_get_workouts,
      HevyTools._hevy_get_workout_details, HevyTools._hevy_get_routines,
      HevyTools._hevy_get_routine_details, HevyTools._hevy_create_routine,
      HevyTools._hevy_log_workout, HevyData.get_workouts,
      HevyData.get_workout_details, HevyData.get_routines,
      HevyData.get_routine_details, HevyData.create_routine,
      HevyData.log_workout;
      cbv zeta; unfold try_except, bind;
      rewrite (hevy_request_not_connected _ _ _ _ _ Hk); reflexivity.
Qed.

(** X15. The query of the workout history.  With a key, [get_workouts]
    sends one [GET] to the workouts endpoint whose parameters are the page
    and the page size as given and each date filter exactly as given when
    it is not empty: a missing or empty date is left out, no default
    window is put in its place and no date is widened. *)
Theorem get_workouts_query (page page_size : value)
    (start_date end_date : option string) (w : world) (r : result value)
    (w' : world) :
  truthy (active_api_key E w) = true ->
  HevyData.get_workouts E page page_size start_date end_date w = (r, w') ->
  exists req,
    trace w' = (trace w ++ [Http req])%list
    /\ method req = "GET" /\ url req = Hevy.API_BASE +:+ "workouts"
    /\ json req = None
    /\ params req !! "page" = Some page
    /\ params req !! "pageSize" = Some page_size
    /\ params req !! "start_date" = date_filter start_date
    /\ params req !! "end_date" = date_filter end_date
    /\ (forall k, params req !! k <> None ->
          In k ["page"; "pageSize"; "start_date"; "end_date"]).
Proof.
  intros Hk. unfold HevyData.get_workouts, Hevy._make_hevy_request.
  unfold bind at 1. rewrite get_api_key_run, Hk.
  change (String.eqb "GET" "GET") with true. cbv iota beta zeta.
  cbn [negb].
  match goal with
  | |- context [mk_request "GET" _ ?h (Hevy.or_empty (Some ?p)) _ _ _] =>
      set (hdrs := h); set (prm := p)
  end.
  assert (Hprm :
    prm !! "page" = Some page /\ prm !! "pageSize" = Some page_size
    /\ prm !! "start_date" = date_filter start_date
    /\ prm !! "end_date" = date_filter end_date
    /\ (forall k, prm !! k <> None ->
          In k ["page"; "pageSize"; "start_date"; "end_date"])).
  { unfold prm, date_filter, truthy.
    destruct start_date as [s|]; [destruct (String.eqb s "")|];
      (destruct end_date as [e|]; [destruct (String.eqb e "")|]);
      cbn [negb];
      repeat split;
      rewrite ?(lookup_insert_ne _ "end_date") by discriminate;
      rewrite ?(lookup_insert_ne _ "start_date") by discriminate;
      rewrite ?(lookup_insert_ne _ "pageSize") by discriminate;
      rewrite ?lookup_insert_eq; rewrite ?lookup_insert_ne by discriminate;
      rewrite ?lookup_empty; try reflexivity.
    all: intros k Hin; cbn [In];
      destruct (decide (k = "page")) as [->|]; [tauto|];
      destruct (decide (k = "pageSize")) as [->|]; [tauto|];
      destruct (decide (k = "start_date")) as [->|]; [tauto|];
      destruct (decide (k = "end_date")) as [->|]; [tauto|];
      exfalso; apply Hin;
      rewrite ?lookup_insert_ne by congruence; apply lookup_empty. }
  clearbody prm hdrs.
  unfold try_except, bind, send, raise_for_status, response_json, or_raise,
    raise, ret, Hevy.or_empty.
  destruct (http_at E (ticks w) _) as [resp|cls msg].
  1: destruct ((400 <=? status_code resp) && (status_code resp <? 500));
       [destruct (status_code resp =? 401)|
        destruct ((500 <=? status_code resp) && (status_code resp <? 600));
          [destruct (status_code resp =? 401)|
           destruct (json_body resp)]].
  all: intros [= <- <-]; eexists; (split; [reflexivity|]);
    cbn [method url json params]; tauto.
Qed.

End HevyMore.

(** A key with white space around it is stored trimmed. *)
Lemma save_hevy_api_key_outcomes_witness :
  let E := Sample.env_answering Sample.settings
             (Sample.ok_response (VDict ∅)) in
  exists w',
    Hevy.save_hevy_api_key E " k1 " Sample.empty_world = (Ok KEY_SAVED, w')
    /\ Hevy._get_api_key E w' = (Ok (VStr "k1"), w').
Proof.
  intros E.
  destruct (save_hevy_api_key_outcomes E " k1 " Sample.empty_world)
    as (_ & Hsave & _).
  assert (Hs : strip " k1 " <> "") by (vm_compute; discriminate).
  destruct (Hsave Hs (Sample.ok_response (VDict ∅)) eq_refl eq_refl)
    as (w' & Hrun & _ & Hkey & _).
  exists w'. split; [exact Hrun | exact Hkey].
Defined.

(** A key in the environment: disconnecting leaves the account connected. *)
Lemma clear_hevy_api_key_then_witness :
  let E := Sample.env_answering (Sample.settings_with_hevy "k0")
             Sample.unauthorized in
  exists r w',
    Hevy.clear_hevy_api_key (Sample.world_with_key "k1") = (Ok r, w')
    /\ Hevy.get_hevy_status E w'
       = (Ok (JSONResponse
                (<["connected" := VBool true]>
                   (<["source" := VStr "environment"]> ∅)) HTTP_200_OK), w').
Proof.
  intros E.
  destruct (clear_hevy_api_key_then E (Sample.world_with_key "k1"))
    as (content & w' & Hrun & _ & _ & _ & _ & _ & _ & _ & _ & Henv).
  exists (JSONResponse content HTTP_200_OK), w'.
  split; [exact Hrun|]. apply Henv. reflexivity.
Defined.

(** A request that the provider refuses: the key file is as before. *)
Lemma make_hevy_request_frame_witness :
  let E := Sample.env_answering Sample.settings Sample.unauthorized in
  let w := Sample.world_with_key "k1" in
  api_key_file (snd (Hevy._make_hevy_request E "workouts" "GET" None None w))
  = api_key_file w.
Proof.
  intros E w.
  destruct (Hevy._make_hevy_request E "workouts" "GET" None None w)
    as [r w'] eqn:Hrun.
  exact (proj1 (proj1 (make_hevy_request_frame E _ _ _ _ _ _ _ Hrun))).
Defined.

(** No key anywhere: the tool answers with the refusal of the client. *)
Lemma hevy_tools_never_raise_witness :
  let E := Sample.env_answering Sample.settings Sample.unauthorized in
  hevy_tool E (GetRoutines (VNum 1) (VNum 50)) Sample.empty_world
  = (Ok "Error fetching routines: 401: Hevy not connected. Please add your Hevy API key first.",
     Sample.empty_world).
Proof.
  intros E.
  exact (proj2 (hevy_tools_never_raise E (GetRoutines (VNum 1) (VNum 50))
                  Sample.empty_world) eq_refl).
Defined.

(** An end date alone: it is sent as given, and no start date with it. *)
Lemma get_workouts_query_witness :
  let E := Sample.env_answering Sample.settings
             (Sample.ok_response (VDict ∅)) in
  let w := Sample.world_with_key "k1" in
  exists req,
    trace (snd (HevyData.get_workouts E (VNum 1) (VNum 10) None
                  (Some "2024-01-05") w))
    = [Http req]
    /\ params req !! "start_date" = None
    /\ params req !! "end_date" = Some (VStr "2024-01-05").
Proof.
  intros E w.
  destruct (HevyData.get_workouts E (VNum 1) (VNum 10) None
              (Some "2024-01-05") w) as [r w'] eqn:Hrun.
  destruct (get_workouts_query E _ _ _ _ w r w' eq_refl Hrun)
    as (req & Htr & _ & _ & _ & _ & _ & Hs & He & _).
  exists req. split; [exact Htr|]. split; [exact Hs | exact He].
Defined.

(** ** The SMS bridge *)
Section SmsMore.
Context (E : env) (T : services).

Lemma setting_or_config_run setting cfg key w :
  Sms.setting_or_config setting (VDict cfg) key w
  = (Ok (resolved setting cfg key), w).
Proof.
  unfold Sms.setting_or_config, resolved, default.
  destruct (truthy_ostr setting); reflexivity.
Qed.

Lemma get_twilio_client_missing w :
  twilio_installed E = false ->
  Sms._get_twilio_client E w
  = (Raise (PyError "ImportError"
              "Twilio SDK not installed. Run: pip install twilio"), w).
Proof. intros H. unfold Sms._get_twilio_client. rewrite H. reflexivity. Qed.

Lemma get_twilio_client_run w cfg :
  stored_config w = VDict cfg -> twilio_installed E = true ->
  Sms._get_twilio_client E w
  = (if truthy (resolved (twilio_account_sid (get_settings E)) cfg "account_sid")
        && truthy (resolved (twilio_auth_token (get_settings E)) cfg "auth_token")
     then Ok (resolved (twilio_account_sid (get_settings E)) cfg "account_sid",
              resolved (twilio_auth_token (get_settings E)) cfg "auth_token")
     else Raise (PyError "ValueError" "Twilio credentials not configured"),
     w).
Proof.
  intros Hcfg Hinst. unfold Sms._get_twilio_client. rewrite Hinst.
  cbn [negb]. unfold bind at 1. rewrite load_config_run, Hcfg.
  unfold bind at 1. rewrite setting_or_config_run.
  unfold bind at 1. rewrite setting_or_config_run.
  destruct (truthy (resolved (twilio_account_sid _) cfg "account_sid"));
    destruct (truthy (resolved (twilio_auth_token _) cfg "auth_token"));
    reflexivity.
Qed.

(** The send, once the sender number is resolved. *)
Lemma send_sms_run to_number message w cfg :
  stored_config w = VDict cfg ->
  truthy (resolved (twilio_phone_number (get_settings E)) cfg "phone_number")
  = true ->
  Sms.send_sms E to_number message w
  = try_except
      (client <- Sms._get_twilio_client E ;;
       sms <- Sms.messages_create E client to_number
                (resolved (twilio_phone_number (get_settings E)) cfg
                   "phone_number") message ;;
       ret (sms_sent (fst sms) (snd sms) to_number))
      (fun e => ret (sms_failed (str_exn e))) w.
Proof.
  intros Hcfg Hfrom. unfold Sms.send_sms.
  unfold bind at 1. rewrite load_config_run, Hcfg.
  unfold bind at 1. rewrite setting_or_config_run, Hfrom. reflexivity.
Qed.

(** With a sender number the send returns, and with the SDK and both
    credentials it hands exactly one message to Twilio. *)
Lemma send_sms_hands_over to_number message w cfg :
  stored_config w = VDict cfg ->
  truthy (resolved (twilio_phone_number (get_settings E)) cfg "phone_number")
  = true ->
  exists r w',
    Sms.send_sms E to_number message w = (Ok r, w')
    /\ (twilio_installed E = true ->
        truthy (resolved (twilio_account_sid (get_settings E)) cfg
                  "account_sid")
        && truthy (resolved (twilio_auth_token (get_settings E)) cfg
                     "auth_token") = true ->
        messages_sent (trace w')
        = (messages_sent (trace w)
           ++ [(resolved (twilio_account_sid (get_settings E)) cfg
                  "account_sid",
                resolved (twilio_auth_token (get_settings E)) cfg
                  "auth_token",
                to_number,
                resolved (twilio_phone_number (get_settings E)) cfg
                  "phone_number",
                message)])%list).
Proof.
  intros Hcfg Hfrom.
  rewrite (send_sms_run to_number message w cfg Hcfg Hfrom).
  unfold try_except, bind.
  destruct (twilio_installed E) eqn:Hinst.
  - rewrite (get_twilio_client_run w cfg Hcfg Hinst).
    destruct (truthy (resolved (twilio_account_sid (get_settings E)) cfg
                        "account_sid")
              && truthy (resolved (twilio_auth_token (get_settings E)) cfg
                           "auth_token")).
    + unfold Sms.messages_create. cbn [fst snd].
      destruct (twilio_create_at E (ticks w) _ _ to_number _ message);
        (eexists _, _; split; [reflexivity|]; intros _ _;
         cbn [trace log tick]; unfold messages_sent; rewrite omap_app;
         reflexivity).
    + eexists _, _. split; [reflexivity|]. intros _ Hf. discriminate Hf.
  - rewrite (get_twilio_client_missing w Hinst).
    eexists _, _. split; [reflexivity|]. intros Hf. discriminate Hf.
Qed.

(** X16. Sending a message, with the stored configuration a dictionary
    and a sender number resolved.  Each of the account id, the token and
    the sender number is the setting of the environment when that is not
    empty and the stored value otherwise.  Without the SDK or without both
    credentials nothing is handed to Twilio and the failure is returned as
    a record; otherwise exactly one message is handed over, with the
    resolved credentials and sender, and the record returned mirrors what
    Twilio did with it. *)
Theorem send_sms_delivery (to_number message : string) (w : world)
    (cfg : gmap string value) :
  stored_config w = VDict cfg ->
  truthy (resolved (twilio_phone_number (get_settings E)) cfg "phone_number")
  = true ->
  (twilio_installed E = false ->
     Sms.send_sms E to_number message w
     = (Ok (sms_failed "Twilio SDK not installed. Run: pip install twilio"), w))
  /\ (twilio_installed E = true ->
      truthy (resolved (twilio_account_sid (get_settings E)) cfg "account_sid")
      && truthy (resolved (twilio_auth_token (get_settings E)) cfg "auth_token")
      = false ->
      Sms.send_sms E to_number message w
      = (Ok (sms_failed "Twilio credentials not configured"), w))
  /\ (twilio_installed E = true ->
      truthy (resolved (twilio_account_sid (get_settings E)) cfg "account_sid")
      && truthy (resolved (twilio_auth_token (get_settings E)) cfg "auth_token")
      = true ->
      Sms.send_sms E to_number message w
      = (Ok match twilio_create_at E (ticks w)
                    (resolved (twilio_account_sid (get_settings E)) cfg
                       "account_sid")
                    (resolved (twilio_auth_token (get_settings E)) cfg
                       "auth_token")
                    to_number
                    (resolved (twilio_phone_number (get_settings E)) cfg
                       "phone_number")
                    message with
            | Created sid status => sms_sent sid status to_number
            | Rejected _ msg => sms_failed msg
            end,
         log (Message
                (resolved (twilio_account_sid (get_settings E)) cfg
                   "account_sid")
                (resolved (twilio_auth_token (get_settings E)) cfg
                   "auth_token")
                to_number
                (resolved (twilio_phone_number (get_settings E)) cfg
                   "phone_number")
                message)
           (tick w))).
Proof.
  intros Hcfg Hfrom.
  rewrite (send_sms_run to_number message w cfg Hcfg Hfrom).
  split; [|split].
  - intros Hinst. unfold try_except, bind.
    rewrite (get_twilio_client_missing w Hinst). reflexivity.
  - intros Hinst Hcred. unfold try_except, bind.
    rewrite (get_twilio_client_run w cfg Hcfg Hinst), Hcred. reflexivity.
  - intros Hinst Hcred. unfold try_except, bind.
    rewrite (get_twilio_client_run w cfg Hcfg Hinst), Hcred.
    unfold Sms.messages_create. cbn [fst snd].
    destruct (twilio_create_at E (ticks w) _ _ to_number _ message);
      reflexivity.
Qed.

(** X17. Connecting the SMS bridge never raises and always answers with
    a JSON reply; it reaches Twilio only through the account and number
    look-ups, so no message is sent.  The configuration is stored, with
    status 200, exactly when the SDK is there, the account look-up
    succeeds and the number look-up does not return an empty list: a
    number look-up that fails does not stop the configuration from being
    stored.  Every other answer has status 400 or 500 and leaves the
    stored configuration as it was. *)
Theorem connect_sms_outcomes (account_sid auth_token phone_number : string)
    (w : world) :
  exists content status w',
    SmsAdmin.connect_sms E T account_sid auth_token phone_number w
    = (Ok (JSONResponse content status), w')
    /\ trace w' = trace w
    /\ ((status = 200 /\ content !! "ok" = Some (VBool true)
         /\ config_file w'
            = Some (Json (sms_config account_sid auth_token phone_number)))
        \/ ((status = 400 \/ status = 500)
            /\ content !! "ok" = Some (VBool false)
            /\ config_file w' = config_file w))
    /\ (status = 200 <->
        twilio_installed E = true
        /\ account_fetch_at T (ticks w) (VStr account_sid) (VStr auth_token)
           = Fetched
        /\ incoming_numbers_at T (S (ticks w)) (VStr account_sid)
             (VStr auth_token) phone_number <> Listed []).
Proof.
  unfold SmsAdmin.connect_sms.
  destruct (twilio_installed E); cbn [negb].
  2: { eexists _, _, _. split; [reflexivity|]. split; [reflexivity|].
       split; [right; split; [auto|split; [apply lookup_insert_eq|reflexivity]]|].
       split; [discriminate|]. intros (Hf & _). discriminate Hf. }
  unfold try_except, bind, SmsAdmin.accounts_fetch,
    SmsAdmin.incoming_phone_numbers_list, SmsAdmin._save_config, modify, ret.
  cbn [fst snd].
  destruct (account_fetch_at T (ticks w) (VStr account_sid) (VStr auth_token))
    as [|cls msg].
  2: { eexists _, _, _. split; [reflexivity|]. split; [reflexivity|].
       split; [right; split; [auto|split; [apply lookup_insert_eq|reflexivity]]|].
       split; [discriminate|]. intros (_ & Hf & _). discriminate Hf. }
  cbn [ticks tick].
  destruct (incoming_numbers_at T (S (ticks w)) (VStr account_sid)
              (VStr auth_token) phone_number) as [[|n ns]|cls msg].
  - eexists _, _, _. split; [reflexivity|]. split; [reflexivity|].
    split; [right; split; [auto|split; [apply lookup_insert_eq|reflexivity]]|].
    split; [discriminate|]. intros (_ & _ & Hf). destruct Hf. reflexivity.
  - eexists _, _, _. split; [reflexivity|]. split; [reflexivity|].
    split; [left; split; [reflexivity|split; [apply lookup_insert_eq|reflexivity]]|].
    split; [|reflexivity]. intros _. repeat split. discriminate.
  - eexists _, _, _. split; [reflexivity|]. split; [reflexivity|].
    split; [left; split; [reflexivity|split; [apply lookup_insert_eq|reflexivity]]|].
    split; [|reflexivity]. intros _. repeat split. discriminate.
Qed.

(** A connection that answers 200 has stored what it was given, and the
    SDK is there. *)
Lemma connect_sms_stored account_sid auth_token phone_number w content w' :
  SmsAdmin.connect_sms E T account_sid auth_token phone_number w
  = (Ok (JSONResponse content 200), w') ->
  twilio_installed E = true
  /\ config_file w'
     = Some (Json (sms_config account_sid auth_token phone_number)).
Proof.
  unfold SmsAdmin.connect_sms.
  destruct (twilio_installed E); cbn [negb]; [|discriminate].
  unfold try_except, bind, SmsAdmin.accounts_fetch,
    SmsAdmin.incoming_phone_numbers_list, SmsAdmin._save_config, modify, ret.
  cbn [fst snd].
  destruct (account_fetch_at T (ticks w) (VStr account_sid) (VStr auth_token));
    [|discriminate].
  destruct (incoming_numbers_at T (ticks (tick w)) (VStr account_sid)
              (VStr auth_token) phone_number) as [[|n ns]|cls msg];
    [discriminate| |]; intros [= _ <-]; split; reflexivity.
Qed.

Lemma resolved_stored setting account_sid auth_token phone_number key x :
  (<["account_sid" := VStr account_sid]>
     (<["auth_token" := VStr auth_token]>
        (<["phone_number" := VStr phone_number]> ∅)) : gmap string value)
    !! key = Some (VStr x) ->
  resolved setting
    (<["account_sid" := VStr account_sid]>
       (<["auth_token" := VStr auth_token]>
          (<["phone_number" := VStr phone_number]> ∅))) key
  = if truthy_ostr setting then of_ostr setting else VStr x.
Proof. intros H. unfold resolved. rewrite H. reflexivity. Qed.

Lemma truthy_pick setting x :
  x <> "" ->
  truthy (if truthy_ostr setting then of_ostr setting else VStr x) = true.
Proof.
  intros Hx. destruct (truthy_ostr setting) eqn:Hs; [exact Hs|].
  apply truthy_str. exact Hx.
Qed.

(** X18. Connecting and then sending.  After the bridge was connected
    with an account id, a token and a number, none of them empty, a send
    hands exactly one message to Twilio, and each of the three is the one
    given to the connection unless the environment sets it: a setting of
    the environment wins over what was connected. *)
Theorem connect_then_send (account_sid auth_token phone_number : string)
    (to_number message : string) (w : world) (content : gmap string value)
    (w' : world) :
  SmsAdmin.connect_sms E T account_sid auth_token phone_number w
  = (Ok (JSONResponse content 200), w') ->
  account_sid <> "" -> auth_token <> "" -> phone_number <> "" ->
  exists r w'',
    Sms.send_sms E to_number message w' = (Ok r, w'')
    /\ messages_sent (trace w'')
       = (messages_sent (trace w')
          ++ [(if truthy_ostr (twilio_account_sid (get_settings E))
               then of_ostr (twilio_account_sid (get_settings E))
               else VStr account_sid,
               if truthy_ostr (twilio_auth_token (get_settings E))
               then of_ostr (twilio_auth_token (get_settings E))
               else VStr auth_token,
               to_number,
               if truthy_ostr (twilio_phone_number (get_settings E))
               then of_ostr (twilio_phone_number (get_settings E))
               else VStr phone_number,
               message)])%list.
Proof.
  intros Hrun Hsid Htok Hphone.
  destruct (connect_sms_stored _ _ _ _ _ _ Hrun) as (Hinst & Hfile).
  assert (Hcfg : stored_config w'
                 = sms_config account_sid auth_token phone_number).
  { unfold stored_config. rewrite Hfile. reflexivity. }
  unfold sms_config in Hcfg.
  destruct (send_sms_hands_over to_number message w' _ Hcfg)
    as (r & w'' & Hsend & Hmsgs).
  { rewrite (resolved_stored _ _ _ _ _ phone_number);
      [apply truthy_pick; exact Hphone|].
    rewrite !lookup_insert_ne by discriminate. apply lookup_insert_eq. }
  rewrite (resolved_stored _ _ _ _ "account_sid" account_sid) in Hmsgs
    by apply lookup_insert_eq.
  rewrite (resolved_stored _ _ _ _ "auth_token" auth_token) in Hmsgs
    by (rewrite lookup_insert_ne by discriminate; apply lookup_insert_eq).
  rewrite (resolved_stored _ _ _ _ "phone_number" phone_number) in Hmsgs
    by (rewrite !lookup_insert_ne by discriminate; apply lookup_insert_eq).
  exists r, w''. split; [exact Hsend|].
  apply Hmsgs; [exact Hinst|].
  rewrite (truthy_pick _ _ Hsid), (truthy_pick _ _ Htok). reflexivity.
Qed.

(** Without both credentials the status is answered from the files and
    the settings alone. *)
Lemma get_sms_status_no_credentials w cfg :
  stored_config w = VDict cfg ->
  truthy (resolved (twilio_account_sid (get_settings E)) cfg "account_sid")
  && truthy (resolved (twilio_auth_token (get_settings E)) cfg "auth_token")
  = false ->
  SmsAdmin.get_sms_status E T w
  = (Ok (JSONResponse {["connected" := VBool false]} HTTP_200_OK), w).
Proof.
  intros Hcfg Hc. unfold SmsAdmin.get_sms_status.
  unfold bind at 1. rewrite load_config_run, Hcfg.
  unfold bind at 1. rewrite setting_or_config_run.
  unfold bind at 1.
  destruct (truthy (resolved (twilio_account_sid (get_settings E)) cfg
                      "account_sid")) eqn:Hs.
  - rewrite setting_or_config_run. unfold bind at 1.
    rewrite setting_or_config_run. cbn [andb] in Hc. rewrite Hc. reflexivity.
  - unfold ret at 1. unfold bind at 1.
    rewrite setting_or_config_run, Hs. reflexivity.
Qed.

(** X19. The status of the bridge, with the stored configuration a
    dictionary.  Without both credentials the answer is "not connected"
    and Twilio is not asked.  With them, the account look-up is made once
    with the resolved credentials: when it succeeds the answer is
    "connected" with the resolved number and a source that is
    "environment" exactly when the environment sets the account id,
    wherever the token comes from; when it fails, or the SDK is missing,
    the answer is "not connected" with an error.  No message is sent and
    nothing is written. *)
Theorem get_sms_status_outcomes (w : world) (cfg : gmap string value) :
  stored_config w = VDict cfg ->
  (truthy (resolved (twilio_account_sid (get_settings E)) cfg "account_sid")
   && truthy (resolved (twilio_auth_token (get_settings E)) cfg "auth_token")
   = false ->
   SmsAdmin.get_sms_status E T w
   = (Ok (JSONResponse {["connected" := VBool false]} HTTP_200_OK), w))
  /\ (truthy (resolved (twilio_account_sid (get_settings E)) cfg "account_sid")
      && truthy (resolved (twilio_auth_token (get_settings E)) cfg "auth_token")
      = true ->
      twilio_installed E = true ->
      SmsAdmin.get_sms_status E T w
      = (Ok match account_fetch_at T (ticks w)
                    (resolved (twilio_account_sid (get_settings E)) cfg
                       "account_sid")
                    (resolved (twilio_auth_token (get_settings E)) cfg
                       "auth_token") with
            | Fetched =>
                JSONResponse
                  (<["connected" := VBool true]>
                   (<["phone_number" :=
                        resolved (twilio_phone_number (get_settings E)) cfg
                          "phone_number"]>
                    (<["source" :=
                         VStr (if truthy_ostr
                                    (twilio_account_sid (get_settings E))
                               then "environment" else "stored")]> ∅)))
                  HTTP_200_OK
            | FetchFailed _ _ =>
                JSONResponse
                  (<["connected" := VBool false]>
                   (<["error" :=
                        VStr "Invalid credentials or connection error"]> ∅))
                  HTTP_200_OK
            end,
         tick w))
  /\ (truthy (resolved (twilio_account_sid (get_settings E)) cfg "account_sid")
      && truthy (resolved (twilio_auth_token (get_settings E)) cfg "auth_token")
      = true ->
      twilio_installed E = false ->
      SmsAdmin.get_sms_status E T w
      = (Ok (JSONResponse
               (<["connected" := VBool false]>
                (<["error" :=
                     VStr "Invalid credentials or connection error"]> ∅))
               HTTP_200_OK),
         w)).
Proof.
  intros Hcfg.
  set (sid := resolved (twilio_account_sid (get_settings E)) cfg "account_sid").
  set (tok := resolved (twilio_auth_token (get_settings E)) cfg "auth_token").
  set (phone := resolved (twilio_phone_number (get_settings E)) cfg
                  "phone_number").
  assert (Hcred :
    (if truthy sid
     then Sms.setting_or_config (twilio_auth_token (get_settings E))
            (VDict cfg) "auth_token"
     else ret sid) w
    = (Ok (if truthy sid then tok else sid), w)).
  { destruct (truthy sid); [apply setting_or_config_run|reflexivity]. }
  assert (Hhas : truthy (if truthy sid then tok else sid)
                 = truthy sid && truthy tok).
  { destruct (truthy sid) eqn:Hs; [reflexivity|exact Hs]. }
  eassert (Hhead : SmsAdmin.get_sms_status E T w = _).
  { unfold SmsAdmin.get_sms_status.
    unfold bind at 1. rewrite load_config_run, Hcfg.
    unfold bind at 1. rewrite setting_or_config_run. fold sid.
    unfold bind at 1. rewrite Hcred.
    unfold bind at 1. rewrite setting_or_config_run. fold phone.
    rewrite Hhas. reflexivity. }
  rewrite Hhead. clear Hhead.
  split; [|split].
  - intros Hc. rewrite Hc. reflexivity.
  - intros Hc Hinst. rewrite Hc. unfold try_except, bind.
    rewrite (get_twilio_client_run w cfg Hcfg Hinst). fold sid tok.
    rewrite Hc. unfold SmsAdmin.accounts_fetch. cbn [fst snd].
    destruct (account_fetch_at T (ticks w) sid tok); reflexivity.
  - intros Hc Hinst. rewrite Hc. unfold try_except, bind.
    rewrite (get_twilio_client_missing w Hinst). reflexivity.
Qed.

(** X20. Disconnecting the bridge always answers 200, deletes the stored
    configuration and touches nothing else; done twice it changes nothing
    the second time.  Afterwards only the environment counts: without both
    credentials there the status is "not connected" with Twilio not asked,
    and without a number there a send raises [ValueError]. *)
Theorem disconnect_sms_then (w : world) :
  exists w',
    SmsAdmin.disconnect_sms w
    = (Ok (JSONResponse {["ok" := VBool true]} HTTP_200_OK), w')
    /\ config_file w' = None
    /\ token_file w' = token_file w /\ state_file w' = state_file w
    /\ api_key_file w' = api_key_file w /\ trace w' = trace w
    /\ ticks w' = ticks w
    /\ SmsAdmin.disconnect_sms w'
       = (Ok (JSONResponse {["ok" := VBool true]} HTTP_200_OK), w')
    /\ (truthy_ostr (twilio_account_sid (get_settings E))
        && truthy_ostr (twilio_auth_token (get_settings E)) = false ->
        SmsAdmin.get_sms_status E T w'
        = (Ok (JSONResponse {["connected" := VBool false]} HTTP_200_OK), w'))
    /\ (truthy_ostr (twilio_phone_number (get_settings E)) = false ->
        forall to_number message,
          Sms.send_sms E to_number message w'
          = (Raise (PyError "ValueError" "Twilio phone number not configured"),
             w')).
Proof.
  set (w' := match config_file w with
             | Some _ => set_config_file None w
             | None => w
             end).
  assert (Hnone : config_file w' = None).
  { unfold w'. destruct (config_file w) eqn:Hf; [reflexivity|exact Hf]. }
  assert (Hcfg : stored_config w' = VDict ∅).
  { unfold stored_config. rewrite Hnone. reflexivity. }
  assert (Hres : forall setting key,
            truthy (resolved setting (∅ : gmap string value) key)
            = truthy_ostr setting).
  { intros setting key. unfold resolved. rewrite lookup_empty.
    destruct (truthy_ostr setting) eqn:Hs; [exact Hs|reflexivity]. }
  exists w'. split.
  { unfold SmsAdmin.disconnect_sms, w'. mstep.
    destruct (config_file w); reflexivity. }
  split; [exact Hnone|].
  repeat split.
  1-5: unfold w'; destruct (config_file w); reflexivity.
  - unfold SmsAdmin.disconnect_sms. mstep. rewrite Hnone. reflexivity.
  - intros Hc.
    apply (get_sms_status_no_credentials w' ∅ Hcfg).
    rewrite !Hres. exact Hc.
  - intros Hp to_number message.
    apply (send_sms_raises E to_number message w' VNone); [|reflexivity].
    unfold sender_number. rewrite Hp, Hcfg. reflexivity.
Qed.

(** The inbound message, once the agent has answered or failed. *)
Lemma handle_incoming_run from_number message_body w :
  SmsAdmin.handle_incoming_sms E T from_number message_body w
  = match execute_sync_at T (ticks w) message_body with
    | Replied response =>
        match Sms.send_sms E from_number response (tick w) with
        | (Ok _, w1) => (Ok "Message processed", w1)
        | (Raise e, w1) =>
            match Sms.send_sms E from_number APOLOGY w1 with
            | (Ok _, w2) => (Ok ("Error: " +:+ str_exn e), w2)
            | (Raise e', w2) => (Raise e', w2)
            end
        end
    | Crashed cls msg =>
        match Sms.send_sms E from_number APOLOGY (tick w) with
        | (Ok _, w2) => (Ok ("Error: " +:+ msg), w2)
        | (Raise e', w2) => (Raise e', w2)
        end
    end.
Proof.
  unfold SmsAdmin.handle_incoming_sms, SmsAdmin.execute_sync, try_except,
    bind, ret, APOLOGY.
  destruct (execute_sync_at T (ticks w) message_body) as [response|cls msg].
  - destruct (Sms.send_sms E from_number response (tick w)) as [[v|e] w1];
      reflexivity.
  - reflexivity.
Qed.

(** X21. An inbound message, with the stored configuration a dictionary.
    Without a sender number the handler raises [ValueError] whatever the
    agent did, because the branch that reports a failure sends a message
    as well.  With a sender number it never raises: when the agent
    answered, the answer is sent to the number the message came from and
    the result is "Message processed", also when Twilio refused the
    message or the credentials were missing; when the agent failed, the
    apology is sent and the result is the text of the failure.  With the
    SDK and both credentials, exactly one message is handed to Twilio. *)
Theorem handle_incoming_sms_outcomes (from_number message_body : string)
    (w : world) (cfg : gmap string value) :
  stored_config w = VDict cfg ->
  (truthy (resolved (twilio_phone_number (get_settings E)) cfg "phone_number")
   = false ->
   SmsAdmin.handle_incoming_sms E T from_number message_body w
   = (Raise (PyError "ValueError" "Twilio phone number not configured"),
      tick w))
  /\ (truthy (resolved (twilio_phone_number (get_settings E)) cfg
                "phone_number") = true ->
      exists w',
        SmsAdmin.handle_incoming_sms E T from_number message_body w
        = (Ok match execute_sync_at T (ticks w) message_body with
              | Replied _ => "Message processed"
              | Crashed _ msg => "Error: " +:+ msg
              end, w')
        /\ (twilio_installed E = true ->
            truthy (resolved (twilio_account_sid (get_settings E)) cfg
                      "account_sid")
            && truthy (resolved (twilio_auth_token (get_settings E)) cfg
                         "auth_token") = true ->
            messages_sent (trace w')
            = (messages_sent (trace w)
               ++ [(resolved (twilio_account_sid (get_settings E)) cfg
                      "account_sid",
                    resolved (twilio_auth_token (get_settings E)) cfg
                      "auth_token",
                    from_number,
                    resolved (twilio_phone_number (get_settings E)) cfg
                      "phone_number",
                    match execute_sync_at T (ticks w) message_body with
                    | Replied response => response
                    | Crashed _ _ => APOLOGY
                    end)])%list)).
Proof.
  intros Hcfg.
  assert (Hcfg1 : stored_config (tick w) = VDict cfg) by exact Hcfg.
  rewrite handle_incoming_run.
  split.
  - intros Hfrom.
    assert (Hraise : forall message,
      Sms.send_sms E from_number message (tick w)
      = (Raise (PyError "ValueError" "Twilio phone number not configured"),
         tick w)).
    { intros message.
      apply (send_sms_raises E from_number message (tick w)
               (resolved (twilio_phone_number (get_settings E)) cfg
                  "phone_number")); [|exact Hfrom].
      unfold sender_number, resolved, default in *. rewrite Hcfg1.
      destruct (truthy_ostr (twilio_phone_number (get_settings E)));
        reflexivity. }
    destruct (execute_sync_at T (ticks w) message_body);
      rewrite ?Hraise; reflexivity.
  - intros Hfrom.
    assert (Hsend := fun message =>
      send_sms_hands_over from_number message (tick w) cfg Hcfg1 Hfrom).
    cbn [trace tick] in Hsend.
    destruct (execute_sync_at T (ticks w) message_body) as [response|cls msg].
    + destruct (Hsend response) as (r & w' & -> & Hmsgs).
      exists w'. split; [reflexivity|exact Hmsgs].
    + destruct (Hsend APOLOGY) as (r & w' & -> & Hmsgs).
      exists w'. split; [reflexivity|exact Hmsgs].
Qed.

End SmsMore.

(** Credentials and number from the environment: one message, queued. *)
Lemma send_sms_delivery_witness :
  let E := Sample.env_answering Sample.settings_with_twilio
             Sample.unauthorized in
  Sms.send_sms E "+15551234567" "hello" Sample.empty_world
  = (Ok (sms_sent "SM1" "queued" "+15551234567"),
     log (Message (VStr "AC1") (VStr "secret") "+15551234567"
            (VStr "+15550001111") "hello")
       (tick Sample.empty_world)).
Proof.
  intros E.
  destruct (send_sms_delivery E "+15551234567" "hello" Sample.empty_world ∅
              eq_refl eq_refl) as (_ & _ & H).
  exact (H eq_refl eq_refl).
Defined.

(** The number look-up fails: the configuration is stored all the same. *)
Lemma connect_sms_outcomes_witness :
  let E := Sample.env_answering Sample.settings Sample.unauthorized in
  let T := mk_services (fun _ _ _ => Fetched)
             (fun _ _ _ _ => ListFailed "TwilioRestException" "timeout")
             (fun _ _ => Crashed "RuntimeError" "model unavailable") in
  exists content w',
    SmsAdmin.connect_sms E T "AC9" "token" "+15550002222" Sample.empty_world
    = (Ok (JSONResponse content 200), w')
    /\ config_file w' = Some (Json (sms_config "AC9" "token" "+15550002222")).
Proof.
  intros E T.
  destruct (connect_sms_outcomes E T "AC9" "token" "+15550002222"
              Sample.empty_world)
    as (content & status & w' & Hrun & _ & Hcases & Hiff).
  assert (Hs : status = 200).
  { apply Hiff. split; [reflexivity|]. split; [reflexivity|discriminate]. }
  subst status.
  destruct Hcases as [(_ & _ & Hf)|([Hs|Hs] & _)]; try discriminate Hs.
  exists content, w'. split; [exact Hrun | exact Hf].
Defined.

(** Connected with nothing in the environment: the send uses what was
    connected. *)
Lemma connect_then_send_witness :
  let E := Sample.env_answering Sample.settings Sample.unauthorized in
  let T := SampleSms.answering in
  exists content w' r w'',
    SmsAdmin.connect_sms E T "AC9" "token" "+15550002222" Sample.empty_world
    = (Ok (JSONResponse content 200), w')
    /\ Sms.send_sms E "+15551234567" "hello" w' = (Ok r, w'')
    /\ messages_sent (trace w'')
       = [(VStr "AC9", VStr "token", "+15551234567", VStr "+15550002222",
           "hello")].
Proof.
  intros E T.
  eassert (Hrun : SmsAdmin.connect_sms E T "AC9" "token" "+15550002222"
                    Sample.empty_world = (Ok (JSONResponse _ 200), _))
    by (vm_compute; reflexivity).
  destruct (connect_then_send E T "AC9" "token" "+15550002222"
              "+15551234567" "hello" _ _ _ Hrun)
    as (r & w'' & Hsend & Hmsgs); try discriminate.
  eexists _, _, r, w''. split; [exact Hrun|]. split; [exact Hsend|].
  exact Hmsgs.
Defined.

(** Credentials stored, none in the environment: connected, from the
    store. *)
Lemma get_sms_status_outcomes_witness :
  let E := Sample.env_answering Sample.settings Sample.unauthorized in
  let w := SampleSms.world_with_config "AC9" "token" "+15550002222" in
  SmsAdmin.get_sms_status E SampleSms.answering w
  = (Ok (JSONResponse
           (<["connected" := VBool true]>
            (<["phone_number" := VStr "+15550002222"]>
             (<["source" := VStr "stored"]> ∅)))
           HTTP_200_OK),
     tick w).
Proof.
  intros E w.
  destruct (get_sms_status_outcomes E SampleSms.answering w
              (<["account_sid" := VStr "AC9"]>
               (<["auth_token" := VStr "token"]>
                (<["phone_number" := VStr "+15550002222"]> ∅)))
              eq_refl) as (_ & H & _).
  assert (Hc : truthy (resolved (twilio_account_sid (get_settings E))
                         (<["account_sid" := VStr "AC9"]>
                          (<["auth_token" := VStr "token"]>
                           (<["phone_number" := VStr "+15550002222"]> ∅)))
                         "account_sid")
               && truthy (resolved (twilio_auth_token (get_settings E))
                            (<["account_sid" := VStr "AC9"]>
                             (<["auth_token" := VStr "token"]>
                              (<["phone_number" := VStr "+15550002222"]> ∅)))
                            "auth_token") = true)
    by (vm_compute; reflexivity).
  specialize (H Hc eq_refl). vm_compute in H. vm_compute. exact H.
Defined.

(** Nothing in the environment: after disconnecting, a send raises. *)
Lemma disconnect_sms_then_witness :
  let E := Sample.env_answering Sample.settings Sample.unauthorized in
  let w := SampleSms.world_with_config "AC9" "token" "+15550002222" in
  exists w',
    SmsAdmin.disconnect_sms w
    = (Ok (JSONResponse {["ok" := VBool true]} HTTP_200_OK), w')
    /\ Sms.send_sms E "+15551234567" "hello" w'
       = (Raise (PyError "ValueError" "Twilio phone number not configured"),
          w').
Proof.
  intros E w.
  destruct (disconnect_sms_then E SampleSms.answering w)
    as (w' & Hrun & _ & _ & _ & _ & _ & _ & _ & _ & Hsend).
  exists w'. split; [exact Hrun|]. apply Hsend. reflexivity.
Defined.

(** The agent fails: the apology is sent and the failure is the result. *)
Lemma handle_incoming_sms_outcomes_witness :
  let E := Sample.env_answering Sample.settings_with_twilio
             Sample.unauthorized in
  exists w',
    SmsAdmin.handle_incoming_sms E SampleSms.failing "+15559998888" "hi"
      Sample.empty_world
    = (Ok "Error: model unavailable", w')
    /\ messages_sent (trace w')
       = [(VStr "AC1", VStr "secret", "+15559998888", VStr "+15550001111",
           APOLOGY)].
Proof.
  intros E.
  destruct (handle_incoming_sms_outcomes E SampleSms.failing "+15559998888"
              "hi" Sample.empty_world ∅ eq_refl) as (_ & H).
  destruct (H eq_refl) as (w' & Hrun & Hmsgs).
  exists w'. split; [exact Hrun|]. exact (Hmsgs eq_refl eq_refl).
Defined.

(** ** Files that cannot be read *)
Section Stores.
Context (E : env).

(** X22. What the three stores do with a file they cannot use.  A token
    file that is not JSON counts as no record: reads, data requests and
    the status check answer "not connected" and send nothing; the file is
    left in place.  A token file holding JSON that is not empty and not an
    object makes a read raise [AttributeError].  A key file that is not
    JSON, or is JSON but not an object, is passed over for the key of the
    environment.  A configuration file that is not JSON counts as an empty
    configuration, so that without a number in the environment a send
    raises [ValueError]. *)
Theorem unreadable_stores (w : world) :
  (token_file w = Some Garbage ->
     Whoop._get_valid_token E w = (Ok VNone, w)
     /\ (forall ep ps,
           Whoop._make_whoop_request E ep ps w = (Raise NOT_CONNECTED, w))
     /\ Whoop.get_whoop_status E w
        = (Ok (JSONResponse {["connected" := VBool false]} HTTP_200_OK), w))
  /\ (forall v,
        token_file w = Some (Json v) -> truthy v = true ->
        is_dict v = false ->
        exists msg,
          Whoop._get_valid_token E w
          = (Raise (PyError "AttributeError" msg), w))
  /\ (forall v,
        api_key_file w = Some Garbage
        \/ (api_key_file w = Some (Json v) /\ is_dict v = false) ->
        Hevy._get_api_key E w
        = (Ok (of_ostr (hevy_api_key (get_settings E))), w))
  /\ (config_file w = Some Garbage ->
      Sms._load_config w = (Ok (VDict ∅), w)
      /\ (truthy_ostr (twilio_phone_number (get_settings E)) = false ->
          forall to_number message,
            Sms.send_sms E to_number message w
            = (Raise (PyError "ValueError"
                        "Twilio phone number not configured"), w))).
Proof.
  split; [|split; [|split]].
  - intros Hf.
    assert (Hread : Whoop._get_valid_token E w = (Ok VNone, w)).
    { unfold Whoop._get_valid_token. mstep. rewrite Hf. reflexivity. }
    split; [exact Hread|]. split.
    + intros ep ps.
      apply (make_request_without_token E w VNone w ep ps Hread).
      reflexivity.
    + unfold Whoop.get_whoop_status. mstep. rewrite Hf. reflexivity.
  - intros v Hf Hv Hd. unfold Whoop._get_valid_token. mstep.
    rewrite Hf, Hv. unfold Whoop._is_token_expired. mstep.
    destruct v; try discriminate Hd; eexists; reflexivity.
  - intros v Hk. rewrite get_api_key_run. unfold active_api_key.
    assert (Hs : stored_api_key w = VNone).
    { unfold stored_api_key.
      destruct Hk as [-> | [-> Hd]]; [reflexivity|].
      destruct v; try reflexivity. discriminate Hd. }
    rewrite Hs. reflexivity.
  - intros Hc.
    assert (Hcfg : stored_config w = VDict ∅).
    { unfold stored_config. rewrite Hc. reflexivity. }
    split.
    + rewrite load_config_run, Hcfg. reflexivity.
    + intros Hp to_number message.
      apply (send_sms_raises E to_number message w VNone); [|reflexivity].
      unfold sender_number. rewrite Hp, Hcfg. reflexivity.
Qed.

End Stores.

(** A token file that is not JSON: not connected, and the file stays. *)
Lemma unreadable_stores_witness :
  let E := Sample.env_answering Sample.settings Sample.unauthorized in
  let w := mk_world (Some Garbage) None None None [] 0 in
  Whoop._make_whoop_request E "recovery" ∅ w = (Raise NOT_CONNECTED, w).
Proof.
  intros E w.
  exact (proj1 (proj2 (proj1 (unreadable_stores E w) eq_refl)) "recovery" ∅).
Defined.
